(** * Learning-path progression of the reading platform

    A shallow embedding of the learning-path subsystem of the backend
    ([src/api.py]: [generate_learning_path], [update_path_activity];
    [src/models.py]: [ChildProfile], [LearningPath], [PathActivity]) and the
    properties of its progression state machine.

    The relational store is modelled as three tables, each a list of rows in
    insertion order.  Python integers are [Z], strings are [string], the
    floating-point arithmetic of the percentage computation is IEEE 754
    binary64 as specified by [SpecFloat].  The body of a status update is
    whatever JSON value the request decodes to; an exception in a handler is
    the 500 reply of the framework, with the store as it was. *)

From Stdlib Require Import ZArith List String Bool Lia.
From Stdlib Require Import SpecFloat DecimalString.
From Stdlib Require Import Sorted Permutation.
Import ListNotations.

Local Open Scope string_scope.
Local Open Scope list_scope.
Local Open Scope Z_scope.

(** ** The fragment of Python the handlers rely on *)

Module Py.

(** Precision and exponent bound of a Python [float] (binary64). *)
Definition prec : Z := 53.
Definition emax : Z := 1024.

(** The integer [n] as the binary float [n * 2^0].  The mantissa is left as
    it is: [SFdiv] and [SFmul] round the exact result once, which is what
    [int / int] and [float * int] do on machine doubles. *)
Definition float_of_int (n : Z) : spec_float :=
  match n with
  | Z0 => S754_zero false
  | Zpos p => S754_finite false p 0
  | Zneg p => S754_finite true p 0
  end.

(** [a / b] on two integers (true division). *)
Definition truediv (a b : Z) : spec_float :=
  SFdiv prec emax (float_of_int a) (float_of_int b).

(** [x * n] for a float [x] and an integer [n]. *)
Definition mul_int (x : spec_float) (n : Z) : spec_float :=
  SFmul prec emax x (float_of_int n).

(** [int(x)]: truncation toward zero; infinities and NaN raise. *)
Definition int (x : spec_float) : option Z :=
  match x with
  | S754_zero _ => Some 0
  | S754_finite s m e =>
      let a := match e with
               | Zneg k => Z.shiftr (Zpos m) (Zpos k)
               | _ => Z.shiftl (Zpos m) e
               end in
      Some (if s then - a else a)
  | S754_infinity _ | S754_nan => None
  end.

(** [str(n)], as an f-string formats an integer. *)
Definition str (n : Z) : string := NilZero.string_of_int (Z.to_int n).

(** A decoded JSON value ([JOther] stands for a float, an array or an
    object), and a JSON object as the [dict] it decodes to. *)
Inductive json : Type :=
| JNull
| JBool (b : bool)
| JNum (n : Z)
| JStr (s : string)
| JOther.

Definition dict : Type := list (string * json).

(** [d.get(key)]: [None] when [key not in d]. *)
Fixpoint get (key : string) (d : dict) : option json :=
  match d with
  | [] => None
  | (k, v) :: d' => if String.eqb k key then Some v else get key d'
  end.

(** [v in l] for a list [l] of string literals: only an equal string is
    a member. *)
Definition in_strings (v : json) (l : list string) : bool :=
  match v with
  | JStr s => existsb (String.eqb s) l
  | _ => false
  end.

(** What [request.get_json()] returns: the decoded body, which is any JSON
    value and not only an object.  [BNull] is [None]. *)
Inductive body : Type :=
| BNull
| BBool (b : bool)
| BInt (n : Z)
| BFloat (x : spec_float)
| BStr (s : string)
| BList (items : list json)
| BDict (d : dict).

(** [key == v] for a string [key]: only an equal string is equal. *)
Definition eq_str (key : string) (v : json) : bool :=
  match v with
  | JStr s => String.eqb s key
  | _ => false
  end.

(** [sub in s] on two strings: [sub] occurs somewhere in [s]. *)
Fixpoint occurs (sub s : string) : bool :=
  String.prefix sub s
  || match s with
     | EmptyString => false
     | String _ s' => occurs sub s'
     end.

(** [key in data] for a string [key]: a key of a dict, an element of a
    list, a substring of a string.  On [None], a bool or a number the
    operator raises a TypeError, which is the result [None] here. *)
Definition contains (key : string) (data : body) : option bool :=
  match data with
  | BDict d => Some (match get key d with Some _ => true | None => false end)
  | BList items => Some (existsb (eq_str key) items)
  | BStr s => Some (occurs key s)
  | BNull | BBool _ | BInt _ | BFloat _ => None
  end.

(** [data[key]] for a string [key]: the entry of a dict.  A missing key
    (KeyError) and every value that is not a dict (TypeError: a list and a
    string take integer indices only) raise, which is the result [None]. *)
Definition getitem (key : string) (data : body) : option json :=
  match data with
  | BDict d => get key d
  | _ => None
  end.

End Py.

(** ** Data model ([src/models.py]) *)

Module ChildProfile.
(** The columns of [child_profiles] that the subsystem reads. *)
Record t : Type := mk {
  id : Z;
  user_id : Z;
  name : string;
  age : Z;
  reading_level : string
}.
End ChildProfile.

Module LearningPath.
Record t : Type := mk {
  id : Z;
  child_profile_id : Z;
  title : string;
  description : string;
  current_stage : Z;
  total_stages : Z;
  progress_percentage : Z;
  created_at : Z;
  last_updated : Z
}.

Definition set_current_stage (v : Z) (p : t) : t :=
  mk (id p) (child_profile_id p) (title p) (description p) v
     (total_stages p) (progress_percentage p) (created_at p) (last_updated p).

Definition set_progress_percentage (v : Z) (p : t) : t :=
  mk (id p) (child_profile_id p) (title p) (description p) (current_stage p)
     (total_stages p) v (created_at p) (last_updated p).

Definition set_last_updated (v : Z) (p : t) : t :=
  mk (id p) (child_profile_id p) (title p) (description p) (current_stage p)
     (total_stages p) (progress_percentage p) (created_at p) v.
End LearningPath.

Module PathActivity.
Record t : Type := mk {
  id : Z;
  learning_path_id : Z;
  title : string;
  description : string;
  activity_type : string;
  content_url : option string;
  stage_number : Z;
  status : string;
  is_completed : bool;
  created_at : Z
}.

Definition set_status (v : string) (a : t) : t :=
  mk (id a) (learning_path_id a) (title a) (description a) (activity_type a)
     (content_url a) (stage_number a) v (is_completed a) (created_at a).

Definition set_is_completed (v : bool) (a : t) : t :=
  mk (id a) (learning_path_id a) (title a) (description a) (activity_type a)
     (content_url a) (stage_number a) (status a) v (created_at a).
End PathActivity.

(** ** The store *)

Record Database : Type := mkDatabase {
  child_profiles : list ChildProfile.t;
  learning_paths : list LearningPath.t;
  path_activities : list PathActivity.t
}.

Definition empty_db : Database := mkDatabase [] [] [].

(** Primary key given to a new row: one more than the largest key of the
    table (1 in an empty table), hence a key no row of the table has. *)
Definition next_id (ids : list Z) : Z := 1 + fold_right Z.max 0 ids.

(** [Model.query.get(k)]: the row under primary key [k], if any. *)
Definition lookup {A : Type} (key : A -> Z) (k : Z) (rows : list A) : option A :=
  find (fun r => key r =? k) rows.

Definition get_profile (db : Database) (k : Z) : option ChildProfile.t :=
  lookup ChildProfile.id k (child_profiles db).

Definition get_path (db : Database) (k : Z) : option LearningPath.t :=
  lookup LearningPath.id k (learning_paths db).

Definition get_activity (db : Database) (k : Z) : option PathActivity.t :=
  lookup PathActivity.id k (path_activities db).

(** [PathActivity.query.filter_by(learning_path_id=pid)] *)
Definition activities_of (pid : Z) (rows : list PathActivity.t)
  : list PathActivity.t :=
  filter (fun a => PathActivity.learning_path_id a =? pid) rows.

(** [PathActivity.query.filter_by(learning_path_id=pid, is_completed=True)] *)
Definition completed_of (pid : Z) (rows : list PathActivity.t)
  : list PathActivity.t :=
  filter (fun a => (PathActivity.learning_path_id a =? pid)
                   && PathActivity.is_completed a) rows.

(** [.count()] *)
Definition count {A : Type} (rows : list A) : Z := Z.of_nat (List.length rows).

(** Writing a modified row back under its primary key. *)
Definition save {A : Type} (key : A -> Z) (a : A) (rows : list A) : list A :=
  map (fun r => if key r =? key a then a else r) rows.

Definition save_activity (a : PathActivity.t) (rows : list PathActivity.t)
  : list PathActivity.t :=
  save PathActivity.id a rows.

Definition save_path (p : LearningPath.t) (rows : list LearningPath.t)
  : list LearningPath.t :=
  save LearningPath.id p rows.

(** Every activity row references an existing path (the foreign key of
    [path_activities.learning_path_id]). *)
Definition foreign_keys_ok (db : Database) : bool :=
  forallb (fun a =>
             existsb (fun p => LearningPath.id p =? PathActivity.learning_path_id a)
                     (learning_paths db))
          (path_activities db).

(** ** Responses of the endpoint *)

Record Response : Type := mkResponse {
  status_code : Z;
  message : string;
  activity : option PathActivity.t
}.

Definition not_found : Response := mkResponse 404 "Resource not found" None.
Definition server_error : Response := mkResponse 500 "Internal server error" None.
Definition unauthorized : Response := mkResponse 403 "Unauthorized" None.
Definition activity_updated (a : PathActivity.t) : Response :=
  mkResponse 200 "Activity updated" (Some a).

(** ** Progress tracker ([update_path_activity], src/api.py) *)

Definition valid_statuses : list string := ["pending"; "in-progress"; "completed"].

(** [int((completed_activities / total_activities) * 100)] *)
Definition percentage (completed total : Z) : option Z :=
  Py.int (Py.mul_int (Py.truediv completed total) 100).

(** The body of the handler once the activity, its path and the ownership
    check are settled: the status update, the cascade on the path, and the
    commit.  The count queries run against the flushed session, so they see
    the activity as just modified.  An exception ends the request with
    Flask's 500 reply and leaves the store as it was: the guard raises
    before anything is assigned, when [data] is not a value that ['status'
    in data] and [data['status']] accept. *)
Definition apply_activity_status (db : Database) (activity : PathActivity.t)
    (path : LearningPath.t) (data : Py.body) (now : Z) : Database * Response :=
  match Py.contains "status" data with
  | None => (db, server_error)
  | Some false => (db, activity_updated activity)
  | Some true =>
  match Py.getitem "status" data with
  | None => (db, server_error)
  | Some v =>
    if Py.in_strings v valid_statuses then
      match v with
      | Py.JStr s =>
        let activity := PathActivity.set_status s activity in
        if String.eqb s "completed" then
          let activity := PathActivity.set_is_completed true activity in
          let rows := save_activity activity (path_activities db) in
          if LearningPath.current_stage path =? PathActivity.stage_number activity then
            let path :=
              if LearningPath.current_stage path <? LearningPath.total_stages path
              then LearningPath.set_current_stage
                     (LearningPath.current_stage path + 1) path
              else path in
            let completed_activities :=
              count (completed_of (LearningPath.id path) rows) in
            let total_activities :=
              count (activities_of (LearningPath.id path) rows) in
            if 0 <? total_activities then
              match percentage completed_activities total_activities with
              | Some pct =>
                let path := LearningPath.set_progress_percentage pct path in
                let path := LearningPath.set_last_updated now path in
                (mkDatabase (child_profiles db)
                            (save_path path (learning_paths db)) rows,
                 activity_updated activity)
              | None => (db, server_error)
              end
            else
              (mkDatabase (child_profiles db)
                          (save_path path (learning_paths db)) rows,
               activity_updated activity)
          else
            (mkDatabase (child_profiles db) (learning_paths db) rows,
             activity_updated activity)
        else
          (mkDatabase (child_profiles db) (learning_paths db)
                      (save_activity activity (path_activities db)),
           activity_updated activity)
      | _ => (db, activity_updated activity)
      end
    else (db, activity_updated activity)
  end
  end.

(** [PUT /learning-paths/activities/<activity_id>] for the logged-in user
    [current_user], where [request.get_json()] returns [data], at clock
    reading [now]. *)
Definition update_path_activity (db : Database) (current_user : Z)
    (activity_id : Z) (data : Py.body) (now : Z) : Database * Response :=
  match get_activity db activity_id with
  | None => (db, not_found)
  | Some activity =>
    match get_path db (PathActivity.learning_path_id activity) with
    | None => (db, server_error)
    | Some path =>
      match get_profile db (LearningPath.child_profile_id path) with
      | None => (db, server_error)
      | Some profile =>
        if negb (ChildProfile.user_id profile =? current_user)
        then (db, unauthorized)
        else apply_activity_status db activity path data now
      end
    end
  end.

(** ** Path generator ([generate_learning_path], src/api.py) *)

(** The hardcoded [activities] list: title, description, activity_type,
    stage_number. *)
Definition activities : list (string * string * string * Z) :=
  [ ("Reading Assessment",
     "Complete an initial reading assessment to identify your strengths and areas for improvement.",
     "assessment", 1);
    ("Vocabulary Building",
     "Practice with new words to expand your vocabulary.",
     "exercise", 2);
    ("Guided Reading",
     "Read a story with interactive guidance to help with comprehension.",
     "reading", 3);
    ("Comprehension Quiz",
     "Answer questions about the story to check your understanding.",
     "quiz", 4);
    ("Creative Response",
     "Create your own story or drawing inspired by what you read.",
     "creative", 5) ].

(** [db.session.add(row)] followed by the flush that assigns the key. *)
Definition add_path (mkrow : Z -> LearningPath.t) (db : Database)
  : Database * LearningPath.t :=
  let row := mkrow (next_id (map LearningPath.id (learning_paths db))) in
  (mkDatabase (child_profiles db) (learning_paths db ++ [row]) (path_activities db),
   row).

Definition add_activity (mkrow : Z -> PathActivity.t) (db : Database) : Database :=
  let row := mkrow (next_id (map PathActivity.id (path_activities db))) in
  mkDatabase (child_profiles db) (learning_paths db) (path_activities db ++ [row]).

Definition generate_learning_path (db : Database) (profile : ChildProfile.t)
    (now : Z) : Database * LearningPath.t :=
  let '(db, path) :=
    add_path (fun k =>
      LearningPath.mk k (ChildProfile.id profile)
        ("Personalized Reading Journey for " ++ ChildProfile.name profile)%string
        ("A customized learning path designed for a "
           ++ Py.str (ChildProfile.age profile) ++ "-year-old reader at "
           ++ ChildProfile.reading_level profile ++ " level.")%string
        1 5 0 now now) db in
  let db :=
    fold_left (fun db activity_data =>
      let '(title, description, activity_type, stage_number) := activity_data in
      add_activity (fun k =>
        PathActivity.mk k (LearningPath.id path) title description
          activity_type None stage_number "pending" false now) db)
      activities db in
  (db, path).

(** ** Request traces *)

Inductive Request : Type :=
| UpdatePathActivity (current_user activity_id : Z) (data : Py.body) (now : Z)
| GenerateLearningPath (profile : ChildProfile.t) (now : Z).

Definition step (db : Database) (r : Request) : Database :=
  match r with
  | UpdatePathActivity u k data now => fst (update_path_activity db u k data now)
  | GenerateLearningPath profile now => fst (generate_learning_path db profile now)
  end.

Definition run (db : Database) (rs : list Request) : Database :=
  fold_left step rs db.

(** ** Integrity constraints and reference notions *)

Fixpoint unique_ids (ids : list Z) : bool :=
  match ids with
  | [] => true
  | k :: ids' => negb (existsb (Z.eqb k) ids') && unique_ids ids'
  end.

(** The primary key of [path_activities] identifies a row. *)
Definition primary_keys_ok (db : Database) : bool :=
  unique_ids (map PathActivity.id (path_activities db)).

Definition well_formed (db : Database) : bool :=
  primary_keys_ok db && foreign_keys_ok db.

(** [1 <= current_stage <= total_stages] on every path of the store. *)
Definition stage_bounds_ok (db : Database) : bool :=
  forallb (fun p => (1 <=? LearningPath.current_stage p)
                    && (LearningPath.current_stage p <=? LearningPath.total_stages p))
          (learning_paths db).

(** The specification's "integer floor of 100 * completed / total". *)
Definition spec_floor_percentage (completed total : Z) : Z :=
  (100 * completed) / total.

(** The specification's "round(100 * completed / total)": the nearest
    integer, a half going up. *)
Definition spec_round_percentage (completed total : Z) : Z :=
  (200 * completed + total) / (2 * total).

(** A response that signals an error to the client (4xx or 5xx). *)
Definition is_error (r : Response) : bool := 400 <=? status_code r.

(** The activity and the path as a completion request leaves them. *)
Definition completed_activity (a : PathActivity.t) : PathActivity.t :=
  PathActivity.set_is_completed true (PathActivity.set_status "completed" a).

Definition advanced (p : LearningPath.t) : LearningPath.t :=
  if LearningPath.current_stage p <? LearningPath.total_stages p
  then LearningPath.set_current_stage (LearningPath.current_stage p + 1) p
  else p.

(** The rows a generation adds for path [pid], the first under key [k]. *)
Definition generated_rows (pid k now : Z) : list PathActivity.t :=
  map (fun '(i, (title, description, activity_type, stage_number)) =>
         PathActivity.mk (k + i) pid title description activity_type None
                         stage_number "pending" false now)
      (combine [0; 1; 2; 3; 4] activities).

(** What a client reads of an activity: stage, type, title, status, flag. *)
Definition summary (a : PathActivity.t) : Z * string * string * string * bool :=
  (PathActivity.stage_number a, PathActivity.activity_type a,
   PathActivity.title a, PathActivity.status a, PathActivity.is_completed a).

(** The path row a cascade writes back: stage pointer advanced, percentage
    [pct], update time [upd]. *)
Definition recomputed (p : LearningPath.t) (pct upd : Z) : LearningPath.t :=
  LearningPath.mk (LearningPath.id p) (LearningPath.child_profile_id p)
    (LearningPath.title p) (LearningPath.description p)
    (LearningPath.current_stage (advanced p)) (LearningPath.total_stages p)
    pct (LearningPath.created_at p) upd.

(** Invariant of a generated path [pid]: it has its five activities, and its
    percentage is at most what the completed count stands for. *)
Definition tracked (pid : Z) (db : Database) : Prop :=
  primary_keys_ok db = true /\
  exists path,
    get_path db pid = Some path
    /\ count (activities_of pid (path_activities db)) = 5
    /\ 0 <= LearningPath.progress_percentage path
       <= 20 * count (completed_of pid (path_activities db)).

(** *** Sample data *)

Definition status_body (s : string) : Py.body :=
  Py.BDict [("status", Py.JStr s)].

Definition ada : ChildProfile.t := ChildProfile.mk 1 7 "Ada" 8 "beginner".

(** One user (id 7) with one child profile, and the store after the
    profile's first path has been generated at time 1000. *)
Definition profile_db : Database := mkDatabase [ada] [] [].
Definition fresh_db : Database := fst (generate_learning_path profile_db ada 1000).

(** A path of fifty stages with one pending activity per stage. *)
Definition long_path_db : Database :=
  mkDatabase [ada]
    [LearningPath.mk 1 1 "Long journey" "Fifty stages." 1 50 0 1000 1000]
    (map (fun i => PathActivity.mk i 1 "Stage" "One activity of a long path."
                     "reading" None i "pending" false 1000)
         (map Z.of_nat (seq 1 50))).

(** Completing the activities of stages 2 to 29, none of them the frontier. *)
Definition ahead_of_frontier : list Request :=
  map (fun i => UpdatePathActivity 7 i (status_body "completed") 2000)
      (map Z.of_nat (seq 2 28)).

(** ** Bodies the status update accepts *)

(** The bodies on which the guard of the status update evaluates without an
    exception: a JSON object, a string in which ["status"] does not occur,
    an array without the element ["status"]. *)
Definition guard_evaluates (data : Py.body) : bool :=
  match data with
  | Py.BDict _ => true
  | Py.BStr s => negb (Py.occurs "status" s)
  | Py.BList items => negb (existsb (Py.eq_str "status") items)
  | Py.BNull | Py.BBool _ | Py.BInt _ | Py.BFloat _ => false
  end.

(** ** What a status update may change *)

(** The columns of an activity and of a path that no handler assigns. *)
Definition activity_static (a : PathActivity.t)
  : Z * Z * string * string * string * option string * Z * Z :=
  (PathActivity.id a, PathActivity.learning_path_id a, PathActivity.title a,
   PathActivity.description a, PathActivity.activity_type a,
   PathActivity.content_url a, PathActivity.stage_number a,
   PathActivity.created_at a).

Definition path_static (p : LearningPath.t) : Z * Z * string * string * Z * Z :=
  (LearningPath.id p, LearningPath.child_profile_id p, LearningPath.title p,
   LearningPath.description p, LearningPath.total_stages p,
   LearningPath.created_at p).

(** A path row with its update time blanked, to compare stores up to
    [last_updated]. *)
Definition without_last_updated (p : LearningPath.t) : LearningPath.t :=
  LearningPath.set_last_updated 0 p.

(** Invariant of a generated path [pid], beyond [tracked]: its five
    activities carry the stages 1 to 5, every stage before the current one is
    completed, and the percentage is not behind the stage pointer. *)
Definition on_course (pid : Z) (db : Database) : Prop :=
  primary_keys_ok db = true /\
  exists path,
    get_path db pid = Some path
    /\ map PathActivity.stage_number (activities_of pid (path_activities db))
       = [1; 2; 3; 4; 5]
    /\ LearningPath.total_stages path = 5
    /\ 1 <= LearningPath.current_stage path <= 5
    /\ (forall a, In a (activities_of pid (path_activities db)) ->
                  PathActivity.stage_number a < LearningPath.current_stage path ->
                  PathActivity.is_completed a = true)
    /\ 20 * (LearningPath.current_stage path - 1)
       <= LearningPath.progress_percentage path
       <= 20 * count (completed_of pid (path_activities db)).

(** ** Replies of the other endpoints *)

(** A JSON reply: the HTTP code, the ['message'] entry if any, and the
    payload if any.  A row stands for the dict its [to_dict] builds, which
    copies every column. *)
Record Reply (A : Type) : Type := mkReply {
  reply_code : Z;
  reply_message : option string;
  reply_body : option A
}.

Arguments mkReply {A} _ _ _.
Arguments reply_code {A} _.
Arguments reply_message {A} _.
Arguments reply_body {A} _.

Definition failure {A : Type} (code : Z) (msg : string) : Reply A :=
  mkReply code (Some msg) None.

(** ** Listing the paths of a profile ([get_learning_paths], src/api.py) *)

(** [query.order_by(key)]: ascending, rows of equal key in table order. *)
Fixpoint insert_by {A : Type} (key : A -> Z) (a : A) (rows : list A) : list A :=
  match rows with
  | [] => [a]
  | b :: rows' =>
    if key a <=? key b then a :: b :: rows' else b :: insert_by key a rows'
  end.

Definition order_by {A : Type} (key : A -> Z) (rows : list A) : list A :=
  fold_right (insert_by key) [] rows.

(** [LearningPath.query.filter_by(child_profile_id=profile_id)] *)
Definition paths_of (profile_id : Z) (rows : list LearningPath.t)
  : list LearningPath.t :=
  filter (fun p => LearningPath.child_profile_id p =? profile_id) rows.

(** The [result] list the handler builds: each path of the profile with
    its activities ordered by stage. *)
Definition listing (db : Database) (profile_id : Z)
  : list (LearningPath.t * list PathActivity.t) :=
  map (fun path =>
         (path,
          order_by PathActivity.stage_number
            (activities_of (LearningPath.id path) (path_activities db))))
      (paths_of profile_id (learning_paths db)).

(** [GET /learning-paths/<profile_id>] for the logged-in user
    [current_user]. *)
Definition get_learning_paths (db : Database) (current_user profile_id : Z)
  : Reply (list (LearningPath.t * list PathActivity.t)) :=
  match get_profile db profile_id with
  | None => failure 404 "Resource not found"
  | Some profile =>
    if negb (ChildProfile.user_id profile =? current_user)
    then failure 403 "Unauthorized"
    else mkReply 200 None (Some (listing db profile_id))
  end.

(** ** Assessments and reading lists ([src/models.py]) *)

Module ProgressAssessment.
Record t : Type := mk {
  id : Z;
  child_profile_id : Z;
  assessment_date : Z;
  reading_level : string;
  reading_fluency_score : option Z;
  comprehension_score : option Z;
  vocabulary_score : option Z;
  notes : option string
}.
End ProgressAssessment.

Module Book.
Record t : Type := mk {
  id : Z;
  title : string;
  author : string;
  description : string;
  age_range : string;
  genre : string;
  tags : list string;
  cover_image_url : option string;
  content_url : option string;
  is_interactive : bool;
  reading_time_minutes : option Z;
  rating : spec_float;
  reviews_count : Z;
  created_at : Z
}.
End Book.

Module ReadingList.
Record t : Type := mk {
  id : Z;
  child_profile_id : Z;
  book_id : Z;
  status : string;
  progress_percentage : Z;
  created_at : Z;
  completed_at : option Z
}.

Definition set_status (v : string) (r : t) : t :=
  mk (id r) (child_profile_id r) (book_id r) v (progress_percentage r)
     (created_at r) (completed_at r).

Definition set_progress_percentage (v : Z) (r : t) : t :=
  mk (id r) (child_profile_id r) (book_id r) (status r) v
     (created_at r) (completed_at r).

Definition set_completed_at (v : option Z) (r : t) : t :=
  mk (id r) (child_profile_id r) (book_id r) (status r) (progress_percentage r)
     (created_at r) v.
End ReadingList.

(** The store with the tables of the assessment and reading-list
    endpoints beside those of the learning paths. *)
Record Store : Type := mkStore {
  database : Database;
  progress_assessments : list ProgressAssessment.t;
  books : list Book.t;
  reading_lists : list ReadingList.t
}.

Definition set_reading_level (v : string) (p : ChildProfile.t) : ChildProfile.t :=
  ChildProfile.mk (ChildProfile.id p) (ChildProfile.user_id p)
                  (ChildProfile.name p) (ChildProfile.age p) v.

(** ** Recording an assessment ([create_assessment], src/api.py) *)

(** The JSON body of the request, its fields of the JSON types the columns
    take (integer keys and scores, string level and notes); [None] is a key
    that is absent. *)
Module AssessmentData.
Record t : Type := mk {
  child_profile_id : option Z;
  reading_level : option string;
  reading_fluency_score : option Z;
  comprehension_score : option Z;
  vocabulary_score : option Z;
  notes : option string
}.
End AssessmentData.

(** An integer the driver of the default SQLite store can bind as a
    parameter: one of 64 bits, signed.  Any other integer raises an
    OverflowError when the statement is executed. *)
Definition sqlite_integer (n : Z) : bool := (- 2 ^ 63 <=? n) && (n <? 2 ^ 63).

(** A value of a nullable integer column: [None] is bound as NULL. *)
Definition bindable (v : option Z) : bool :=
  match v with
  | Some n => sqlite_integer n
  | None => true
  end.

(** [POST /assessments]: the assessment is stored and the profile's reading
    level updated in one commit, then a new learning path is generated for
    the profile as updated.  The commit fails on a score the driver cannot
    bind: the request then ends in 500 with nothing stored and no path
    generated.  (The profile key has been found in the table, so it can be
    bound.) *)
Definition create_assessment (st : Store) (current_user : Z)
    (data : AssessmentData.t) (now : Z) : Store * Reply ProgressAssessment.t :=
  match AssessmentData.child_profile_id data, AssessmentData.reading_level data with
  | Some child_profile_id, Some reading_level =>
    let db := database st in
    match get_profile db child_profile_id with
    | None => (st, failure 404 "Resource not found")
    | Some profile =>
      if negb (ChildProfile.user_id profile =? current_user)
      then (st, failure 403 "Unauthorized")
      else
        let new_assessment :=
          ProgressAssessment.mk
            (next_id (map ProgressAssessment.id (progress_assessments st)))
            child_profile_id now reading_level
            (AssessmentData.reading_fluency_score data)
            (AssessmentData.comprehension_score data)
            (AssessmentData.vocabulary_score data)
            (AssessmentData.notes data) in
        let profile := set_reading_level reading_level profile in
        if bindable (ProgressAssessment.reading_fluency_score new_assessment)
           && bindable (ProgressAssessment.comprehension_score new_assessment)
           && bindable (ProgressAssessment.vocabulary_score new_assessment)
        then
          let db :=
            mkDatabase (save ChildProfile.id profile (child_profiles db))
                       (learning_paths db) (path_activities db) in
          let db := fst (generate_learning_path db profile now) in
          (mkStore db (progress_assessments st ++ [new_assessment])
                   (books st) (reading_lists st),
           mkReply 201 (Some "Assessment created successfully")
                   (Some new_assessment))
        else (st, failure 500 "Internal server error")
    end
  | _, _ => (st, failure 400 "Missing required fields")
  end.


(** [GET /assessments/<profile_id>]: the profile's assessments, the latest
    first. *)
Definition get_assessments (st : Store) (current_user profile_id : Z)
  : Reply (list ProgressAssessment.t) :=
  match get_profile (database st) profile_id with
  | None => failure 404 "Resource not found"
  | Some profile =>
    if negb (ChildProfile.user_id profile =? current_user)
    then failure 403 "Unauthorized"
    else
      mkReply 200 None
        (Some (order_by (fun a => - ProgressAssessment.assessment_date a)
                 (filter (fun a => ProgressAssessment.child_profile_id a
                                   =? profile_id)
                         (progress_assessments st))))
  end.

(** ** Reading lists (src/api.py) *)

(** [ReadingList.query.filter_by(child_profile_id=..., book_id=...).first()] *)
Definition listed (profile_id book_id : Z) (rows : list ReadingList.t)
  : option ReadingList.t :=
  find (fun r => (ReadingList.child_profile_id r =? profile_id)
                 && (ReadingList.book_id r =? book_id)) rows.

Module ReadingListData.
(** Body of [POST /reading-list]: integer keys, string status. *)
Record t : Type := mk {
  child_profile_id : option Z;
  book_id : option Z;
  status : option string
}.
End ReadingListData.

(** [data.get(key, default)] *)
Definition get_default {A : Type} (v : option A) (default : A) : A :=
  match v with Some x => x | None => default end.

(** [POST /reading-list] *)
Definition add_to_reading_list (st : Store) (current_user : Z)
    (data : ReadingListData.t) (now : Z)
  : Store * Reply (ReadingList.t * Book.t) :=
  match ReadingListData.child_profile_id data, ReadingListData.book_id data with
  | Some child_profile_id, Some book_id =>
    match get_profile (database st) child_profile_id with
    | None => (st, failure 404 "Resource not found")
    | Some profile =>
      if negb (ChildProfile.user_id profile =? current_user)
      then (st, failure 403 "Unauthorized")
      else
        match lookup Book.id book_id (books st) with
        | None => (st, failure 404 "Resource not found")
        | Some book =>
          match listed child_profile_id book_id (reading_lists st) with
          | Some existing => (st, failure 400 "Book already in reading list")
          | None =>
            let new_item :=
              ReadingList.mk (next_id (map ReadingList.id (reading_lists st)))
                child_profile_id book_id
                (get_default (ReadingListData.status data) "to-read")
                0 now None in
            (mkStore (database st) (progress_assessments st) (books st)
                     (reading_lists st ++ [new_item]),
             mkReply 201 (Some "Book added to reading list")
                     (Some (new_item, book)))
          end
        end
    end
  | _, _ => (st, failure 400 "Missing required fields")
  end.


Module ReadingUpdateData.
(** Body of [PUT /reading-list/<item_id>]: the status is any JSON value,
    the progress an integer. *)
Record t : Type := mk {
  status : option Py.json;
  progress_percentage : option Z
}.
End ReadingUpdateData.

Definition reading_statuses : list string := ["to-read"; "in-progress"; "completed"].

(** The two updates of the handler on the item, before the commit. *)
Definition updated_item (item : ReadingList.t) (data : ReadingUpdateData.t)
    (now : Z) : ReadingList.t :=
  let item :=
    match ReadingUpdateData.status data with
    | Some v =>
      if Py.in_strings v reading_statuses then
        match v with
        | Py.JStr s =>
          let item := ReadingList.set_status s item in
          if String.eqb s "completed"
          then ReadingList.set_completed_at (Some now) item
          else item
        | _ => item
        end
      else item
    | None => item
    end in
  match ReadingUpdateData.progress_percentage data with
  | Some progress =>
    if (0 <=? progress) && (progress <=? 100)
    then ReadingList.set_progress_percentage progress item
    else item
  | None => item
  end.

(** [PUT /reading-list/<item_id>]: the book is looked up after the commit. *)
Definition update_reading_list (st : Store) (current_user item_id : Z)
    (data : ReadingUpdateData.t) (now : Z)
  : Store * Reply (ReadingList.t * Book.t) :=
  match lookup ReadingList.id item_id (reading_lists st) with
  | None => (st, failure 404 "Resource not found")
  | Some item =>
    match get_profile (database st) (ReadingList.child_profile_id item) with
    | None => (st, failure 500 "Internal server error")
    | Some profile =>
      if negb (ChildProfile.user_id profile =? current_user)
      then (st, failure 403 "Unauthorized")
      else
        let item := updated_item item data now in
        let st :=
          mkStore (database st) (progress_assessments st) (books st)
                  (save ReadingList.id item (reading_lists st)) in
        match lookup Book.id (ReadingList.book_id item) (books st) with
        | None => (st, failure 500 "Internal server error")
        | Some book =>
          (st, mkReply 200 (Some "Reading list item updated") (Some (item, book)))
        end
    end
  end.

(** [DELETE /reading-list/<item_id>] *)
Definition remove_from_reading_list (st : Store) (current_user item_id : Z)
  : Store * Reply unit :=
  match lookup ReadingList.id item_id (reading_lists st) with
  | None => (st, failure 404 "Resource not found")
  | Some item =>
    match get_profile (database st) (ReadingList.child_profile_id item) with
    | None => (st, failure 500 "Internal server error")
    | Some profile =>
      if negb (ChildProfile.user_id profile =? current_user)
      then (st, failure 403 "Unauthorized")
      else
        (mkStore (database st) (progress_assessments st) (books st)
                 (filter (fun r => negb (ReadingList.id r =? item_id))
                         (reading_lists st)),
         mkReply 200 (Some "Item removed from reading list") None)
    end
  end.

(** [GET /reading-list/<profile_id>]: the items of the profile whose book
    exists, each with its book. *)
Definition get_reading_list (st : Store) (current_user profile_id : Z)
  : Reply (list (ReadingList.t * Book.t)) :=
  match get_profile (database st) profile_id with
  | None => failure 404 "Resource not found"
  | Some profile =>
    if negb (ChildProfile.user_id profile =? current_user)
    then failure 403 "Unauthorized"
    else
      let reading_list :=
        filter (fun r => ReadingList.child_profile_id r =? profile_id)
               (reading_lists st) in
      mkReply 200 None
        (Some (flat_map (fun item =>
                           match lookup Book.id (ReadingList.book_id item) (books st) with
                           | Some book => [(item, book)]
                           | None => []
                           end)
                        reading_list))
  end.

(** Integrity of the reading lists: unique item keys, one item per profile
    and book, every percentage within 0..100. *)
Definition reading_lists_ok (st : Store) : Prop :=
  unique_ids (map ReadingList.id (reading_lists st)) = true
  /\ NoDup (map (fun r => (ReadingList.child_profile_id r, ReadingList.book_id r))
                (reading_lists st))
  /\ Forall (fun r => 0 <= ReadingList.progress_percentage r <= 100)
            (reading_lists st).

(** *** Sample data *)

Definition moby : Book.t :=
  Book.mk 1 "The Whale" "H. M." "A long voyage." "9-12" "adventure" ["sea"]
          None None false (Some 40) (S754_zero false) 0 500.

Definition library : Store := mkStore fresh_db [] [moby] [].

(** ** The percentage computation never raises *)

Section FloatFacts.

Lemma digits2_pos_size (p : positive) : digits2_pos p = Pos.size p.
Proof. induction p; simpl; congruence. Qed.

Lemma Zdigits2_log2 (m : Z) : 0 < m -> Zdigits2 m = Z.log2 m + 1.
Proof.
  destruct m as [|p|p]; try lia. intros _. simpl.
  rewrite digits2_pos_size. destruct p; simpl; lia.
Qed.

Lemma Zdigits2_nonneg (m : Z) : 0 <= Zdigits2 m.
Proof. destruct m; simpl; lia. Qed.

Lemma shr_1_shiftr (mrs : shr_record) :
  0 <= shr_m mrs -> shr_m (shr_1 mrs) = Z.shiftr (shr_m mrs) 1.
Proof.
  destruct mrs as [m r s]. simpl. intros Hm.
  rewrite <- Z.div2_spec.
  destruct m as [|p|p]; try lia; try reflexivity; destruct p; reflexivity.
Qed.

Lemma iter_shr_1_shiftr (p : positive) :
  forall mrs, 0 <= shr_m mrs ->
    shr_m (iter_pos shr_1 p mrs) = Z.shiftr (shr_m mrs) (Zpos p).
Proof.
  assert (Hnn : forall a n, 0 <= a -> 0 <= n -> 0 <= Z.shiftr a n)
    by (intros; apply Z.shiftr_nonneg; assumption).
  induction p as [p IH|p IH|]; intros mrs Hm; simpl.
  - rewrite IH, IH, shr_1_shiftr by
      (rewrite ?IH, ?shr_1_shiftr; try apply Hnn; rewrite ?shr_1_shiftr; try apply Hnn; lia).
    rewrite !Z.shiftr_shiftr by lia. f_equal. lia.
  - rewrite IH, IH by (rewrite ?IH; try apply Hnn; lia).
    rewrite !Z.shiftr_shiftr by lia. f_equal. lia.
  - apply shr_1_shiftr, Hm.
Qed.

Lemma shr_m_of_loc (m : Z) (l : location) : shr_m (shr_record_of_loc m l) = m.
Proof. destruct l as [|[]]; reflexivity. Qed.

(** The magnitude [Zdigits2 m + e] of a non-negative mantissa does not grow
    when [shr_fexp] drops its low bits. *)
Lemma shr_fexp_magnitude (m e : Z) (l : location) (B : Z) :
  -1073 <= B -> 0 <= m -> Zdigits2 m + e <= B ->
  let '(mrs, e') := shr_fexp Py.prec Py.emax m e l in
  0 <= shr_m mrs /\ Zdigits2 (shr_m mrs) + e' <= B.
Proof.
  intros HB Hm Hmag. unfold shr_fexp, shr.
  set (n := fexp Py.prec Py.emax (Zdigits2 m + e) - e).
  assert (Hn : n = Z.max (Zdigits2 m + e - 53) (-1074) - e) by reflexivity.
  destruct n as [|p|p] eqn:En; rewrite ?shr_m_of_loc; try (split; assumption).
  rewrite iter_shr_1_shiftr by (rewrite shr_m_of_loc; exact Hm).
  rewrite shr_m_of_loc. split; [apply Z.shiftr_nonneg; exact Hm|].
  assert (H0 : 0 <= Z.shiftr m (Zpos p)) by (apply Z.shiftr_nonneg; exact Hm).
  destruct (Z.eq_dec (Z.shiftr m (Zpos p)) 0) as [Hz|Hz].
  - rewrite Hz. simpl Zdigits2. pose proof (Zdigits2_nonneg m). lia.
  - assert (Hmpos : 0 < m).
    { destruct (Z.eq_dec m 0) as [->|]; [rewrite Z.shiftr_0_l in Hz; lia|lia]. }
    rewrite Zdigits2_log2 by lia.
    rewrite Z.log2_shiftr by lia.
    rewrite Zdigits2_log2 in Hmag, Hn by lia. lia.
Qed.

Lemma round_nearest_even_magnitude (m : Z) (l : location) :
  0 <= m ->
  0 <= round_nearest_even m l /\
  Zdigits2 (round_nearest_even m l) <= Zdigits2 m + 1.
Proof.
  intros Hm.
  assert (Hs : 0 <= m + 1 /\ Zdigits2 (m + 1) <= Zdigits2 m + 1).
  { split; [lia|]. destruct (Z.eq_dec m 0) as [->|]; [simpl; lia|].
    rewrite !Zdigits2_log2 by lia.
    pose proof (Z.log2_succ_le m). unfold Z.succ in *. lia. }
  unfold round_nearest_even.
  destruct l as [|[]]; try destruct (Z.even m); try assumption; split; lia.
Qed.

(** Rounding a non-negative mantissa of magnitude at most [B] gives a zero
    or a finite float of magnitude at most [B + 1]. *)
Lemma binary_round_aux_finite (s : bool) (m e : Z) (l : location) (B : Z) :
  -1073 <= B <= 971 -> 0 <= m -> Zdigits2 m + e <= B ->
  binary_round_aux Py.prec Py.emax s m e l = S754_zero s \/
  exists m' e', binary_round_aux Py.prec Py.emax s m e l = S754_finite s m' e'
                /\ Zpos (digits2_pos m') + e' <= B + 1.
Proof.
  intros HB Hm Hmag. unfold binary_round_aux.
  pose proof (shr_fexp_magnitude m e l B ltac:(lia) Hm Hmag) as H1.
  destruct (shr_fexp Py.prec Py.emax m e l) as [mrs' e'].
  destruct H1 as [H1 H1'].
  pose proof (round_nearest_even_magnitude (shr_m mrs') (loc_of_shr_record mrs') H1)
    as [H2 H2'].
  pose proof (shr_fexp_magnitude _ e' loc_Exact (B + 1) ltac:(lia) H2 ltac:(lia)) as H3.
  destruct (shr_fexp Py.prec Py.emax _ e' loc_Exact) as [mrs'' e''].
  destruct H3 as [H3 H3'].
  destruct (shr_m mrs'') as [|q|q]; [left; reflexivity| |lia].
  right. exists q, e''. simpl Zdigits2 in H3'.
  assert (He : (e'' <=? Py.emax - Py.prec) = true).
  { apply Z.leb_le. unfold Py.emax, Py.prec. lia. }
  rewrite He. split; [reflexivity|lia].
Qed.

Lemma truediv_finite (c t : Z) :
  0 <= c <= t -> 0 < t ->
  Py.truediv c t = S754_zero false \/
  exists m e, Py.truediv c t = S754_finite false m e
              /\ Zpos (digits2_pos m) + e <= 2.
Proof.
  intros Hc Ht. unfold Py.truediv.
  destruct t as [|t|t]; try lia.
  destruct c as [|c|c]; try lia; [left; reflexivity|].
  simpl Py.float_of_int. unfold SFdiv, SFdiv_core_binary.
  rewrite !Z.add_0_r, Z.sub_0_r. simpl xorb.
  set (e' := Z.min _ 0).
  assert (He' : e' <= 0) by (subst e'; lia).
  set (m' := match 0 - e' with Z0 => Zpos c | Zpos _ => Z.shiftl (Zpos c) (0 - e') | Zneg _ => 0 end).
  assert (Hm' : m' = Zpos c * 2 ^ (- e')).
  { subst m'. destruct (0 - e') as [|p|p] eqn:E; try lia.
    - replace (- e') with 0 by lia. lia.
    - rewrite Z.shiftl_mul_pow2 by lia. f_equal. f_equal. lia. }
  destruct (Z.div_eucl m' (Zpos t)) as [q r] eqn:E.
  assert (Hq : q = m' / Zpos t) by (unfold Z.div; rewrite E; reflexivity).
  assert (Hpow : 0 < 2 ^ (- e')) by (apply Z.pow_pos_nonneg; lia).
  assert (Hq0 : 0 <= q) by (subst q; apply Z.div_pos; nia).
  assert (Hq1 : q <= 2 ^ (- e')).
  { subst q. apply Z.div_le_upper_bound; nia. }
  apply binary_round_aux_finite with (B := 1); try lia.
  destruct (Z.eq_dec q 0) as [->|]; [simpl; lia|].
  rewrite Zdigits2_log2 by lia.
  pose proof (Z.log2_le_mono q (2 ^ (- e')) Hq1) as Hl.
  rewrite Z.log2_pow2 in Hl by lia. lia.
Qed.

Lemma mul_100_finite (s : bool) (m : positive) (e : Z) :
  Zpos (digits2_pos m) + e <= 2 ->
  exists x, Py.int (Py.mul_int (S754_finite s m e) 100) = Some x.
Proof.
  intros H. unfold Py.mul_int. simpl Py.float_of_int. unfold SFmul.
  rewrite Z.add_0_r.
  destruct (binary_round_aux_finite (xorb s false) (Zpos (m * 100)) e loc_Exact 9)
    as [->|(m' & e' & -> & _)]; try lia.
  - change (Zdigits2 (Zpos (m * 100))) with (Zpos (digits2_pos (m * 100))).
    rewrite !digits2_pos_size in *.
    assert (Hs : forall p, Zpos (Pos.size p) = Z.log2 (Zpos p) + 1)
      by (intros p; rewrite <- digits2_pos_size; apply (Zdigits2_log2 (Zpos p)); lia).
    rewrite Hs in *.
    assert (Z.log2 (Zpos (m * 100)) <= Z.log2 (Zpos m * 2 ^ 7))
      by (apply Z.log2_le_mono; lia).
    rewrite Z.log2_mul_pow2 in * by lia. lia.
  - eexists; reflexivity.
  - eexists; reflexivity.
Qed.

(** For counts [0 <= completed <= total] with [0 < total], as the two
    queries return them, the percentage is computed without an exception. *)
Lemma percentage_total (completed total : Z) :
  0 <= completed <= total -> 0 < total ->
  exists pct, percentage completed total = Some pct.
Proof.
  intros Hc Ht. unfold percentage.
  destruct (truediv_finite completed total Hc Ht) as [->|(m & e & -> & H)].
  - exists 0. reflexivity.
  - apply mul_100_finite, H.
Qed.

End FloatFacts.

(** ** Tables: lookup, write-back and key allocation *)

Section Table.

Context {A : Type}.
Variable key : A -> Z.

Lemma lookup_some (k : Z) (rows : list A) (a : A) :
  lookup key k rows = Some a -> key a = k /\ In a rows.
Proof.
  intros H. apply find_some in H. destruct H as [Hin Hk].
  apply Z.eqb_eq in Hk. split; assumption.
Qed.

Lemma lookup_app (k : Z) (rows rows' : list A) :
  lookup key k (rows ++ rows') =
  match lookup key k rows with Some a => Some a | None => lookup key k rows' end.
Proof.
  unfold lookup. induction rows as [|r rows IH]; simpl; [reflexivity|].
  destruct (key r =? k); [reflexivity|exact IH].
Qed.

Lemma lookup_none (k : Z) (rows : list A) :
  (forall r, In r rows -> key r <> k) -> lookup key k rows = None.
Proof.
  unfold lookup. induction rows as [|r rows IH]; simpl; intros H; [reflexivity|].
  destruct (Z.eqb_spec (key r) k) as [E|_].
  - exfalso. apply (H r); [left; reflexivity|exact E].
  - apply IH. intros r' Hr'. apply H. right. exact Hr'.
Qed.

Lemma lookup_save_same (k : Z) (rows : list A) (a a' : A) :
  lookup key k rows = Some a -> key a' = k -> lookup key k (save key a' rows) = Some a'.
Proof.
  unfold lookup, save. intros H Hk. subst k.
  induction rows as [|r rows IH]; simpl in *; [discriminate|].
  destruct (Z.eqb_spec (key r) (key a')) as [E|E].
  - rewrite Z.eqb_refl. reflexivity.
  - apply Z.eqb_neq in E. rewrite E. apply IH, H.
Qed.

Lemma lookup_save_other (k : Z) (rows : list A) (a' : A) :
  key a' <> k -> lookup key k (save key a' rows) = lookup key k rows.
Proof.
  unfold lookup, save. intros Hk.
  induction rows as [|r rows IH]; simpl; [reflexivity|].
  destruct (Z.eqb_spec (key r) (key a')) as [E|E].
  - apply Z.eqb_neq in Hk. rewrite Hk.
    rewrite E. rewrite Hk. exact IH.
  - destruct (key r =? k); [reflexivity|exact IH].
Qed.

Lemma save_keys (rows : list A) (a' : A) :
  map key (save key a' rows) = map key rows.
Proof.
  unfold save. rewrite map_map. apply map_ext. intros r.
  destruct (Z.eqb_spec (key r) (key a')); congruence.
Qed.

Lemma save_absent (rows : list A) (a' : A) :
  existsb (Z.eqb (key a')) (map key rows) = false -> save key a' rows = rows.
Proof.
  unfold save. induction rows as [|r rows IH]; simpl; intros H; [reflexivity|].
  apply orb_false_iff in H. destruct H as [H1 H2].
  rewrite Z.eqb_sym, H1. f_equal. apply IH, H2.
Qed.

(** Under a unique key, a write-back replaces the one row [lookup] finds. *)
Lemma save_unique (k : Z) (rows : list A) (a a' : A) :
  unique_ids (map key rows) = true ->
  lookup key k rows = Some a -> key a' = k ->
  exists pre post, rows = pre ++ a :: post /\ save key a' rows = pre ++ a' :: post.
Proof.
  unfold lookup. intros Hu H Hk. subst k.
  induction rows as [|r rows IH]; simpl in *; [discriminate|].
  apply andb_true_iff in Hu. destruct Hu as [Hr Hu].
  destruct (Z.eqb_spec (key r) (key a')) as [E|E].
  - inversion H; subst r. exists [], rows. split; [reflexivity|].
    simpl. f_equal. apply save_absent.
    rewrite <- E. apply negb_true_iff, Hr.
  - destruct (IH Hu H) as (pre & post & -> & Hs).
    exists (r :: pre), post. split; [reflexivity|].
    simpl. f_equal. exact Hs.
Qed.

Lemma max_key_bound (rows : list A) (r : A) :
  In r rows -> key r <= fold_right Z.max 0 (map key rows).
Proof.
  induction rows as [|r' rows IH]; simpl; intros H; [contradiction|].
  destruct H as [->|H]; [lia|]. specialize (IH H). lia.
Qed.

Lemma next_id_fresh (rows : list A) (r : A) :
  In r rows -> key r < next_id (map key rows).
Proof. intros H. apply max_key_bound in H. unfold next_id. lia. Qed.

End Table.

Lemma max_id_nonneg (ids : list Z) : 0 <= fold_right Z.max 0 ids.
Proof. induction ids; simpl; lia. Qed.

Lemma max_id_snoc (ids : list Z) (x : Z) :
  fold_right Z.max 0 ids <= x -> fold_right Z.max 0 (ids ++ [x]) = x.
Proof.
  intros H. pose proof (max_id_nonneg ids) as H0.
  induction ids as [|k ids IH]; simpl in *; [lia|].
  pose proof (max_id_nonneg ids).
  rewrite IH by lia. lia.
Qed.

(** The key after [x], when [x] is at least every key of the table. *)
Lemma next_id_snoc (ids : list Z) (x : Z) :
  fold_right Z.max 0 ids <= x ->
  next_id (ids ++ [x]) = 1 + x /\ fold_right Z.max 0 (ids ++ [x]) <= 1 + x.
Proof.
  intros H. unfold next_id. rewrite max_id_snoc by exact H. split; lia.
Qed.

Lemma unique_ids_app_fresh (ids new : list Z) :
  unique_ids ids = true -> unique_ids new = true ->
  (forall k, In k new -> existsb (Z.eqb k) ids = false) ->
  unique_ids (ids ++ new) = true.
Proof.
  intros Hi Hn Hf. induction ids as [|k ids IH]; simpl in *; [exact Hn|].
  apply andb_true_iff in Hi. destruct Hi as [Hk Hi].
  apply andb_true_iff. split.
  - apply negb_true_iff. rewrite existsb_app. apply orb_false_iff. split.
    + apply negb_true_iff, Hk.
    + apply not_true_is_false. intros E. apply existsb_exists in E.
      destruct E as (x & Hx & E). apply Z.eqb_eq in E. subst x.
      specialize (Hf k Hx). simpl in Hf. rewrite Z.eqb_refl in Hf. discriminate.
  - apply IH; [exact Hi|]. intros x Hx. specialize (Hf x Hx).
    simpl in Hf. apply orb_false_iff in Hf. apply Hf.
Qed.

(** ** The shape of a generation *)

Lemma generate_learning_path_shape (db : Database) (profile : ChildProfile.t) (now : Z) :
  let pid := next_id (map LearningPath.id (learning_paths db)) in
  let k := next_id (map PathActivity.id (path_activities db)) in
  let path :=
    LearningPath.mk pid (ChildProfile.id profile)
      ("Personalized Reading Journey for " ++ ChildProfile.name profile)%string
      ("A customized learning path designed for a "
         ++ Py.str (ChildProfile.age profile) ++ "-year-old reader at "
         ++ ChildProfile.reading_level profile ++ " level.")%string
      1 5 0 now now in
  generate_learning_path db profile now =
  (mkDatabase (child_profiles db) (learning_paths db ++ [path])
              (path_activities db ++ generated_rows pid k now),
   path).
Proof.
  intros pid k path.
  unfold generate_learning_path, add_path, add_activity, generated_rows.
  cbn [fold_left activities map combine learning_paths path_activities child_profiles].
  fold pid. fold k. fold path.
  assert (Hk : fold_right Z.max 0 (map PathActivity.id (path_activities db)) <= k)
    by (unfold k, next_id; lia).
  rewrite !map_app. cbn [map PathActivity.id LearningPath.id].
  fold pid.
  destruct (next_id_snoc _ k Hk) as [-> Hk1].
  destruct (next_id_snoc _ (1 + k) Hk1) as [-> Hk2].
  destruct (next_id_snoc _ (1 + (1 + k)) Hk2) as [-> Hk3].
  destruct (next_id_snoc _ (1 + (1 + (1 + k))) Hk3) as [-> _].
  rewrite <- !app_assoc. cbn [app].
  replace (k + 0) with k by lia.
  replace (1 + k) with (k + 1) by lia.
  replace (1 + (k + 1)) with (k + 2) by lia.
  replace (1 + (k + 2)) with (k + 3) by lia.
  replace (1 + (k + 3)) with (k + 4) by lia.
  reflexivity.
Qed.

(** ** Counting rows *)

Lemma count_nonneg {A : Type} (rows : list A) : 0 <= count rows.
Proof. unfold count. lia. Qed.

Lemma count_app {A : Type} (rows rows' : list A) :
  count (rows ++ rows') = count rows + count rows'.
Proof. unfold count. rewrite length_app. lia. Qed.

Lemma count_cons {A : Type} (r : A) (rows : list A) :
  count (r :: rows) = 1 + count rows.
Proof. unfold count. simpl List.length. lia. Qed.

Lemma completed_le_total (pid : Z) (rows : list PathActivity.t) :
  count (completed_of pid rows) <= count (activities_of pid rows).
Proof.
  unfold completed_of, activities_of.
  induction rows as [|r rows IH]; simpl; [lia|].
  destruct (PathActivity.learning_path_id r =? pid); simpl.
  - destruct (PathActivity.is_completed r); rewrite ?count_cons; lia.
  - exact IH.
Qed.

(** A write-back that keeps the owning path and does not clear
    [is_completed] keeps the path's activity count and cannot lower its
    completed count. *)
Lemma counts_after_save (pid : Z) (rows : list PathActivity.t)
    (a a' : PathActivity.t) :
  unique_ids (map PathActivity.id rows) = true ->
  lookup PathActivity.id (PathActivity.id a') rows = Some a ->
  PathActivity.learning_path_id a' = PathActivity.learning_path_id a ->
  (PathActivity.is_completed a = true -> PathActivity.is_completed a' = true) ->
  count (activities_of pid (save_activity a' rows)) = count (activities_of pid rows)
  /\ count (completed_of pid rows) <= count (completed_of pid (save_activity a' rows)).
Proof.
  intros Hu Hf Hl Hc.
  destruct (save_unique PathActivity.id _ rows a a' Hu Hf eq_refl)
    as (pre & post & -> & Hs).
  unfold save_activity. rewrite Hs. clear Hs Hu Hf.
  unfold activities_of, completed_of.
  rewrite !filter_app, !count_app. simpl filter. rewrite Hl.
  destruct (PathActivity.learning_path_id a =? pid); simpl andb.
  - rewrite !count_cons. split; [reflexivity|].
    destruct (PathActivity.is_completed a).
    + rewrite (Hc eq_refl), !count_cons. lia.
    + destruct (PathActivity.is_completed a'); rewrite ?count_cons; lia.
  - split; lia.
Qed.

(** ** The branches of the status update *)

(** A body that [data['status']] accepts is a dict holding the key. *)
Lemma getitem_contains (key : string) (data : Py.body) (v : Py.json) :
  Py.getitem key data = Some v -> Py.contains key data = Some true.
Proof.
  destruct data; try discriminate. cbn [Py.getitem Py.contains].
  intros ->. reflexivity.
Qed.

Lemma apply_ignored (db : Database) (activity : PathActivity.t)
    (path : LearningPath.t) (data : Py.body) (now : Z) :
  (forall v, Py.getitem "status" data = Some v ->
             Py.in_strings v valid_statuses = false) ->
  fst (apply_activity_status db activity path data now) = db.
Proof.
  intros H. unfold apply_activity_status.
  destruct (Py.contains "status" data) as [[|]|]; [|reflexivity|reflexivity].
  destruct (Py.getitem "status" data) as [v|]; [|reflexivity].
  rewrite (H v eq_refl). reflexivity.
Qed.

Lemma apply_other_status (db : Database) (activity : PathActivity.t)
    (path : LearningPath.t) (data : Py.body) (now : Z) (s : string) :
  Py.getitem "status" data = Some (Py.JStr s) ->
  s = "pending" \/ s = "in-progress" ->
  apply_activity_status db activity path data now =
  (mkDatabase (child_profiles db) (learning_paths db)
     (save_activity (PathActivity.set_status s activity) (path_activities db)),
   activity_updated (PathActivity.set_status s activity)).
Proof.
  intros H Hs. unfold apply_activity_status.
  rewrite (getitem_contains _ _ _ H), H.
  destruct Hs as [-> | ->]; reflexivity.
Qed.

Lemma apply_completed_elsewhere (db : Database) (activity : PathActivity.t)
    (path : LearningPath.t) (data : Py.body) (now : Z) :
  Py.getitem "status" data = Some (Py.JStr "completed") ->
  LearningPath.current_stage path <> PathActivity.stage_number activity ->
  apply_activity_status db activity path data now =
  (mkDatabase (child_profiles db) (learning_paths db)
     (save_activity (completed_activity activity) (path_activities db)),
   activity_updated (completed_activity activity)).
Proof.
  intros H Hs. unfold apply_activity_status.
  rewrite (getitem_contains _ _ _ H), H.
  cbn [Py.in_strings valid_statuses existsb].
  change ("completed" =? "completed")%string with true.
  change ("completed" =? "pending")%string with false.
  change ("completed" =? "in-progress")%string with false.
  cbn [orb PathActivity.stage_number PathActivity.set_is_completed
       PathActivity.set_status].
  apply Z.eqb_neq in Hs. rewrite Hs. reflexivity.
Qed.

Lemma apply_completed_frontier (db : Database) (activity : PathActivity.t)
    (path : LearningPath.t) (data : Py.body) (now : Z) :
  Py.getitem "status" data = Some (Py.JStr "completed") ->
  LearningPath.current_stage path = PathActivity.stage_number activity ->
  let rows := save_activity (completed_activity activity) (path_activities db) in
  let c := count (completed_of (LearningPath.id path) rows) in
  let t := count (activities_of (LearningPath.id path) rows) in
  exists pct upd,
    apply_activity_status db activity path data now =
    (mkDatabase (child_profiles db)
       (save_path
          (LearningPath.mk (LearningPath.id path) (LearningPath.child_profile_id path)
             (LearningPath.title path) (LearningPath.description path)
             (LearningPath.current_stage (advanced path))
             (LearningPath.total_stages path) pct
             (LearningPath.created_at path) upd)
          (learning_paths db))
       rows,
     activity_updated (completed_activity activity))
    /\ ((0 < t /\ percentage c t = Some pct /\ upd = now)
        \/ (t = 0 /\ pct = LearningPath.progress_percentage path
            /\ upd = LearningPath.last_updated path)).
Proof.
  intros H Hs rows c t. unfold apply_activity_status.
  rewrite (getitem_contains _ _ _ H), H.
  cbn [Py.in_strings valid_statuses existsb].
  change ("completed" =? "completed")%string with true.
  change ("completed" =? "pending")%string with false.
  change ("completed" =? "in-progress")%string with false.
  cbn [orb PathActivity.stage_number PathActivity.set_is_completed
       PathActivity.set_status].
  apply Z.eqb_eq in Hs. rewrite Hs. fold (completed_activity activity). fold rows.
  fold (advanced path).
  assert (Hid : LearningPath.id (advanced path) = LearningPath.id path)
    by (unfold advanced; destruct (_ <? _); reflexivity).
  rewrite Hid. fold c. fold t.
  pose proof (completed_le_total (LearningPath.id path) rows) as Hle.
  pose proof (count_nonneg (completed_of (LearningPath.id path) rows)) as H0.
  pose proof (count_nonneg (activities_of (LearningPath.id path) rows)) as H1.
  fold c in Hle, H0. fold t in Hle, H1.
  destruct (Z.ltb_spec 0 t) as [Ht|Ht].
  - destruct (percentage_total c t ltac:(lia) Ht) as [pct Hp]. rewrite Hp.
    exists pct, now. split; [|left; auto].
    unfold advanced. destruct (_ <? _); reflexivity.
  - exists (LearningPath.progress_percentage path), (LearningPath.last_updated path).
    split; [|right; repeat split; lia].
    unfold advanced. destruct (_ <? _); destruct path; reflexivity.
Qed.

(** ** The handler as a whole *)

Lemma status_cases (data : Py.body) :
  (forall v, Py.getitem "status" data = Some v ->
             Py.in_strings v valid_statuses = false)
  \/ exists s, Py.getitem "status" data = Some (Py.JStr s)
               /\ (s = "pending" \/ s = "in-progress" \/ s = "completed").
Proof.
  destruct (Py.getitem "status" data) as [v|]; [|left; intros v; discriminate].
  destruct v as [|b|n|s|];
    try (left; intros v E; inversion E; subst; reflexivity).
  destruct (String.eqb_spec s "pending") as [->|H1];
    [right; eexists; split; [reflexivity|auto]|].
  destruct (String.eqb_spec s "in-progress") as [->|H2];
    [right; eexists; split; [reflexivity|auto]|].
  destruct (String.eqb_spec s "completed") as [->|H3];
    [right; eexists; split; [reflexivity|auto]|].
  left. intros v E. inversion E; subst v. simpl.
  apply String.eqb_neq in H1, H2, H3. rewrite H1, H2, H3. reflexivity.
Qed.

Lemma authorized_update (db : Database) (u k : Z) (data : Py.body) (now : Z)
    (activity : PathActivity.t) (path : LearningPath.t) (profile : ChildProfile.t) :
  get_activity db k = Some activity ->
  get_path db (PathActivity.learning_path_id activity) = Some path ->
  get_profile db (LearningPath.child_profile_id path) = Some profile ->
  ChildProfile.user_id profile = u ->
  update_path_activity db u k data now =
  apply_activity_status db activity path data now.
Proof.
  intros Ha Hp Hc Hu. unfold update_path_activity.
  rewrite Ha, Hp, Hc, Hu, Z.eqb_refl. reflexivity.
Qed.

(** Every call either leaves the store alone, or writes the activity back,
    or writes both the activity and its recomputed path. *)
Lemma update_outcome (db : Database) (u k : Z) (data : Py.body) (now : Z) :
  fst (update_path_activity db u k data now) = db
  \/ (exists activity a',
        get_activity db k = Some activity
        /\ (a' = completed_activity activity
            \/ exists s, a' = PathActivity.set_status s activity)
        /\ fst (update_path_activity db u k data now) =
           mkDatabase (child_profiles db) (learning_paths db)
                      (save_activity a' (path_activities db)))
  \/ (exists activity path pct upd,
        get_activity db k = Some activity
        /\ get_path db (PathActivity.learning_path_id activity) = Some path
        /\ fst (update_path_activity db u k data now) =
           mkDatabase (child_profiles db)
             (save_path (recomputed path pct upd) (learning_paths db))
             (save_activity (completed_activity activity) (path_activities db))
        /\ let rows := save_activity (completed_activity activity)
                                     (path_activities db) in
           let c := count (completed_of (LearningPath.id path) rows) in
           let t := count (activities_of (LearningPath.id path) rows) in
           (0 < t /\ percentage c t = Some pct)
           \/ (t = 0 /\ pct = LearningPath.progress_percentage path)).
Proof.
  unfold update_path_activity.
  destruct (get_activity db k) as [activity|] eqn:Ha; [|left; reflexivity].
  destruct (get_path db _) as [path|] eqn:Hp; [|left; reflexivity].
  destruct (get_profile db _) as [profile|]; [|left; reflexivity].
  destruct (negb _); [left; reflexivity|].
  destruct (status_cases data) as [Hbad|(s & Hs & [->|[->| ->]])].
  - left. rewrite apply_ignored by exact Hbad. reflexivity.
  - right. left. exists activity, (PathActivity.set_status "pending" activity).
    rewrite (apply_other_status _ _ _ _ _ _ Hs) by auto. eauto.
  - right. left. exists activity, (PathActivity.set_status "in-progress" activity).
    rewrite (apply_other_status _ _ _ _ _ _ Hs) by auto. eauto.
  - destruct (Z.eq_dec (LearningPath.current_stage path)
                       (PathActivity.stage_number activity)) as [E|E].
    + right. right.
      destruct (apply_completed_frontier db activity path data now Hs E)
        as (pct & upd & -> & Hpct).
      exists activity, path, pct, upd.
      split; [reflexivity|]. split; [exact Hp|]. split; [reflexivity|].
      cbv zeta. tauto.
    + right. left. exists activity, (completed_activity activity).
      rewrite (apply_completed_elsewhere _ _ _ _ _ Hs E). auto.
Qed.

Lemma activities_of_fresh_path (db : Database) :
  foreign_keys_ok db = true ->
  activities_of (next_id (map LearningPath.id (learning_paths db)))
                (path_activities db) = [].
Proof.
  unfold foreign_keys_ok, activities_of. intros H.
  rewrite forallb_forall in H.
  induction (path_activities db) as [|a rows IH]; simpl; [reflexivity|].
  destruct (Z.eqb_spec (PathActivity.learning_path_id a)
              (next_id (map LearningPath.id (learning_paths db)))) as [E|_].
  - specialize (H a (or_introl eq_refl)). apply existsb_exists in H.
    destruct H as (p & Hp & Hk). apply Z.eqb_eq in Hk.
    pose proof (next_id_fresh LearningPath.id _ p Hp). lia.
  - apply IH. intros x Hx. apply H. right. exact Hx.
Qed.

Lemma activities_of_generated_rows (pid k now : Z) :
  activities_of pid (generated_rows pid k now) = generated_rows pid k now.
Proof.
  unfold activities_of, generated_rows. simpl. rewrite Z.eqb_refl. reflexivity.
Qed.

(** ** Path generation *)

Lemma generated_path_rows (db db' : Database) (profile : ChildProfile.t)
    (now : Z) (path : LearningPath.t) :
  generate_learning_path db profile now = (db', path) ->
  foreign_keys_ok db = true ->
  LearningPath.current_stage path = 1
  /\ LearningPath.total_stages path = 5
  /\ LearningPath.progress_percentage path = 0
  /\ LearningPath.child_profile_id path = ChildProfile.id profile
  /\ get_path db' (LearningPath.id path) = Some path
  /\ path_activities db' =
     path_activities db
       ++ generated_rows (LearningPath.id path)
            (next_id (map PathActivity.id (path_activities db))) now
  /\ activities_of (LearningPath.id path) (path_activities db') =
     generated_rows (LearningPath.id path)
       (next_id (map PathActivity.id (path_activities db))) now.
Proof.
  rewrite generate_learning_path_shape. intros E Hfk.
  inversion E; subst db' path; clear E.
  cbn [LearningPath.current_stage LearningPath.total_stages
       LearningPath.progress_percentage LearningPath.child_profile_id
       LearningPath.id learning_paths path_activities].
  repeat split.
  - unfold get_path. cbn [learning_paths].
    rewrite (lookup_app LearningPath.id).
    rewrite (lookup_none LearningPath.id).
    + unfold lookup. cbn [find LearningPath.id]. rewrite Z.eqb_refl. reflexivity.
    + intros r Hr. pose proof (next_id_fresh LearningPath.id _ r Hr). lia.
  - unfold activities_of at 1. rewrite filter_app.
    fold (activities_of (next_id (map LearningPath.id (learning_paths db)))
                        (path_activities db)).
    rewrite activities_of_fresh_path by exact Hfk.
    apply activities_of_generated_rows.
Qed.

(** C1. For every child profile, [generate_learning_path] returns a path
    with [current_stage = 1], [total_stages = 5], [progress_percentage = 0],
    and adds exactly five activities, which are all the activities of the
    new path: stages 1 to 5, each pending and not completed, in the order
    assessment "Reading Assessment", exercise "Vocabulary Building", reading
    "Guided Reading", quiz "Comprehension Quiz", creative "Creative
    Response". *)
Theorem generate_learning_path_creates_template
    (db : Database) (profile : ChildProfile.t) (now : Z) :
  foreign_keys_ok db = true ->
  let db' := fst (generate_learning_path db profile now) in
  let path := snd (generate_learning_path db profile now) in
  LearningPath.current_stage path = 1
  /\ LearningPath.total_stages path = 5
  /\ LearningPath.progress_percentage path = 0
  /\ LearningPath.child_profile_id path = ChildProfile.id profile
  /\ get_path db' (LearningPath.id path) = Some path
  /\ exists rows,
       path_activities db' = path_activities db ++ rows
       /\ activities_of (LearningPath.id path) (path_activities db') = rows
       /\ map summary rows =
          [ (1, "assessment", "Reading Assessment", "pending", false);
            (2, "exercise", "Vocabulary Building", "pending", false);
            (3, "reading", "Guided Reading", "pending", false);
            (4, "quiz", "Comprehension Quiz", "pending", false);
            (5, "creative", "Creative Response", "pending", false) ].
Proof.
  intros Hfk db' path. subst db' path.
  destruct (generate_learning_path db profile now) as [db' path] eqn:E.
  destruct (generated_path_rows db db' profile now path E Hfk)
    as (H1 & H2 & H3 & H4 & H5 & H6 & H7).
  cbn [fst snd]. repeat (split; [assumption|]).
  eexists. split; [exact H6|]. split; [exact H7|]. reflexivity.
Qed.

Lemma generate_learning_path_creates_template_witness :
  let db' := fst (generate_learning_path profile_db ada 1000) in
  let path := snd (generate_learning_path profile_db ada 1000) in
  LearningPath.current_stage path = 1
  /\ LearningPath.total_stages path = 5
  /\ LearningPath.progress_percentage path = 0
  /\ LearningPath.child_profile_id path = 1
  /\ get_path db' (LearningPath.id path) = Some path
  /\ exists rows,
       path_activities db' = path_activities profile_db ++ rows
       /\ activities_of (LearningPath.id path) (path_activities db') = rows
       /\ map summary rows =
          [ (1, "assessment", "Reading Assessment", "pending", false);
            (2, "exercise", "Vocabulary Building", "pending", false);
            (3, "reading", "Guided Reading", "pending", false);
            (4, "quiz", "Comprehension Quiz", "pending", false);
            (5, "creative", "Creative Response", "pending", false) ].
Proof.
  apply (generate_learning_path_creates_template profile_db ada 1000).
  reflexivity.
Defined.

(** ** The progress tracker: one call *)

Section AuthorizedRequest.

Variables (db : Database) (current_user activity_id : Z).
Variables (activity : PathActivity.t) (path : LearningPath.t).
Variable profile : ChildProfile.t.

Hypothesis Hactivity : get_activity db activity_id = Some activity.
Hypothesis Hpath :
  get_path db (PathActivity.learning_path_id activity) = Some path.
Hypothesis Hprofile :
  get_profile db (LearningPath.child_profile_id path) = Some profile.
Hypothesis Howner : ChildProfile.user_id profile = current_user.

Lemma path_of_activity :
  LearningPath.id path = PathActivity.learning_path_id activity.
Proof. apply (lookup_some LearningPath.id _ _ _ Hpath). Qed.

Lemma key_of_activity : PathActivity.id activity = activity_id.
Proof. apply (lookup_some PathActivity.id _ _ _ Hactivity). Qed.

(** What a completion at the frontier stage leaves in the store. *)
Lemma frontier_completion (data : Py.body) (now : Z) :
  Py.getitem "status" data = Some (Py.JStr "completed") ->
  PathActivity.stage_number activity = LearningPath.current_stage path ->
  let db' := fst (update_path_activity db current_user activity_id data now) in
  let c := count (completed_of (LearningPath.id path) (path_activities db')) in
  let t := count (activities_of (LearningPath.id path) (path_activities db')) in
  exists pct,
    db' = mkDatabase (child_profiles db)
            (save_path (recomputed path pct now) (learning_paths db))
            (save_activity (completed_activity activity) (path_activities db))
    /\ get_path db' (LearningPath.id path) = Some (recomputed path pct now)
    /\ get_activity db' activity_id = Some (completed_activity activity)
    /\ 0 < t /\ percentage c t = Some pct.
Proof.
  intros Hs Hst db' c t. subst db' c t.
  rewrite (authorized_update _ _ _ _ _ _ _ _ Hactivity Hpath Hprofile Howner).
  destruct (apply_completed_frontier db activity path data now Hs (eq_sym Hst))
    as (pct & upd & -> & Hpct).
  cbn [fst path_activities].
  set (rows := save_activity (completed_activity activity) (path_activities db)) in *.
  assert (Hrow : get_activity (mkDatabase (child_profiles db) (learning_paths db) rows)
                   activity_id = Some (completed_activity activity)).
  { apply (lookup_save_same PathActivity.id _ _ activity); [exact Hactivity|].
    apply key_of_activity. }
  assert (Ht : 0 < count (activities_of (LearningPath.id path) rows)).
  { apply (lookup_some PathActivity.id) in Hrow. destruct Hrow as [_ Hin].
    cbn [path_activities] in Hin.
    assert (Hin' : In (completed_activity activity)
                      (activities_of (LearningPath.id path) rows)).
    { apply filter_In. split; [exact Hin|]. apply Z.eqb_eq.
      rewrite path_of_activity. reflexivity. }
    unfold count. destruct (activities_of (LearningPath.id path) rows);
      [contradiction|simpl List.length; lia]. }
  destruct Hpct as [(_ & Hp & ->)|(H0 & _)]; [|lia].
  exists pct. repeat split; try assumption.
  apply (lookup_save_same LearningPath.id _ _ path); [|reflexivity].
  rewrite path_of_activity. exact Hpath.
Qed.

(** C2. Completing the activity whose stage is the path's current stage
    increments [current_stage] by exactly 1 when it is below
    [total_stages], and leaves it unchanged when it already equals
    [total_stages]; it never moves past [total_stages]. *)
Theorem frontier_completion_advances_stage (data : Py.body) (now : Z) :
  Py.getitem "status" data = Some (Py.JStr "completed") ->
  PathActivity.stage_number activity = LearningPath.current_stage path ->
  exists path',
    get_path (fst (update_path_activity db current_user activity_id data now))
             (LearningPath.id path) = Some path'
    /\ LearningPath.total_stages path' = LearningPath.total_stages path
    /\ (LearningPath.current_stage path < LearningPath.total_stages path ->
        LearningPath.current_stage path' = LearningPath.current_stage path + 1)
    /\ (LearningPath.current_stage path = LearningPath.total_stages path ->
        LearningPath.current_stage path' = LearningPath.current_stage path)
    /\ (LearningPath.current_stage path <= LearningPath.total_stages path ->
        LearningPath.current_stage path' <= LearningPath.total_stages path).
Proof.
  intros Hs Hst.
  destruct (frontier_completion data now Hs Hst) as (pct & _ & Hp & _).
  exists (recomputed path pct now). split; [exact Hp|].
  cbn [recomputed LearningPath.total_stages LearningPath.current_stage].
  unfold advanced.
  destruct (Z.ltb_spec (LearningPath.current_stage path)
                       (LearningPath.total_stages path));
    cbn [LearningPath.set_current_stage LearningPath.current_stage];
    repeat split; lia.
Qed.

(** C5 (as the code has it). Applying [completed] to an activity whose stage
    is the current stage, below [total_stages], advances the stage by one,
    whether or not the activity was completed before; the pointer has then
    moved past the activity, so applying [completed] to the same activity a
    second time in a row does not advance it again. *)
Theorem recompletion_advances_once (data : Py.body) (now now' : Z) :
  Py.getitem "status" data = Some (Py.JStr "completed") ->
  PathActivity.stage_number activity = LearningPath.current_stage path ->
  LearningPath.current_stage path < LearningPath.total_stages path ->
  let db1 := fst (update_path_activity db current_user activity_id data now) in
  let db2 := fst (update_path_activity db1 current_user activity_id data now') in
  exists path1,
    get_path db1 (LearningPath.id path) = Some path1
    /\ get_path db2 (LearningPath.id path) = Some path1
    /\ LearningPath.current_stage path1 = LearningPath.current_stage path + 1.
Proof.
  intros Hs Hst Hlt db1 db2. subst db2.
  destruct (frontier_completion data now Hs Hst) as (pct & Hdb & Hp & Ha & _).
  fold db1 in Hdb, Hp, Ha.
  assert (Hcs : LearningPath.current_stage (recomputed path pct now)
                = LearningPath.current_stage path + 1).
  { cbn [recomputed LearningPath.current_stage]. unfold advanced.
    apply Z.ltb_lt in Hlt. rewrite Hlt. reflexivity. }
  exists (recomputed path pct now). split; [exact Hp|]. split; [|exact Hcs].
  rewrite (authorized_update db1 _ _ data now' (completed_activity activity)
             (recomputed path pct now) profile Ha).
  - rewrite apply_completed_elsewhere.
    + cbn [fst]. exact Hp.
    + exact Hs.
    + rewrite Hcs. cbn [completed_activity PathActivity.stage_number
                        PathActivity.set_is_completed PathActivity.set_status].
      lia.
  - cbn [completed_activity PathActivity.learning_path_id
         PathActivity.set_is_completed PathActivity.set_status].
    rewrite <- path_of_activity. exact Hp.
  - rewrite Hdb. exact Hprofile.
  - exact Howner.
Qed.

(** The effect of one valid status on the activity: the status is stored,
    [completed] also sets [is_completed], and no other status clears it. *)
Lemma valid_status_effect (data : Py.body) (now : Z) (s : string) :
  Py.getitem "status" data = Some (Py.JStr s) ->
  In s valid_statuses ->
  exists activity',
    get_activity (fst (update_path_activity db current_user activity_id data now))
                 activity_id = Some activity'
    /\ snd (update_path_activity db current_user activity_id data now)
       = activity_updated activity'
    /\ PathActivity.status activity' = s
    /\ PathActivity.is_completed activity'
       = (String.eqb s "completed" || PathActivity.is_completed activity)%bool
    /\ PathActivity.stage_number activity' = PathActivity.stage_number activity
    /\ PathActivity.learning_path_id activity'
       = PathActivity.learning_path_id activity.
Proof.
  intros Hs Hin.
  assert (Hsave : forall a' paths,
            PathActivity.id a' = activity_id ->
            get_activity (mkDatabase (child_profiles db) paths
                            (save_activity a' (path_activities db))) activity_id
            = Some a').
  { intros a' paths Hk.
    apply (lookup_save_same PathActivity.id _ _ activity); assumption. }
  rewrite (authorized_update _ _ _ _ _ _ _ _ Hactivity Hpath Hprofile Howner).
  destruct Hin as [<-|[<-|[<-|[]]]].
  - rewrite (apply_other_status _ _ _ _ _ _ Hs) by auto.
    eexists. split; [apply Hsave, key_of_activity|]. repeat split.
  - rewrite (apply_other_status _ _ _ _ _ _ Hs) by auto.
    eexists. split; [apply Hsave, key_of_activity|]. repeat split.
  - destruct (Z.eq_dec (LearningPath.current_stage path)
                       (PathActivity.stage_number activity)) as [E|E].
    + destruct (apply_completed_frontier db activity path data now Hs E)
        as (pct & upd & -> & Hpct).
      eexists. split; [apply Hsave, key_of_activity|]. repeat split.
    + rewrite (apply_completed_elsewhere _ _ _ _ _ Hs E).
      eexists. split; [apply Hsave, key_of_activity|]. repeat split.
Qed.

End AuthorizedRequest.

(** C4, on the concrete store: the status ["done"] is outside the set, and
    the answer is the ordinary 200 "Activity updated", not an error. *)
Lemma invalid_status_not_signalled :
  Py.in_strings (Py.JStr "done") valid_statuses = false
  /\ status_code (snd (update_path_activity fresh_db 7 1 (status_body "done") 2000))
     = 200
  /\ message (snd (update_path_activity fresh_db 7 1 (status_body "done") 2000))
     = "Activity updated"
  /\ is_error (snd (update_path_activity fresh_db 7 1 (status_body "done") 2000))
     = false.
Proof. vm_compute. repeat split. Qed.

(** Bodies that are not JSON objects.  On [null] and on a number the guard
    raises and the request ends in 500; a string in which "status" does not
    occur passes the guard as false and is answered with 200; an array
    holding "status" passes the membership test and raises on the
    subscript.  The store is the same after each. *)
Example bodies_that_are_not_objects :
  map (fun data => update_path_activity fresh_db 7 1 data 2000)
      [Py.BNull; Py.BInt 3; Py.BStr "completed"; Py.BStr "status";
       Py.BList [Py.JStr "completed"]; Py.BList [Py.JStr "status"]]
  = map (fun r => (fresh_db, r))
      [server_error; server_error;
       activity_updated (PathActivity.mk 1 1 "Reading Assessment"
          "Complete an initial reading assessment to identify your strengths and areas for improvement."
          "assessment" None 1 "pending" false 1000);
       server_error;
       activity_updated (PathActivity.mk 1 1 "Reading Assessment"
          "Complete an initial reading assessment to identify your strengths and areas for improvement."
          "assessment" None 1 "pending" false 1000);
       server_error].
Proof. reflexivity. Qed.

(** C4 (as the code has it). A request whose status is a value outside
    [pending], [in-progress], [completed] changes nothing in the store: the
    activity, its path and every other row stay as they were.  For an
    authorized request on an existing activity the handler does not signal
    an error: it answers 200 "Activity updated" with the unchanged
    activity. *)
Theorem invalid_status_is_ignored
    (db : Database) (u k : Z) (data : Py.body) (now : Z) (v : Py.json) :
  Py.getitem "status" data = Some v ->
  Py.in_strings v valid_statuses = false ->
  fst (update_path_activity db u k data now) = db
  /\ forall activity path profile,
       get_activity db k = Some activity ->
       get_path db (PathActivity.learning_path_id activity) = Some path ->
       get_profile db (LearningPath.child_profile_id path) = Some profile ->
       ChildProfile.user_id profile = u ->
       snd (update_path_activity db u k data now) = activity_updated activity
       /\ is_error (snd (update_path_activity db u k data now)) = false.
Proof.
  intros Hv Hbad. split.
  - unfold update_path_activity.
    destruct (get_activity db k); [|reflexivity].
    destruct (get_path db _); [|reflexivity].
    destruct (get_profile db _); [|reflexivity].
    destruct (negb _); [reflexivity|].
    apply apply_ignored. intros v' E. congruence.
  - intros activity path profile Ha Hp Hc Hu.
    rewrite (authorized_update _ _ _ _ _ _ _ _ Ha Hp Hc Hu).
    unfold apply_activity_status.
    rewrite (getitem_contains _ _ _ Hv), Hv, Hbad. split; reflexivity.
Qed.

Lemma invalid_status_is_ignored_witness :
  fst (update_path_activity fresh_db 7 1 (status_body "done") 2000) = fresh_db
  /\ forall activity path profile,
       get_activity fresh_db 1 = Some activity ->
       get_path fresh_db (PathActivity.learning_path_id activity) = Some path ->
       get_profile fresh_db (LearningPath.child_profile_id path) = Some profile ->
       ChildProfile.user_id profile = 7 ->
       snd (update_path_activity fresh_db 7 1 (status_body "done") 2000)
       = activity_updated activity
       /\ is_error (snd (update_path_activity fresh_db 7 1 (status_body "done") 2000))
          = false.
Proof.
  apply (invalid_status_is_ignored fresh_db 7 1 (status_body "done") 2000
           (Py.JStr "done"));
    reflexivity.
Defined.

(** C7. A call that sets [pending] or [in-progress], or that sets
    [completed] on an activity whose stage is not the path's current stage,
    leaves every path row as it was (in particular [current_stage] and
    [progress_percentage]), as well as the profiles and every activity but
    the one addressed. *)
Theorem non_cascading_update_frame
    (db : Database) (u k : Z) (data : Py.body) (now : Z) :
  (Py.getitem "status" data <> Some (Py.JStr "completed")
   \/ forall activity path,
        get_activity db k = Some activity ->
        get_path db (PathActivity.learning_path_id activity) = Some path ->
        PathActivity.stage_number activity <> LearningPath.current_stage path) ->
  let db' := fst (update_path_activity db u k data now) in
  learning_paths db' = learning_paths db
  /\ child_profiles db' = child_profiles db
  /\ forall k', k' <> k -> get_activity db' k' = get_activity db k'.
Proof.
  intros Hframe db'. subst db'. unfold update_path_activity.
  destruct (get_activity db k) as [activity|] eqn:Ha; [|auto].
  destruct (get_path db _) as [path|] eqn:Hp; [|auto].
  destruct (get_profile db _) as [profile|]; [|auto].
  destruct (negb _); [auto|].
  pose proof (key_of_activity db k activity Ha) as Hk.
  assert (Hother : forall a' paths k',
            PathActivity.id a' = k -> k' <> k ->
            get_activity (mkDatabase (child_profiles db) paths
                            (save_activity a' (path_activities db))) k'
            = get_activity db k').
  { intros a' paths k' Hid Hne.
    apply (lookup_save_other PathActivity.id). congruence. }
  destruct (status_cases data) as [Hbad|(s & Hs & [->|[->| ->]])].
  - rewrite apply_ignored by exact Hbad. auto.
  - rewrite (apply_other_status _ _ _ _ _ _ Hs) by auto. cbn [fst].
    repeat split. intros k' Hne. apply Hother; assumption.
  - rewrite (apply_other_status _ _ _ _ _ _ Hs) by auto. cbn [fst].
    repeat split. intros k' Hne. apply Hother; assumption.
  - destruct Hframe as [Hne|Hne]; [contradiction|].
    specialize (Hne activity path eq_refl Hp).
    rewrite (apply_completed_elsewhere _ _ _ _ _ Hs) by congruence. cbn [fst].
    repeat split. intros k' Hne'. apply Hother; assumption.
Qed.

Lemma non_cascading_update_frame_witness :
  let db' := fst (update_path_activity fresh_db 7 3 (status_body "completed") 2000) in
  learning_paths db' = learning_paths fresh_db
  /\ child_profiles db' = child_profiles fresh_db
  /\ forall k', k' <> 3 -> get_activity db' k' = get_activity fresh_db k'.
Proof.
  apply (non_cascading_update_frame fresh_db 7 3 (status_body "completed") 2000).
  right. intros activity path Ha Hp.
  vm_compute in Ha. inversion Ha; subst activity.
  vm_compute in Hp. inversion Hp; subst path.
  vm_compute. discriminate.
Defined.

Lemma frontier_completion_advances_stage_witness :
  exists path',
    get_path (fst (update_path_activity fresh_db 7 1 (status_body "completed") 2000))
             1 = Some path'
    /\ LearningPath.total_stages path' = 5
    /\ (1 < 5 -> LearningPath.current_stage path' = 1 + 1)
    /\ (1 = 5 -> LearningPath.current_stage path' = 1)
    /\ (1 <= 5 -> LearningPath.current_stage path' <= 5).
Proof.
  apply (frontier_completion_advances_stage fresh_db 7 1
           (PathActivity.mk 1 1 "Reading Assessment"
              "Complete an initial reading assessment to identify your strengths and areas for improvement."
              "assessment" None 1 "pending" false 1000)
           (LearningPath.mk 1 1 "Personalized Reading Journey for Ada"
              "A customized learning path designed for a 8-year-old reader at beginner level."
              1 5 0 1000 1000)
           ada eq_refl eq_refl eq_refl eq_refl (status_body "completed") 2000);
    reflexivity.
Defined.

Lemma recompletion_advances_once_witness :
  let db1 := fst (update_path_activity fresh_db 7 1 (status_body "completed") 2000) in
  let db2 := fst (update_path_activity db1 7 1 (status_body "completed") 3000) in
  exists path1,
    get_path db1 1 = Some path1
    /\ get_path db2 1 = Some path1
    /\ LearningPath.current_stage path1 = 1 + 1.
Proof.
  apply (recompletion_advances_once fresh_db 7 1
           (PathActivity.mk 1 1 "Reading Assessment"
              "Complete an initial reading assessment to identify your strengths and areas for improvement."
              "assessment" None 1 "pending" false 1000)
           (LearningPath.mk 1 1 "Personalized Reading Journey for Ada"
              "A customized learning path designed for a 8-year-old reader at beginner level."
              1 5 0 1000 1000)
           ada eq_refl eq_refl eq_refl eq_refl (status_body "completed") 2000 3000);
    reflexivity.
Defined.

(** C5, on the concrete store: completing the stage-1 activity of a fresh
    path twice in a row leaves [current_stage] at 2; the second call does
    not advance it to 3. *)
Lemma completing_twice_advances_once :
  let twice := [UpdatePathActivity 7 1 (status_body "completed") 2000;
                UpdatePathActivity 7 1 (status_body "completed") 3000] in
  option_map PathActivity.is_completed
    (get_activity (run fresh_db (firstn 1 twice)) 1) = Some true
  /\ option_map LearningPath.current_stage
       (get_path (run fresh_db (firstn 1 twice)) 1) = Some 2
  /\ option_map LearningPath.current_stage (get_path (run fresh_db twice) 1)
     = Some 2
  /\ option_map LearningPath.current_stage (get_path (run fresh_db twice) 1)
     <> Some 3.
Proof. vm_compute. repeat split. discriminate. Qed.

(** ** The progress tracker along a trace *)

Lemma run_app (db : Database) (rs rs' : list Request) :
  run db (rs ++ rs') = run (run db rs) rs'.
Proof. apply fold_left_app. Qed.

Lemma step_keeps_completed (db : Database) (r : Request) (k : Z)
    (a : PathActivity.t) :
  get_activity db k = Some a -> PathActivity.is_completed a = true ->
  exists a', get_activity (step db r) k = Some a'
             /\ PathActivity.is_completed a' = true.
Proof.
  intros Ha Hc.
  assert (Hsave : forall act a' paths,
            get_activity db (PathActivity.id a') = Some act ->
            (PathActivity.is_completed act = true ->
             PathActivity.is_completed a' = true) ->
            exists a'',
              get_activity (mkDatabase (child_profiles db) paths
                              (save_activity a' (path_activities db))) k = Some a''
              /\ PathActivity.is_completed a'' = true).
  { intros act a' paths Hact Hmono.
    destruct (Z.eq_dec (PathActivity.id a') k) as [E|E].
    - exists a'. split.
      + apply (lookup_save_same PathActivity.id _ _ a); assumption.
      + apply Hmono. rewrite E in Hact. congruence.
    - exists a. split; [|exact Hc].
      rewrite <- Ha. apply (lookup_save_other PathActivity.id). exact E. }
  destruct r as [u k0 data now|profile now]; cbn [step].
  - destruct (update_outcome db u k0 data now)
      as [E|[(act & a' & Hact & Ha' & E)|(act & path & pct & upd & Hact & _ & E & _)]];
      rewrite E.
    + eauto.
    + pose proof (key_of_activity _ _ _ Hact) as Hk.
      apply (Hsave act).
      * destruct Ha' as [->|(s & ->)]; simpl; rewrite Hk; exact Hact.
      * destruct Ha' as [->|(s & ->)]; simpl; auto.
    + pose proof (key_of_activity _ _ _ Hact) as Hk.
      apply (Hsave act); [simpl; rewrite Hk; exact Hact|reflexivity].
  - rewrite generate_learning_path_shape. cbn [fst].
    exists a. split; [|exact Hc].
    unfold get_activity in *. cbn [path_activities].
    rewrite (lookup_app PathActivity.id), Ha. reflexivity.
Qed.

Lemma run_keeps_completed (rs : list Request) :
  forall (db : Database) (k : Z) (a : PathActivity.t),
    get_activity db k = Some a -> PathActivity.is_completed a = true ->
    exists a', get_activity (run db rs) k = Some a'
               /\ PathActivity.is_completed a' = true.
Proof.
  induction rs as [|r rs IH]; intros db k a Ha Hc; [eauto|].
  destruct (step_keeps_completed db r k a Ha Hc) as (a' & Ha' & Hc').
  apply (IH (step db r) k a' Ha' Hc').
Qed.

(** C8. A valid requested status becomes the activity's status; the status
    [completed] also sets [is_completed], and no other valid status clears
    it: once [is_completed] is true it stays true through every later
    request. *)
Theorem status_update_is_one_way
    (db : Database) (u k : Z) (activity : PathActivity.t)
    (path : LearningPath.t) (profile : ChildProfile.t)
    (data : Py.body) (now : Z) (s : string) :
  get_activity db k = Some activity ->
  get_path db (PathActivity.learning_path_id activity) = Some path ->
  get_profile db (LearningPath.child_profile_id path) = Some profile ->
  ChildProfile.user_id profile = u ->
  Py.getitem "status" data = Some (Py.JStr s) ->
  In s valid_statuses ->
  let db' := fst (update_path_activity db u k data now) in
  exists activity',
    get_activity db' k = Some activity'
    /\ PathActivity.status activity' = s
    /\ PathActivity.is_completed activity'
       = (String.eqb s "completed" || PathActivity.is_completed activity)%bool
    /\ (PathActivity.is_completed activity' = true ->
        forall rs, exists a'',
          get_activity (run db' rs) k = Some a''
          /\ PathActivity.is_completed a'' = true).
Proof.
  intros Ha Hp Hc Hu Hs Hin db'. subst db'.
  destruct (valid_status_effect db u k activity path profile Ha Hp Hc Hu
              data now s Hs Hin) as (a' & Hget & _ & Hst & Hcompl & _).
  exists a'. repeat split; try assumption.
  intros Htrue rs. apply (run_keeps_completed rs _ _ a'); assumption.
Qed.

Lemma status_update_is_one_way_witness :
  let db' := fst (update_path_activity fresh_db 7 1 (status_body "completed") 2000) in
  exists activity',
    get_activity db' 1 = Some activity'
    /\ PathActivity.status activity' = "completed"
    /\ PathActivity.is_completed activity' = (true || false)%bool
    /\ (PathActivity.is_completed activity' = true ->
        forall rs, exists a'',
          get_activity (run db' rs) 1 = Some a''
          /\ PathActivity.is_completed a'' = true).
Proof.
  apply (status_update_is_one_way fresh_db 7 1
           (PathActivity.mk 1 1 "Reading Assessment"
              "Complete an initial reading assessment to identify your strengths and areas for improvement."
              "assessment" None 1 "pending" false 1000)
           (LearningPath.mk 1 1 "Personalized Reading Journey for Ada"
              "A customized learning path designed for a 8-year-old reader at beginner level."
              1 5 0 1000 1000)
           ada (status_body "completed") 2000 "completed");
    try reflexivity.
  simpl. auto.
Defined.

(** After [completed], a later [pending] changes the status and keeps the
    flag. *)
Example completed_then_pending :
  option_map summary
    (get_activity
       (run fresh_db [UpdatePathActivity 7 1 (status_body "completed") 2000;
                      UpdatePathActivity 7 1 (status_body "pending") 3000]) 1)
  = Some (1, "assessment", "Reading Assessment", "pending", true).
Proof. reflexivity. Qed.

(** ** The stage bound *)

Lemma stage_bounds_lookup (db : Database) (pid : Z) (p : LearningPath.t) :
  stage_bounds_ok db = true -> get_path db pid = Some p ->
  1 <= LearningPath.current_stage p <= LearningPath.total_stages p.
Proof.
  unfold stage_bounds_ok. intros H Hp. rewrite forallb_forall in H.
  apply (lookup_some LearningPath.id) in Hp. destruct Hp as [_ Hin].
  specialize (H p Hin). apply andb_true_iff in H. lia.
Qed.

Lemma advanced_in_bounds (p : LearningPath.t) :
  1 <= LearningPath.current_stage p <= LearningPath.total_stages p ->
  1 <= LearningPath.current_stage (advanced p) <= LearningPath.total_stages p.
Proof.
  unfold advanced.
  destruct (Z.ltb_spec (LearningPath.current_stage p) (LearningPath.total_stages p));
    cbn [LearningPath.set_current_stage LearningPath.current_stage]; lia.
Qed.

Lemma stage_bounds_step (db : Database) (r : Request) :
  stage_bounds_ok db = true -> stage_bounds_ok (step db r) = true.
Proof.
  intros H. destruct r as [u k data now|profile now]; cbn [step].
  - destruct (update_outcome db u k data now)
      as [E|[(act & a' & _ & _ & E)|(act & path & pct & upd & _ & Hp & E & _)]];
      rewrite E; try exact H.
    pose proof (advanced_in_bounds path (stage_bounds_lookup _ _ _ H Hp)) as Hb.
    unfold stage_bounds_ok in *. cbn [learning_paths].
    rewrite forallb_forall in *. intros x Hx.
    unfold save_path in Hx. apply in_map_iff in Hx.
    destruct Hx as (y & Hy & Hin).
    destruct (LearningPath.id y =? LearningPath.id (recomputed path pct upd)).
    + subst x. cbn [recomputed LearningPath.current_stage LearningPath.total_stages].
      apply andb_true_iff. lia.
    + subst x. apply H, Hin.
  - rewrite generate_learning_path_shape. cbn [fst].
    unfold stage_bounds_ok in *. cbn [learning_paths].
    rewrite forallb_app, H. reflexivity.
Qed.

Lemma stage_bounds_run (rs : list Request) :
  forall db, stage_bounds_ok db = true -> stage_bounds_ok (run db rs) = true.
Proof.
  induction rs as [|r rs IH]; intros db H; [exact H|].
  apply (IH (step db r)), stage_bounds_step, H.
Qed.

(** C9. [1 <= current_stage <= total_stages] holds for every path at all
    times: a generated path starts at stage 1 of 5, and generation and every
    status update keep the bound on every path of the store, hence so does
    every sequence of them. *)
Theorem stage_bounds_invariant (db : Database) :
  stage_bounds_ok db = true ->
  (forall profile now,
      LearningPath.current_stage (snd (generate_learning_path db profile now)) = 1
      /\ LearningPath.total_stages (snd (generate_learning_path db profile now)) = 5
      /\ stage_bounds_ok (fst (generate_learning_path db profile now)) = true)
  /\ (forall u k data now,
         stage_bounds_ok (fst (update_path_activity db u k data now)) = true)
  /\ (forall rs pid p,
         get_path (run db rs) pid = Some p ->
         1 <= LearningPath.current_stage p <= LearningPath.total_stages p).
Proof.
  intros H. split; [|split].
  - intros profile now. split; [|split].
    + rewrite generate_learning_path_shape. reflexivity.
    + rewrite generate_learning_path_shape. reflexivity.
    + apply (stage_bounds_step db (GenerateLearningPath profile now) H).
  - intros u k data now.
    apply (stage_bounds_step db (UpdatePathActivity u k data now) H).
  - intros rs pid p. apply stage_bounds_lookup, stage_bounds_run, H.
Qed.

Lemma stage_bounds_invariant_witness :
  (forall profile now,
      LearningPath.current_stage (snd (generate_learning_path fresh_db profile now)) = 1
      /\ LearningPath.total_stages (snd (generate_learning_path fresh_db profile now)) = 5
      /\ stage_bounds_ok (fst (generate_learning_path fresh_db profile now)) = true)
  /\ (forall u k data now,
         stage_bounds_ok (fst (update_path_activity fresh_db u k data now)) = true)
  /\ (forall rs pid p,
         get_path (run fresh_db rs) pid = Some p ->
         1 <= LearningPath.current_stage p <= LearningPath.total_stages p).
Proof. apply (stage_bounds_invariant fresh_db). reflexivity. Defined.

(** Starting from the empty store, every reachable path is within bounds. *)
Corollary stage_bounds_from_empty (rs : list Request) (pid : Z) (p : LearningPath.t) :
  get_path (run empty_db rs) pid = Some p ->
  1 <= LearningPath.current_stage p <= LearningPath.total_stages p.
Proof. apply stage_bounds_lookup, stage_bounds_run. reflexivity. Qed.

(** ** The percentage *)

(** The handler's expression is not the integer floor on every pair of
    counts.  On a fifty-stage path, which no handler creates (the generator
    is the only source of paths and gives each five activities), with the
    stages 2 to 29 completed ahead of the current stage, completing stage 1
    triggers the cascade with 29 of 50 activities completed: the handler
    stores 57, while the integer floor of 100 * 29 / 50 is 58 (29 / 50
    rounds to a double just below 0.58). *)
Remark percentage_below_floor_at_29_of_50 :
  let db := run long_path_db ahead_of_frontier in
  let db' := fst (update_path_activity db 7 1 (status_body "completed") 3000) in
  count (completed_of 1 (path_activities db')) = 29
  /\ count (activities_of 1 (path_activities db')) = 50
  /\ option_map LearningPath.current_stage (get_path db' 1) = Some 2
  /\ option_map LearningPath.progress_percentage (get_path db' 1) = Some 57
  /\ percentage 29 50 = Some 57
  /\ spec_floor_percentage 29 50 = 58.
Proof. vm_compute. repeat split. Qed.

(** The handler's expression on a few counts: 2 of 3 truncates to 66, 29 of
    100 falls short of 29. *)
Example percentage_samples :
  map (fun ct => percentage (fst ct) (snd ct))
      [(0, 5); (1, 5); (2, 3); (3, 4); (7, 7); (29, 100)]
  = [Some 0; Some 20; Some 66; Some 75; Some 100; Some 28].
Proof. reflexivity. Qed.

(** On a path with five activities the percentage is exact. *)
Lemma percentage_of_five (c : Z) :
  0 <= c <= 5 -> percentage c 5 = Some (20 * c).
Proof.
  intros H.
  assert (Hc : c = 0 \/ c = 1 \/ c = 2 \/ c = 3 \/ c = 4 \/ c = 5) by lia.
  destruct Hc as [->|[->|[->|[->|[->| ->]]]]]; reflexivity.
Qed.

(** Completing the stage-1 activity of a freshly generated path gives 20. *)
Example first_completion_gives_20 :
  option_map LearningPath.progress_percentage
    (get_path (fst (update_path_activity fresh_db 7 1 (status_body "completed") 2000)) 1)
  = Some 20.
Proof. reflexivity. Qed.

(** With no activity under the path the recomputation is skipped: the
    percentage stays, and nothing is divided. *)
Lemma empty_path_skips_recomputation (db : Database) (activity : PathActivity.t)
    (path : LearningPath.t) (now : Z) :
  LearningPath.current_stage path = PathActivity.stage_number activity ->
  count (activities_of (LearningPath.id path)
           (save_activity (completed_activity activity) (path_activities db))) = 0 ->
  apply_activity_status db activity path (status_body "completed") now =
  (mkDatabase (child_profiles db)
     (save_path (recomputed path (LearningPath.progress_percentage path)
                            (LearningPath.last_updated path))
                (learning_paths db))
     (save_activity (completed_activity activity) (path_activities db)),
   activity_updated (completed_activity activity)).
Proof.
  intros Hs Ht.
  destruct (apply_completed_frontier db activity path (status_body "completed")
              now eq_refl Hs) as (pct & upd & -> & [(H & _)|(_ & -> & ->)]).
  - cbv zeta in H. lia.
  - reflexivity.
Qed.

(** ** A generated path along a trace *)

Lemma absent_key (ids : list Z) (x : Z) :
  fold_right Z.max 0 ids < x -> existsb (Z.eqb x) ids = false.
Proof.
  induction ids as [|k ids IH]; simpl; intros H; [reflexivity|].
  apply orb_false_iff. split; [apply Z.eqb_neq; lia|apply IH; lia].
Qed.

Lemma generate_keeps_primary_keys (db : Database) (profile : ChildProfile.t)
    (now : Z) :
  primary_keys_ok db = true ->
  primary_keys_ok (fst (generate_learning_path db profile now)) = true.
Proof.
  unfold primary_keys_ok. intros H.
  rewrite generate_learning_path_shape. cbn [fst path_activities].
  set (k := next_id (map PathActivity.id (path_activities db))).
  assert (Hk : fold_right Z.max 0 (map PathActivity.id (path_activities db)) < k)
    by (unfold k, next_id; lia).
  clearbody k.
  rewrite map_app. apply unique_ids_app_fresh; [exact H| |].
  - cbn. repeat (rewrite (proj2 (Z.eqb_neq _ _)) by lia). reflexivity.
  - intros x Hx. apply absent_key. cbn in Hx. intuition lia.
Qed.

Lemma generated_rows_other (pid pid' k now : Z) :
  pid' <> pid -> activities_of pid (generated_rows pid' k now) = [].
Proof.
  intros H. apply Z.eqb_neq in H.
  unfold activities_of, generated_rows. cbn. rewrite H. reflexivity.
Qed.

Lemma generated_rows_not_completed (pid pid' k now : Z) :
  completed_of pid (generated_rows pid' k now) = [].
Proof.
  unfold completed_of, generated_rows. cbn. rewrite andb_false_r. reflexivity.
Qed.

Lemma tracked_generate (db : Database) (profile : ChildProfile.t) (now : Z) :
  well_formed db = true ->
  tracked (LearningPath.id (snd (generate_learning_path db profile now)))
          (fst (generate_learning_path db profile now)).
Proof.
  unfold well_formed. intros H. apply andb_true_iff in H. destruct H as [Hpk Hfk].
  split; [apply generate_keeps_primary_keys, Hpk|].
  destruct (generate_learning_path db profile now) as [db' path] eqn:E.
  destruct (generated_path_rows db db' profile now path E Hfk)
    as (_ & _ & H3 & _ & H5 & _ & H7).
  cbn [fst snd]. exists path. split; [exact H5|]. rewrite H7, H3.
  split; [reflexivity|].
  pose proof (count_nonneg (completed_of (LearningPath.id path) (path_activities db'))).
  lia.
Qed.

(** One request keeps the invariant of a generated path and does not lower
    its percentage. *)
Lemma tracked_step (pid : Z) (db : Database) (r : Request) :
  tracked pid db ->
  tracked pid (step db r)
  /\ exists p p',
       get_path db pid = Some p /\ get_path (step db r) pid = Some p'
       /\ LearningPath.progress_percentage p <= LearningPath.progress_percentage p'.
Proof.
  intros (Hpk & path & Hget & Ht & Hprog).
  assert (Hsame : forall db',
            primary_keys_ok db' = true ->
            get_path db' pid = get_path db pid ->
            count (activities_of pid (path_activities db')) =
            count (activities_of pid (path_activities db)) ->
            count (completed_of pid (path_activities db)) <=
            count (completed_of pid (path_activities db')) ->
            tracked pid db'
            /\ exists p p',
                 get_path db pid = Some p /\ get_path db' pid = Some p'
                 /\ LearningPath.progress_percentage p
                    <= LearningPath.progress_percentage p').
  { intros db' Hpk' Hg Ht' Hc'. split.
    - split; [exact Hpk'|]. exists path. rewrite Hg, Ht'.
      repeat split; try assumption; lia.
    - exists path, path. rewrite Hg. repeat split; try assumption. lia. }
  assert (Hsaved : forall act a',
            get_activity db (PathActivity.id a') = Some act ->
            PathActivity.learning_path_id a' = PathActivity.learning_path_id act ->
            (PathActivity.is_completed act = true ->
             PathActivity.is_completed a' = true) ->
            unique_ids (map PathActivity.id (save_activity a' (path_activities db)))
            = true
            /\ count (activities_of pid (save_activity a' (path_activities db)))
               = count (activities_of pid (path_activities db))
            /\ count (completed_of pid (path_activities db))
               <= count (completed_of pid (save_activity a' (path_activities db)))).
  { intros act a' Hact Hl Hm. split.
    - unfold save_activity. rewrite (save_keys PathActivity.id). exact Hpk.
    - apply (counts_after_save pid _ act a'); assumption. }
  destruct r as [u k data now|profile now]; cbn [step].
  - destruct (update_outcome db u k data now)
      as [E|[(act & a' & Hact & Ha' & E)|(act & p0 & pct & upd & Hact & Hp0 & E & Hpct)]];
      rewrite E.
    + apply Hsame; try reflexivity; try assumption; lia.
    + pose proof (key_of_activity _ _ _ Hact) as Hk.
      destruct (Hsaved act a') as (Hu' & Ht' & Hc').
      * destruct Ha' as [->|(s & ->)]; simpl; rewrite Hk; exact Hact.
      * destruct Ha' as [->|(s & ->)]; reflexivity.
      * destruct Ha' as [->|(s & ->)]; simpl; auto.
      * apply Hsame; try assumption. reflexivity.
    + pose proof (key_of_activity _ _ _ Hact) as Hk.
      destruct (Hsaved act (completed_activity act)) as (Hu' & Ht' & Hc');
        [simpl; rewrite Hk; exact Hact|reflexivity|reflexivity|].
      destruct (Z.eq_dec (LearningPath.id p0) pid) as [Epid|Epid].
      * assert (p0 = path).
        { pose proof (path_of_activity _ _ _ Hp0) as Hl.
          rewrite <- Hl, Epid in Hp0. congruence. }
        subst p0. cbv zeta in Hpct. rewrite Epid, Ht' , Ht in Hpct.
        destruct Hpct as [(_ & Hpct)|(Hz & _)]; [|lia].
        pose proof (completed_le_total pid
                      (save_activity (completed_activity act) (path_activities db)))
          as Hle.
        pose proof (count_nonneg (completed_of pid
                      (save_activity (completed_activity act) (path_activities db))))
          as Hnn.
        rewrite Ht', Ht in Hle.
        rewrite percentage_of_five in Hpct by lia.
        inversion Hpct; subst pct; clear Hpct.
        assert (Hget' : get_path
                  (mkDatabase (child_profiles db)
                     (save_path (recomputed path
                        (20 * count (completed_of pid
                           (save_activity (completed_activity act) (path_activities db))))
                        upd) (learning_paths db))
                     (save_activity (completed_activity act) (path_activities db)))
                  pid
                = Some (recomputed path
                        (20 * count (completed_of pid
                           (save_activity (completed_activity act) (path_activities db))))
                        upd)).
        { apply (lookup_save_same LearningPath.id _ _ path); [exact Hget|exact Epid]. }
        split.
        -- split; [exact Hu'|]. eexists. split; [exact Hget'|].
           cbn [path_activities recomputed LearningPath.progress_percentage].
           rewrite Ht'. split; [exact Ht|lia].
        -- eexists path, _. split; [exact Hget|]. split; [exact Hget'|].
           cbn [recomputed LearningPath.progress_percentage]. lia.
      * apply Hsame; try assumption.
        apply (lookup_save_other LearningPath.id). exact Epid.
  - pose proof (generate_keeps_primary_keys db profile now Hpk) as Hpk'.
    rewrite generate_learning_path_shape in *. cbn [fst] in *.
    pose proof (lookup_some LearningPath.id _ _ _ Hget) as [Hid Hin].
    pose proof (next_id_fresh LearningPath.id _ _ Hin) as Hfresh.
    apply Hsame; try assumption; cbn [path_activities learning_paths].
    + unfold get_path in *. cbn [learning_paths].
      rewrite (lookup_app LearningPath.id), Hget. reflexivity.
    + unfold activities_of at 1. rewrite filter_app, count_app.
      fold (activities_of pid (path_activities db)).
      fold (activities_of pid
              (generated_rows (next_id (map LearningPath.id (learning_paths db)))
                 (next_id (map PathActivity.id (path_activities db))) now)).
      rewrite generated_rows_other by lia.
      change (@count PathActivity.t []) with 0. lia.
    + unfold completed_of at 2. rewrite filter_app, count_app.
      fold (completed_of pid (path_activities db)).
      fold (completed_of pid
              (generated_rows (next_id (map LearningPath.id (learning_paths db)))
                 (next_id (map PathActivity.id (path_activities db))) now)).
      rewrite generated_rows_not_completed.
      change (@count PathActivity.t []) with 0. lia.
Qed.

Lemma tracked_run (pid : Z) (rs : list Request) :
  forall db, tracked pid db ->
    tracked pid (run db rs)
    /\ exists p p',
         get_path db pid = Some p /\ get_path (run db rs) pid = Some p'
         /\ LearningPath.progress_percentage p <= LearningPath.progress_percentage p'.
Proof.
  induction rs as [|r rs IH]; intros db H.
  - split; [exact H|]. destruct H as (_ & p & Hp & _).
    exists p, p. repeat split; try assumption. lia.
  - destruct (tracked_step pid db r H) as (H1 & p & p1 & Hp & Hp1 & Hle).
    destruct (IH (step db r) H1) as (H2 & q & p2 & Hq & Hp2 & Hle').
    split; [exact H2|]. exists p, p2. cbn [run fold_left] in *.
    repeat split; try assumption. rewrite Hp1 in Hq. inversion Hq; subst q. lia.
Qed.

Lemma tracked_range (pid : Z) (db : Database) (p : LearningPath.t) :
  tracked pid db -> get_path db pid = Some p ->
  0 <= LearningPath.progress_percentage p <= 100.
Proof.
  intros (_ & q & Hq & Ht & Hprog) Hp. rewrite Hp in Hq. inversion Hq; subst q.
  pose proof (completed_le_total pid (path_activities db)). lia.
Qed.

(** C10. Across any sequence of requests on a store holding a path created
    by the generator, the path's [progress_percentage] never decreases and
    always lies between 0 and 100. *)
Theorem generated_path_progress_monotone
    (db0 : Database) (profile : ChildProfile.t) (now : Z)
    (rs rs' : list Request) :
  well_formed db0 = true ->
  let pid := LearningPath.id (snd (generate_learning_path db0 profile now)) in
  let db1 := fst (generate_learning_path db0 profile now) in
  exists p p',
    get_path (run db1 rs) pid = Some p
    /\ get_path (run db1 (rs ++ rs')) pid = Some p'
    /\ 0 <= LearningPath.progress_percentage p
    /\ LearningPath.progress_percentage p <= LearningPath.progress_percentage p'
    /\ LearningPath.progress_percentage p' <= 100.
Proof.
  intros Hwf pid db1.
  pose proof (tracked_generate db0 profile now Hwf) as H1. fold pid db1 in H1.
  destruct (tracked_run pid rs db1 H1) as (H2 & _ & p & _ & Hp & _).
  destruct (tracked_run pid rs' (run db1 rs) H2) as (H3 & q & p' & Hq & Hp' & Hle).
  rewrite Hp in Hq. inversion Hq; subst q.
  exists p, p'. rewrite run_app.
  pose proof (tracked_range pid _ p H2 Hp).
  pose proof (tracked_range pid _ p' H3 Hp').
  repeat split; try assumption; lia.
Qed.

Lemma generated_path_progress_monotone_witness :
  let pid := LearningPath.id (snd (generate_learning_path profile_db ada 1000)) in
  let db1 := fst (generate_learning_path profile_db ada 1000) in
  let rs := [UpdatePathActivity 7 1 (status_body "completed") 2000] in
  let rs' := [UpdatePathActivity 7 2 (status_body "completed") 3000;
              UpdatePathActivity 7 2 (status_body "pending") 4000] in
  exists p p',
    get_path (run db1 rs) pid = Some p
    /\ get_path (run db1 (rs ++ rs')) pid = Some p'
    /\ 0 <= LearningPath.progress_percentage p
    /\ LearningPath.progress_percentage p <= LearningPath.progress_percentage p'
    /\ LearningPath.progress_percentage p' <= 100.
Proof.
  apply (generated_path_progress_monotone profile_db ada 1000
           [UpdatePathActivity 7 1 (status_body "completed") 2000]
           [UpdatePathActivity 7 2 (status_body "completed") 3000;
            UpdatePathActivity 7 2 (status_body "pending") 4000]).
  reflexivity.
Defined.

(** C6, on the concrete store: completing the stage-3 activity of a fresh
    path, whose current stage is 1, leaves the percentage at 0 although one
    of the five activities is completed, for which the rounded percentage
    is 20. *)
Lemma stale_percentage_after_early_completion :
  let db' := fst (update_path_activity fresh_db 7 3 (status_body "completed") 2000) in
  count (completed_of 1 (path_activities db')) = 1
  /\ count (activities_of 1 (path_activities db')) = 5
  /\ option_map LearningPath.progress_percentage (get_path db' 1) = Some 0
  /\ spec_round_percentage 1 5 = 20.
Proof. vm_compute. repeat split. Qed.

Lemma spec_percentages_of_five (c : Z) :
  spec_round_percentage c 5 = 20 * c /\ spec_floor_percentage c 5 = 20 * c.
Proof.
  unfold spec_round_percentage, spec_floor_percentage. split.
  - replace (200 * c + 5) with (20 * c * (2 * 5) + 5) by lia.
    rewrite Z.div_add_l by lia. change (5 / (2 * 5)) with 0. lia.
  - replace (100 * c) with (20 * c * 5) by lia. apply Z.div_mul. lia.
Qed.

Lemma generated_path_no_completed (db db' : Database) (profile : ChildProfile.t)
    (now : Z) (path : LearningPath.t) :
  generate_learning_path db profile now = (db', path) ->
  foreign_keys_ok db = true ->
  count (completed_of (LearningPath.id path) (path_activities db')) = 0.
Proof.
  intros E Hfk.
  destruct (generated_path_rows db db' profile now path E Hfk)
    as (_ & _ & _ & _ & _ & H6 & _).
  rewrite generate_learning_path_shape in E. inversion E; subst db' path; clear E.
  cbn [LearningPath.id path_activities] in *.
  unfold completed_of at 1. rewrite filter_app, count_app.
  fold (completed_of (next_id (map LearningPath.id (learning_paths db)))
          (path_activities db)).
  fold (completed_of (next_id (map LearningPath.id (learning_paths db)))
          (generated_rows (next_id (map LearningPath.id (learning_paths db)))
             (next_id (map PathActivity.id (path_activities db))) now)).
  rewrite generated_rows_not_completed.
  pose proof (completed_le_total (next_id (map LearningPath.id (learning_paths db)))
                (path_activities db)) as Hle.
  rewrite activities_of_fresh_path in Hle by exact Hfk.
  pose proof (count_nonneg (completed_of
                (next_id (map LearningPath.id (learning_paths db)))
                (path_activities db))).
  change (@count PathActivity.t []) with 0 in *. lia.
Qed.

(** C6 (as the code has it). For a path created by the generator, the
    percentage equals 100 * completed / total, an exact quotient so that
    rounding plays no part, right after generation and after every status
    update that triggers the cascade (status [completed] on an activity of
    the path at its current stage).  The other calls leave the percentage
    as it was, whatever they complete. *)
Theorem generated_path_progress_recomputed
    (db0 : Database) (profile : ChildProfile.t) (now0 : Z) (rs : list Request)
    (u k : Z) (data : Py.body) (now : Z)
    (activity : PathActivity.t) (path : LearningPath.t) (owner : ChildProfile.t) :
  let pid := LearningPath.id (snd (generate_learning_path db0 profile now0)) in
  let db1 := fst (generate_learning_path db0 profile now0) in
  let db2 := run db1 rs in
  let db3 := fst (update_path_activity db2 u k data now) in
  let completed db := count (completed_of pid (path_activities db)) in
  let total db := count (activities_of pid (path_activities db)) in
  well_formed db0 = true ->
  get_activity db2 k = Some activity ->
  PathActivity.learning_path_id activity = pid ->
  get_path db2 pid = Some path ->
  get_profile db2 (LearningPath.child_profile_id path) = Some owner ->
  ChildProfile.user_id owner = u ->
  Py.getitem "status" data = Some (Py.JStr "completed") ->
  PathActivity.stage_number activity = LearningPath.current_stage path ->
  (exists p1,
      get_path db1 pid = Some p1
      /\ LearningPath.progress_percentage p1
         = spec_round_percentage (completed db1) (total db1))
  /\ exists p3,
       get_path db3 pid = Some p3
       /\ LearningPath.progress_percentage p3
          = spec_round_percentage (completed db3) (total db3)
       /\ LearningPath.progress_percentage p3 * total db3 = 100 * completed db3.
Proof.
  intros pid db1 db2 db3 completed total Hwf Ha Hl Hp Ho Hu Hs Hst.
  pose proof (tracked_generate db0 profile now0 Hwf) as H1. fold pid db1 in H1.
  split.
  - unfold well_formed in Hwf. apply andb_true_iff in Hwf. destruct Hwf as [_ Hfk].
    subst completed total pid db1. cbv beta.
    destruct (generate_learning_path db0 profile now0) as [db' path'] eqn:E.
    destruct (generated_path_rows db0 db' profile now0 path' E Hfk)
      as (_ & _ & H3 & _ & H5 & _ & H7).
    cbn [fst snd] in *. exists path'. split; [exact H5|].
    rewrite (generated_path_no_completed db0 db' profile now0 path' E Hfk).
    rewrite H7, H3. reflexivity.
  - destruct (tracked_run pid rs db1 H1) as (H2 & _). fold db2 in H2.
    destruct (tracked_step pid db2 (UpdatePathActivity u k data now) H2)
      as ((_ & q & Hq & Ht3 & _) & _).
    cbn [step] in Hq, Ht3. fold db3 in Hq, Ht3.
    rewrite <- Hl in Hp.
    destruct (frontier_completion db2 u k activity path owner Ha Hp Ho Hu
                data now Hs Hst) as (pct & _ & Hget & _ & _ & Hpct).
    fold db3 in Hget, Hpct.
    pose proof (path_of_activity db2 activity path Hp) as Hid.
    rewrite Hid, Hl in Hget, Hpct.
    fold (completed db3) in Hpct. fold (total db3) in Hpct.
    fold (total db3) in Ht3. rewrite Ht3 in *.
    pose proof (completed_le_total pid (path_activities db3)) as Hle.
    pose proof (count_nonneg (completed_of pid (path_activities db3))) as Hnn.
    fold (completed db3) in Hle, Hnn. fold (total db3) in Hle. rewrite Ht3 in Hle.
    rewrite percentage_of_five in Hpct by lia. inversion Hpct; subst pct.
    exists (recomputed path (20 * completed db3) now).
    split; [exact Hget|].
    cbn [recomputed LearningPath.progress_percentage].
    destruct (spec_percentages_of_five (completed db3)) as [-> _].
    split; lia.
Qed.

Lemma generated_path_progress_recomputed_witness :
  let db1 := fst (generate_learning_path profile_db ada 1000) in
  let db2 := run db1 [UpdatePathActivity 7 3 (status_body "completed") 2000] in
  let db3 := fst (update_path_activity db2 7 1 (status_body "completed") 3000) in
  let completed db := count (completed_of 1 (path_activities db)) in
  let total db := count (activities_of 1 (path_activities db)) in
  (exists p1,
      get_path db1 1 = Some p1
      /\ LearningPath.progress_percentage p1
         = spec_round_percentage (completed db1) (total db1))
  /\ exists p3,
       get_path db3 1 = Some p3
       /\ LearningPath.progress_percentage p3
          = spec_round_percentage (completed db3) (total db3)
       /\ LearningPath.progress_percentage p3 * total db3 = 100 * completed db3.
Proof.
  apply (generated_path_progress_recomputed profile_db ada 1000
           [UpdatePathActivity 7 3 (status_body "completed") 2000]
           7 1 (status_body "completed") 3000
           (PathActivity.mk 1 1 "Reading Assessment"
              "Complete an initial reading assessment to identify your strengths and areas for improvement."
              "assessment" None 1 "pending" false 1000)
           (LearningPath.mk 1 1 "Personalized Reading Journey for Ada"
              "A customized learning path designed for a 8-year-old reader at beginner level."
              1 5 0 1000 1000)
           ada);
    reflexivity.
Defined.

(** The two completions of the trace above give 40. *)
Example early_then_frontier_completion_gives_40 :
  option_map LearningPath.progress_percentage
    (get_path
       (run fresh_db [UpdatePathActivity 7 3 (status_body "completed") 2000;
                      UpdatePathActivity 7 1 (status_body "completed") 3000]) 1)
  = Some 40.
Proof. reflexivity. Qed.

(** * Further properties of the progress tracker *)

(** ** Rejected calls *)

Lemma apply_activity_status_code (db : Database) (activity : PathActivity.t)
    (path : LearningPath.t) (data : Py.body) (now : Z) :
  status_code (snd (apply_activity_status db activity path data now))
  = if guard_evaluates data then 200 else 500.
Proof.
  destruct (status_cases data) as [Hbad|(s & Hs & Hin)].
  - unfold apply_activity_status, guard_evaluates.
    destruct data as [|b|n|x|s|items|d]; cbn [Py.contains Py.getitem];
      try reflexivity.
    + destruct (Py.occurs "status" s); reflexivity.
    + destruct (existsb (Py.eq_str "status") items); reflexivity.
    + cbn [Py.getitem] in Hbad.
      destruct (Py.get "status" d) as [v|]; [|reflexivity].
      rewrite (Hbad v eq_refl). reflexivity.
  - assert (Hg : guard_evaluates data = true)
      by (destruct data; try discriminate; reflexivity).
    rewrite Hg. destruct Hin as [->|[->| ->]].
    + rewrite (apply_other_status _ _ _ _ _ _ Hs) by auto. reflexivity.
    + rewrite (apply_other_status _ _ _ _ _ _ Hs) by auto. reflexivity.
    + destruct (Z.eq_dec (LearningPath.current_stage path)
                         (PathActivity.stage_number activity)) as [E|E].
      * destruct (apply_completed_frontier db activity path data now Hs E)
          as (pct & upd & -> & _). reflexivity.
      * rewrite (apply_completed_elsewhere _ _ _ _ _ Hs E). reflexivity.
Qed.

Lemma apply_activity_status_raised (db : Database) (activity : PathActivity.t)
    (path : LearningPath.t) (data : Py.body) (now : Z) :
  guard_evaluates data = false ->
  fst (apply_activity_status db activity path data now) = db.
Proof.
  intros Hg. apply apply_ignored. intros v Hv.
  destruct data; try discriminate.
Qed.

(** The handler answers 200 exactly when the activity, its path and the
    path's profile exist, the profile belongs to the caller, and the decoded
    body is one the guard of the status update evaluates on: an object, a
    string in which "status" does not occur, an array without the element
    "status".  An authorized call with any other body (null, a bool, a
    number, a string or an array holding "status") ends in 500.  With any
    answer other than 200 the store is left as it was. *)
Theorem update_answers_200_iff_authorized
    (db : Database) (u k : Z) (data : Py.body) (now : Z) :
  let authorized :=
    exists activity path profile,
      get_activity db k = Some activity
      /\ get_path db (PathActivity.learning_path_id activity) = Some path
      /\ get_profile db (LearningPath.child_profile_id path) = Some profile
      /\ ChildProfile.user_id profile = u in
  (status_code (snd (update_path_activity db u k data now)) = 200 <->
   authorized /\ guard_evaluates data = true)
  /\ (authorized -> guard_evaluates data = false ->
      status_code (snd (update_path_activity db u k data now)) = 500)
  /\ (status_code (snd (update_path_activity db u k data now)) <> 200 ->
      fst (update_path_activity db u k data now) = db).
Proof.
  intros authorized. subst authorized. split; [|split].
  - split.
    + unfold update_path_activity.
      destruct (get_activity db k) as [activity|]; [|discriminate].
      destruct (get_path db _) as [path|] eqn:Hp; [|discriminate].
      destruct (get_profile db _) as [profile|] eqn:Hc; [|discriminate].
      destruct (Z.eqb_spec (ChildProfile.user_id profile) u) as [E|E];
        [|discriminate].
      cbn [negb]. rewrite apply_activity_status_code.
      destruct (guard_evaluates data); [|discriminate].
      intros _. split; [|reflexivity]. exists activity, path, profile. auto.
    + intros [(activity & path & profile & Ha & Hp & Hc & Hu) Hg].
      rewrite (authorized_update _ _ _ _ _ _ _ _ Ha Hp Hc Hu).
      rewrite apply_activity_status_code, Hg. reflexivity.
  - intros (activity & path & profile & Ha & Hp & Hc & Hu) Hg.
    rewrite (authorized_update _ _ _ _ _ _ _ _ Ha Hp Hc Hu).
    rewrite apply_activity_status_code, Hg. reflexivity.
  - unfold update_path_activity.
    destruct (get_activity db k) as [activity|]; [|reflexivity].
    destruct (get_path db _) as [path|]; [|reflexivity].
    destruct (get_profile db _) as [profile|]; [|reflexivity].
    destruct (negb _); [reflexivity|].
    rewrite apply_activity_status_code.
    destruct (guard_evaluates data) eqn:Hg; [intros H; exfalso; apply H; reflexivity|].
    intros _. apply apply_activity_status_raised, Hg.
Qed.

(** ** What a call can change *)

Section SaveFacts.

Context {A B : Type}.
Variable key : A -> Z.
Variable proj : A -> B.

Lemma lookup_save_proj (k k' : Z) (rows : list A) (a a' : A) :
  lookup key k rows = Some a -> key a' = k -> proj a' = proj a ->
  option_map proj (lookup key k' (save key a' rows))
  = option_map proj (lookup key k' rows).
Proof.
  intros Ha Hk Hp. destruct (Z.eq_dec k' k) as [->|E].
  - rewrite (lookup_save_same key k rows a a' Ha Hk), Ha. simpl. congruence.
  - rewrite (lookup_save_other key) by congruence. reflexivity.
Qed.

Lemma map_save (a : A) (rows : list A) :
  map proj (save key a rows)
  = map (fun r => if key r =? key a then proj a else proj r) rows.
Proof.
  unfold save. rewrite map_map. apply map_ext. intros r.
  destruct (key r =? key a); reflexivity.
Qed.

Lemma save_save (a a' : A) (rows : list A) :
  key a' = key a -> save key a' (save key a rows) = save key a' rows.
Proof.
  intros E. unfold save. rewrite map_map. apply map_ext. intros r.
  rewrite E.
  destruct (key r =? key a) eqn:E1; [|rewrite E1; reflexivity].
  rewrite <- E, Z.eqb_refl. reflexivity.
Qed.

End SaveFacts.

(** A refinement of [update_outcome] that keeps the reason of each branch. *)
Lemma update_cases (db : Database) (u k : Z) (data : Py.body) (now : Z) :
  fst (update_path_activity db u k data now) = db
  \/ (exists activity path a',
        get_activity db k = Some activity
        /\ get_path db (PathActivity.learning_path_id activity) = Some path
        /\ ((a' = completed_activity activity
             /\ LearningPath.current_stage path
                <> PathActivity.stage_number activity)
            \/ exists s, a' = PathActivity.set_status s activity)
        /\ fst (update_path_activity db u k data now) =
           mkDatabase (child_profiles db) (learning_paths db)
                      (save_activity a' (path_activities db)))
  \/ (exists activity path pct upd,
        get_activity db k = Some activity
        /\ get_path db (PathActivity.learning_path_id activity) = Some path
        /\ LearningPath.current_stage path = PathActivity.stage_number activity
        /\ fst (update_path_activity db u k data now) =
           mkDatabase (child_profiles db)
             (save_path (recomputed path pct upd) (learning_paths db))
             (save_activity (completed_activity activity) (path_activities db))
        /\ let rows := save_activity (completed_activity activity)
                                     (path_activities db) in
           let c := count (completed_of (LearningPath.id path) rows) in
           let t := count (activities_of (LearningPath.id path) rows) in
           (0 < t /\ percentage c t = Some pct /\ upd = now)
           \/ (t = 0 /\ pct = LearningPath.progress_percentage path
               /\ upd = LearningPath.last_updated path)).
Proof.
  unfold update_path_activity.
  destruct (get_activity db k) as [activity|] eqn:Ha; [|left; reflexivity].
  destruct (get_path db _) as [path|] eqn:Hp; [|left; reflexivity].
  destruct (get_profile db _) as [profile|]; [|left; reflexivity].
  destruct (negb _); [left; reflexivity|].
  destruct (status_cases data) as [Hbad|(s & Hs & [->|[->| ->]])].
  - left. rewrite apply_ignored by exact Hbad. reflexivity.
  - right. left.
    exists activity, path, (PathActivity.set_status "pending" activity).
    rewrite (apply_other_status _ _ _ _ _ _ Hs) by auto. eauto 8.
  - right. left.
    exists activity, path, (PathActivity.set_status "in-progress" activity).
    rewrite (apply_other_status _ _ _ _ _ _ Hs) by auto. eauto 8.
  - destruct (Z.eq_dec (LearningPath.current_stage path)
                       (PathActivity.stage_number activity)) as [E|E].
    + right. right.
      destruct (apply_completed_frontier db activity path data now Hs E)
        as (pct & upd & -> & Hpct).
      exists activity, path, pct, upd.
      split; [reflexivity|]. split; [exact Hp|]. split; [exact E|].
      split; [reflexivity|]. cbv zeta. exact Hpct.
    + right. left. exists activity, path, (completed_activity activity).
      rewrite (apply_completed_elsewhere _ _ _ _ _ Hs E). auto 8.
Qed.

Lemma advanced_static (p : LearningPath.t) (pct upd : Z) :
  path_static (recomputed p pct upd) = path_static p
  /\ LearningPath.current_stage p
     <= LearningPath.current_stage (recomputed p pct upd)
  /\ (LearningPath.current_stage p <= LearningPath.total_stages p ->
      LearningPath.current_stage (recomputed p pct upd)
      <= LearningPath.total_stages p).
Proof.
  unfold path_static, recomputed, advanced.
  cbn [LearningPath.id LearningPath.child_profile_id LearningPath.title
       LearningPath.description LearningPath.total_stages
       LearningPath.created_at LearningPath.current_stage].
  destruct (Z.ltb_spec (LearningPath.current_stage p) (LearningPath.total_stages p));
    cbn [LearningPath.set_current_stage LearningPath.current_stage];
    repeat split; lia.
Qed.

Lemma written_activity_static (activity a' : PathActivity.t) :
  a' = completed_activity activity
  \/ (exists s, a' = PathActivity.set_status s activity) ->
  activity_static a' = activity_static activity
  /\ (PathActivity.is_completed activity = true ->
      PathActivity.is_completed a' = true).
Proof. intros [->|(s & ->)]; split; auto. Qed.

(** A status update inserts and deletes no row and assigns none of the
    fixed columns: under every key the activity keeps its id, path, title,
    description, type, url, stage and creation time, and the path keeps its
    id, profile, title, description, total_stages and creation time; the
    profiles are untouched.  Only the addressed activity and its own path
    can differ from before. *)
Theorem update_changes_only_progress_columns
    (db : Database) (u k : Z) (data : Py.body) (now : Z) :
  let db' := fst (update_path_activity db u k data now) in
  child_profiles db' = child_profiles db
  /\ map PathActivity.id (path_activities db') = map PathActivity.id (path_activities db)
  /\ map LearningPath.id (learning_paths db') = map LearningPath.id (learning_paths db)
  /\ (forall k', option_map activity_static (get_activity db' k')
                 = option_map activity_static (get_activity db k'))
  /\ (forall pid, option_map path_static (get_path db' pid)
                  = option_map path_static (get_path db pid))
  /\ (forall k', k' <> k -> get_activity db' k' = get_activity db k')
  /\ (forall activity pid,
         get_activity db k = Some activity ->
         pid <> PathActivity.learning_path_id activity ->
         get_path db' pid = get_path db pid).
Proof.
  intros db'. subst db'.
  destruct (update_cases db u k data now)
    as [E|[(act & path & a' & Ha & Hp & Ha' & E)
          |(act & path & pct & upd & Ha & Hp & Hst & E & _)]];
    rewrite E; clear E.
  - repeat split; reflexivity.
  - pose proof (key_of_activity _ _ _ Ha) as Hk.
    assert (Hw : activity_static a' = activity_static act
                 /\ (PathActivity.is_completed act = true ->
                     PathActivity.is_completed a' = true)).
    { apply written_activity_static. destruct Ha' as [[-> _]|H]; auto. }
    destruct Hw as [Hs _].
    assert (Hid : PathActivity.id a' = k)
      by (unfold activity_static in Hs; inversion Hs; congruence).
    cbn [child_profiles path_activities learning_paths].
    repeat split.
    + apply (save_keys PathActivity.id).
    + intros k'. apply (lookup_save_proj PathActivity.id activity_static k k' _ act a');
        assumption.
    + intros k' Hne. apply (lookup_save_other PathActivity.id). congruence.
  - pose proof (key_of_activity _ _ _ Ha) as Hk.
    pose proof (path_of_activity _ _ _ Hp) as Hl.
    cbn [child_profiles path_activities learning_paths].
    repeat split.
    + apply (save_keys PathActivity.id).
    + apply (save_keys LearningPath.id).
    + intros k'.
      apply (lookup_save_proj PathActivity.id activity_static k k' _ act
               (completed_activity act)); [exact Ha|exact Hk|reflexivity].
    + intros pid.
      apply (lookup_save_proj LearningPath.id path_static
               (PathActivity.learning_path_id act) pid _ path
               (recomputed path pct upd)); [exact Hp|exact Hl|].
      apply advanced_static.
    + intros k' Hne. apply (lookup_save_other PathActivity.id).
      cbn. congruence.
    + intros activity pid Hact Hne. rewrite Ha in Hact. inversion Hact; subst act.
      apply (lookup_save_other LearningPath.id). cbn. congruence.
Qed.

(** ** Rows along a trace *)

Lemma step_keeps_rows (db : Database) (r : Request) :
  (forall k a,
      get_activity db k = Some a ->
      exists a', get_activity (step db r) k = Some a'
                 /\ activity_static a' = activity_static a
                 /\ (PathActivity.is_completed a = true ->
                     PathActivity.is_completed a' = true))
  /\ (forall pid p,
         get_path db pid = Some p ->
         exists p', get_path (step db r) pid = Some p'
                    /\ path_static p' = path_static p
                    /\ LearningPath.current_stage p <= LearningPath.current_stage p'
                    /\ (LearningPath.current_stage p <= LearningPath.total_stages p ->
                        LearningPath.current_stage p'
                        <= LearningPath.total_stages p')).
Proof.
  assert (Hrow : forall rows act a' k a,
            lookup PathActivity.id (PathActivity.id a') rows = Some act ->
            activity_static a' = activity_static act ->
            (PathActivity.is_completed act = true ->
             PathActivity.is_completed a' = true) ->
            lookup PathActivity.id k rows = Some a ->
            exists a'', lookup PathActivity.id k (save PathActivity.id a' rows) = Some a''
                        /\ activity_static a'' = activity_static a
                        /\ (PathActivity.is_completed a = true ->
                            PathActivity.is_completed a'' = true)).
  { intros rows act a' k a Hact Hs Hm Ha.
    destruct (Z.eq_dec (PathActivity.id a') k) as [E|E].
    - exists a'. rewrite E in Hact. rewrite Hact in Ha. inversion Ha; subst a.
      split; [apply (lookup_save_same PathActivity.id _ _ act); assumption|auto].
    - exists a. rewrite (lookup_save_other PathActivity.id) by exact E. auto. }
  assert (Hsame : forall (p : LearningPath.t),
            path_static p = path_static p
            /\ LearningPath.current_stage p <= LearningPath.current_stage p
            /\ (LearningPath.current_stage p <= LearningPath.total_stages p ->
                LearningPath.current_stage p <= LearningPath.total_stages p))
    by (intros p; repeat split; lia).
  destruct r as [u k0 data now|profile now]; cbn [step].
  - destruct (update_cases db u k0 data now)
      as [E|[(act & path & a' & Ha & Hp & Ha' & E)
            |(act & path & pct & upd & Ha & Hp & Hst & E & _)]];
      rewrite E; clear E.
    + split; [intros k a H; exists a; auto|intros pid p H; exists p; auto].
    + pose proof (key_of_activity _ _ _ Ha) as Hk.
      destruct (written_activity_static act a') as [Hs Hm];
        [destruct Ha' as [[-> _]|H]; auto|].
      assert (Hid : PathActivity.id a' = k0)
        by (unfold activity_static in Hs; inversion Hs; congruence).
      split; [|intros pid p H; exists p; auto].
      intros k a H. unfold get_activity in *. cbn [path_activities].
      apply (Hrow _ act); try assumption. rewrite Hid. exact Ha.
    + pose proof (key_of_activity _ _ _ Ha) as Hk.
      pose proof (path_of_activity _ _ _ Hp) as Hl.
      split.
      * intros k a H. unfold get_activity in *. cbn [path_activities].
        apply (Hrow _ act); try assumption; try reflexivity.
        cbn. rewrite Hk. exact Ha.
      * intros pid p H. unfold get_path in *. cbn [learning_paths].
        destruct (Z.eq_dec (LearningPath.id path) pid) as [Epid|Epid].
        -- rewrite <- Hl, Epid in Hp. rewrite Hp in H. inversion H; subst p.
           exists (recomputed path pct upd).
           split; [apply (lookup_save_same LearningPath.id _ _ path);
                   [exact Hp|exact Epid]|].
           destruct (advanced_static path pct upd) as (H1 & H2 & H3).
           repeat split; assumption.
        -- exists p. unfold save_path.
           rewrite (lookup_save_other LearningPath.id) by exact Epid. auto.
  - rewrite generate_learning_path_shape. cbn [fst]. split.
    + intros k a H. exists a. unfold get_activity in *. cbn [path_activities].
      rewrite (lookup_app PathActivity.id), H. auto.
    + intros pid p H. exists p. unfold get_path in *. cbn [learning_paths].
      rewrite (lookup_app LearningPath.id), H. auto.
Qed.

(** Along any sequence of requests no row disappears and no fixed column
    changes; [is_completed] is never cleared, [current_stage] never
    decreases, and a stage pointer within [total_stages] stays within it. *)
Theorem rows_persist_along_traces (rs : list Request) :
  forall db,
    (forall k a,
        get_activity db k = Some a ->
        exists a', get_activity (run db rs) k = Some a'
                   /\ activity_static a' = activity_static a
                   /\ (PathActivity.is_completed a = true ->
                       PathActivity.is_completed a' = true))
    /\ (forall pid p,
           get_path db pid = Some p ->
           exists p', get_path (run db rs) pid = Some p'
                      /\ path_static p' = path_static p
                      /\ LearningPath.current_stage p <= LearningPath.current_stage p'
                      /\ (LearningPath.current_stage p <= LearningPath.total_stages p ->
                          LearningPath.current_stage p'
                          <= LearningPath.total_stages p')).
Proof.
  induction rs as [|r rs IH]; intros db.
  - split; [intros k a H; exists a; auto|].
    intros pid p H; exists p. repeat split; auto; lia.
  - destruct (step_keeps_rows db r) as [Ha Hp].
    destruct (IH (step db r)) as [IHa IHp]. cbn [run fold_left]. split.
    + intros k a H. destruct (Ha k a H) as (a1 & H1 & Hs1 & Hm1).
      destruct (IHa k a1 H1) as (a2 & H2 & Hs2 & Hm2).
      exists a2. repeat split; [exact H2|congruence|auto].
    + intros pid p H. destruct (Hp pid p H) as (p1 & H1 & Hs1 & Hc1 & Hb1).
      destruct (IHp pid p1 H1) as (p2 & H2 & Hs2 & Hc2 & Hb2).
      exists p2. repeat split; [exact H2|congruence|lia|auto].
Qed.

(** ** Integrity of the store *)

Lemma existsb_key {A : Type} (key : A -> Z) (x : Z) (rows : list A) :
  existsb (fun r => key r =? x) rows = existsb (fun i => i =? x) (map key rows).
Proof. induction rows as [|r rows IH]; simpl; [reflexivity|]. rewrite IH. reflexivity. Qed.

Lemma foreign_keys_step (db : Database) (r : Request) :
  foreign_keys_ok db = true -> foreign_keys_ok (step db r) = true.
Proof.
  unfold foreign_keys_ok. intros H.
  assert (Hrows : forall act a' paths,
            In act (path_activities db) ->
            PathActivity.learning_path_id a' = PathActivity.learning_path_id act ->
            map LearningPath.id paths = map LearningPath.id (learning_paths db) ->
            forallb (fun a => existsb (fun p => LearningPath.id p
                                                =? PathActivity.learning_path_id a)
                                      paths)
                    (save_activity a' (path_activities db)) = true).
  { intros act a' paths Hin Hl Hids. rewrite forallb_forall in *.
    intros x Hx. rewrite existsb_key, Hids, <- existsb_key.
    unfold save_activity, save in Hx. apply in_map_iff in Hx.
    destruct Hx as (y & Hy & Hyin).
    destruct (PathActivity.id y =? PathActivity.id a').
    - subst x. rewrite Hl. apply H, Hin.
    - subst x. apply H, Hyin. }
  destruct r as [u k data now|profile now]; cbn [step].
  - destruct (update_cases db u k data now)
      as [E|[(act & path & a' & Ha & Hp & Ha' & E)
            |(act & path & pct & upd & Ha & Hp & Hst & E & _)]];
      rewrite E; clear E; [exact H| |].
    + cbn [path_activities learning_paths].
      apply (Hrows act); [apply (lookup_some PathActivity.id _ _ _ Ha)| |reflexivity].
      destruct Ha' as [[-> _]|(s & ->)]; reflexivity.
    + cbn [path_activities learning_paths].
      apply (Hrows act); [apply (lookup_some PathActivity.id _ _ _ Ha)|reflexivity|].
      apply (save_keys LearningPath.id).
  - rewrite generate_learning_path_shape. cbn [fst path_activities learning_paths].
    rewrite forallb_app. apply andb_true_iff. split.
    + rewrite forallb_forall in *. intros x Hx.
      rewrite existsb_app, (H x Hx). reflexivity.
    + unfold generated_rows. cbn [map combine activities forallb
                                   PathActivity.learning_path_id].
      rewrite !existsb_app. cbn [existsb LearningPath.id].
      rewrite Z.eqb_refl, !orb_true_r. reflexivity.
Qed.

Lemma update_keeps_keys (db : Database) (u k : Z) (data : Py.body) (now : Z) :
  map PathActivity.id (path_activities (fst (update_path_activity db u k data now)))
  = map PathActivity.id (path_activities db)
  /\ map LearningPath.id (learning_paths (fst (update_path_activity db u k data now)))
     = map LearningPath.id (learning_paths db).
Proof.
  destruct (update_cases db u k data now)
    as [E|[(act & path & a' & _ & _ & _ & E)
          |(act & path & pct & upd & _ & _ & _ & E & _)]];
    rewrite E; clear E; cbn [path_activities learning_paths].
  - split; reflexivity.
  - split; [apply (save_keys PathActivity.id)|reflexivity].
  - split; [apply (save_keys PathActivity.id)|apply (save_keys LearningPath.id)].
Qed.

Lemma primary_keys_step (db : Database) (r : Request) :
  primary_keys_ok db = true -> primary_keys_ok (step db r) = true.
Proof.
  intros H. destruct r as [u k data now|profile now]; cbn [step].
  - unfold primary_keys_ok.
    destruct (update_keeps_keys db u k data now) as [-> _]. exact H.
  - apply generate_keeps_primary_keys, H.
Qed.

(** Every request keeps the activity keys unique and every activity
    attached to an existing path, hence so does every sequence of requests. *)
Theorem well_formed_along_traces (rs : list Request) :
  forall db, well_formed db = true -> well_formed (run db rs) = true.
Proof.
  induction rs as [|r rs IH]; intros db H; [exact H|].
  cbn [run fold_left]. apply IH.
  unfold well_formed in *. apply andb_true_iff in H. destruct H as [Hpk Hfk].
  apply andb_true_iff. split;
    [apply primary_keys_step, Hpk|apply foreign_keys_step, Hfk].
Qed.

Lemma well_formed_along_traces_witness :
  well_formed
    (run profile_db
       [GenerateLearningPath ada 1000;
        UpdatePathActivity 7 1 (status_body "completed") 2000;
        GenerateLearningPath ada 3000]) = true.
Proof.
  apply (well_formed_along_traces
           [GenerateLearningPath ada 1000;
            UpdatePathActivity 7 1 (status_body "completed") 2000;
            GenerateLearningPath ada 3000] profile_db).
  reflexivity.
Defined.

(** ** Repeating a request *)

Lemma update_rejected (db : Database) (u k : Z) (data : Py.body) :
  ~ (exists activity path profile,
        get_activity db k = Some activity
        /\ get_path db (PathActivity.learning_path_id activity) = Some path
        /\ get_profile db (LearningPath.child_profile_id path) = Some profile
        /\ ChildProfile.user_id profile = u) ->
  forall now, fst (update_path_activity db u k data now) = db.
Proof.
  intros H now. unfold update_path_activity.
  destruct (get_activity db k) as [activity|] eqn:Ha; [|reflexivity].
  destruct (get_path db _) as [path|] eqn:Hp; [|reflexivity].
  destruct (get_profile db _) as [profile|] eqn:Hc; [|reflexivity].
  destruct (Z.eqb_spec (ChildProfile.user_id profile) u) as [E|E];
    [|reflexivity].
  exfalso. apply H. exists activity, path, profile. auto.
Qed.

Lemma completed_activity_twice (a : PathActivity.t) :
  completed_activity (completed_activity a) = completed_activity a.
Proof. reflexivity. Qed.

Lemma recomputed_at_last_stage (p : LearningPath.t) (pct upd upd' : Z) :
  LearningPath.current_stage (recomputed p pct upd) = LearningPath.current_stage p ->
  without_last_updated (recomputed (recomputed p pct upd) pct upd')
  = without_last_updated (recomputed p pct upd).
Proof.
  unfold without_last_updated, recomputed, advanced.
  cbn [LearningPath.current_stage LearningPath.total_stages LearningPath.id
       LearningPath.child_profile_id LearningPath.title LearningPath.description
       LearningPath.created_at LearningPath.set_last_updated
       LearningPath.progress_percentage LearningPath.last_updated].
  destruct (Z.ltb_spec (LearningPath.current_stage p) (LearningPath.total_stages p))
    as [H|H]; cbn [LearningPath.set_current_stage LearningPath.current_stage
                   LearningPath.total_stages]; intros E.
  - lia.
  - apply Z.ltb_ge in H. rewrite H. reflexivity.
Qed.

(** Sending the same request a second time changes no profile, no activity
    and no path column other than [last_updated]: the second call either is
    rejected like the first, rewrites the same values, or, at the last stage,
    recomputes the same percentage. *)
Theorem repeated_request_is_harmless
    (db : Database) (u k : Z) (data : Py.body) (now now' : Z) :
  let db1 := fst (update_path_activity db u k data now) in
  let db2 := fst (update_path_activity db1 u k data now') in
  child_profiles db2 = child_profiles db1
  /\ path_activities db2 = path_activities db1
  /\ map without_last_updated (learning_paths db2)
     = map without_last_updated (learning_paths db1).
Proof.
  intros db1 db2. subst db2 db1.
  destruct (get_activity db k) as [act|] eqn:Ha;
    [|rewrite !(update_rejected db u k data)
        by (intros (a & p & c & H & _); congruence); auto].
  destruct (get_path db (PathActivity.learning_path_id act)) as [path|] eqn:Hp;
    [|rewrite !(update_rejected db u k data)
        by (intros (a & p & c & H1 & H2 & _); congruence); auto].
  destruct (get_profile db (LearningPath.child_profile_id path)) as [profile|] eqn:Hc;
    [|rewrite !(update_rejected db u k data)
        by (intros (a & p & c & H1 & H2 & H3 & _); congruence); auto].
  destruct (Z.eq_dec (ChildProfile.user_id profile) u) as [Hu|Hu];
    [|rewrite !(update_rejected db u k data)
        by (intros (a & p & c & H1 & H2 & H3 & H4); congruence); auto].
  pose proof (key_of_activity _ _ _ Ha) as Hk.
  pose proof (path_of_activity _ _ _ Hp) as Hl.
  rewrite (authorized_update db _ _ data now _ _ _ Ha Hp Hc Hu).
  assert (Hagain : forall a' paths' path',
            PathActivity.id a' = k ->
            PathActivity.learning_path_id a' = PathActivity.learning_path_id act ->
            lookup LearningPath.id (PathActivity.learning_path_id act) paths'
            = Some path' ->
            LearningPath.child_profile_id path' = LearningPath.child_profile_id path ->
            update_path_activity
              (mkDatabase (child_profiles db) paths'
                 (save_activity a' (path_activities db))) u k data now'
            = apply_activity_status
                (mkDatabase (child_profiles db) paths'
                   (save_activity a' (path_activities db))) a' path' data now').
  { intros a' paths' path' Hid Hlp Hget Hcp.
    apply (authorized_update _ _ _ _ _ a' path' profile).
    - apply (lookup_save_same PathActivity.id _ _ act); assumption.
    - rewrite Hlp. exact Hget.
    - rewrite Hcp. exact Hc.
    - exact Hu. }
  destruct (status_cases data) as [Hbad|(s & Hs & [->|[->| ->]])].
  - rewrite apply_ignored by exact Hbad. cbn [fst].
    rewrite (authorized_update db _ _ data now' _ _ _ Ha Hp Hc Hu).
    rewrite apply_ignored by exact Hbad. auto.
  - rewrite (apply_other_status _ _ _ _ _ _ Hs) by auto. cbn [fst].
    rewrite (Hagain (PathActivity.set_status "pending" act) _ path Hk eq_refl Hp eq_refl).
    rewrite (apply_other_status _ _ _ _ _ _ Hs) by auto.
    cbn [fst child_profiles path_activities learning_paths].
    unfold save_activity. rewrite (save_save PathActivity.id) by reflexivity.
    auto.
  - rewrite (apply_other_status _ _ _ _ _ _ Hs) by auto. cbn [fst].
    rewrite (Hagain (PathActivity.set_status "in-progress" act) _ path Hk eq_refl Hp eq_refl).
    rewrite (apply_other_status _ _ _ _ _ _ Hs) by auto.
    cbn [fst child_profiles path_activities learning_paths].
    unfold save_activity. rewrite (save_save PathActivity.id) by reflexivity.
    auto.
  - destruct (Z.eq_dec (LearningPath.current_stage path)
                       (PathActivity.stage_number act)) as [E|E].
    + destruct (apply_completed_frontier db act path data now Hs E)
        as (pct & upd & -> & Hpct).
      fold (recomputed path pct upd). cbn [fst].
      assert (Hget1 : lookup LearningPath.id (PathActivity.learning_path_id act)
                        (save_path (recomputed path pct upd) (learning_paths db))
                      = Some (recomputed path pct upd))
        by (apply (lookup_save_same LearningPath.id _ _ path); [exact Hp|exact Hl]).
      rewrite (Hagain (completed_activity act) _ (recomputed path pct upd) Hk eq_refl Hget1 eq_refl).
      destruct (Z.eq_dec (LearningPath.current_stage (recomputed path pct upd))
                         (PathActivity.stage_number act)) as [E1|E1].
      * destruct (apply_completed_frontier
                    (mkDatabase (child_profiles db)
                       (save_path (recomputed path pct upd) (learning_paths db))
                       (save_activity (completed_activity act) (path_activities db)))
                    (completed_activity act) (recomputed path pct upd) data now'
                    Hs E1) as (pct' & upd' & -> & Hpct').
        fold (recomputed (recomputed path pct upd) pct' upd').
        cbn [fst child_profiles path_activities learning_paths] in *.
        rewrite completed_activity_twice in *.
        unfold save_activity in *.
        rewrite (save_save PathActivity.id) in * by reflexivity.
        cbn [recomputed LearningPath.id LearningPath.progress_percentage] in Hpct'.
        assert (pct' = pct).
        { destruct Hpct as [(H1 & H2 & _)|(H1 & H2 & _)];
            destruct Hpct' as [(H3 & H4 & _)|(H3 & H4 & _)]; try lia; congruence. }
        subst pct'. split; [reflexivity|]. split; [reflexivity|].
        unfold save_path. rewrite (save_save LearningPath.id) by reflexivity.
        rewrite !(map_save LearningPath.id without_last_updated).
        apply map_ext. intros r. cbn [recomputed LearningPath.id].
        destruct (LearningPath.id r =? LearningPath.id path); [|reflexivity].
        apply recomputed_at_last_stage. congruence.
      * rewrite apply_completed_elsewhere by assumption.
        cbn [fst child_profiles path_activities learning_paths].
        rewrite completed_activity_twice.
        unfold save_activity. rewrite (save_save PathActivity.id) by reflexivity.
        auto.
    + rewrite (apply_completed_elsewhere _ _ _ _ _ Hs E). cbn [fst].
      rewrite (Hagain (completed_activity act) _ path Hk eq_refl Hp eq_refl).
      rewrite apply_completed_elsewhere by assumption.
      cbn [fst child_profiles path_activities learning_paths].
      rewrite completed_activity_twice.
      unfold save_activity. rewrite (save_save PathActivity.id) by reflexivity.
      auto.
Qed.

(** ** A generated path keeps its course *)

Lemma completed_of_filter (pid : Z) (rows : list PathActivity.t) :
  completed_of pid rows = filter PathActivity.is_completed (activities_of pid rows).
Proof.
  unfold completed_of, activities_of.
  induction rows as [|r rows IH]; simpl; [reflexivity|].
  destruct (PathActivity.learning_path_id r =? pid); simpl; [|exact IH].
  destruct (PathActivity.is_completed r); rewrite IH; reflexivity.
Qed.

(** The activities of a path before and after a write-back that keeps the
    owning path: the list is the same but for the written row. *)
Lemma activities_after_save (pid : Z) (rows : list PathActivity.t)
    (act a' : PathActivity.t) :
  unique_ids (map PathActivity.id rows) = true ->
  lookup PathActivity.id (PathActivity.id a') rows = Some act ->
  PathActivity.learning_path_id a' = PathActivity.learning_path_id act ->
  (PathActivity.learning_path_id act <> pid
   /\ activities_of pid (save_activity a' rows) = activities_of pid rows)
  \/ (PathActivity.learning_path_id act = pid
      /\ exists pre post,
           activities_of pid rows = pre ++ act :: post
           /\ activities_of pid (save_activity a' rows) = pre ++ a' :: post).
Proof.
  intros Hu Hf Hl.
  destruct (save_unique PathActivity.id _ rows act a' Hu Hf eq_refl)
    as (pre & post & -> & Hs).
  unfold save_activity. rewrite Hs. unfold activities_of.
  rewrite !filter_app. cbn [filter]. rewrite Hl.
  destruct (Z.eqb_spec (PathActivity.learning_path_id act) pid) as [E|E].
  - right. split; [exact E|]. eauto.
  - left. split; [exact E|reflexivity].
Qed.

Lemma same_key_same_row {A : Type} (f : A -> Z) (l : list A) (a b : A) :
  NoDup (map f l) -> In a l -> In b l -> f a = f b -> a = b.
Proof.
  induction l as [|x l IH]; simpl; intros Hn Ha Hb E; [contradiction|].
  inversion Hn as [|y ys Hx Hn']; subst.
  destruct Ha as [->|Ha]; destruct Hb as [->|Hb]; try reflexivity.
  - exfalso. apply Hx. rewrite E. apply in_map, Hb.
  - exfalso. apply Hx. rewrite <- E. apply in_map, Ha.
  - apply IH; assumption.
Qed.

Lemma stages_distinct : NoDup [1; 2; 3; 4; 5].
Proof. repeat constructor; simpl; intuition lia. Qed.

(** With one activity per stage 1 to 5 and every stage below [n] completed,
    at least [n - 1] activities are completed. *)
Lemma completed_before_frontier (l : list PathActivity.t) (n : Z) :
  map PathActivity.stage_number l = [1; 2; 3; 4; 5] ->
  (forall a, In a l -> PathActivity.stage_number a < n ->
             PathActivity.is_completed a = true) ->
  n <= 6 ->
  n - 1 <= count (filter PathActivity.is_completed l).
Proof.
  intros Hm Hj Hn.
  destruct l as [|b1 [|b2 [|b3 [|b4 [|b5 [|b6 l]]]]]]; try discriminate.
  inversion Hm as [[H1 H2 H3 H4 H5]].
  assert (J1 := Hj b1 ltac:(simpl; auto)).
  assert (J2 := Hj b2 ltac:(simpl; auto)).
  assert (J3 := Hj b3 ltac:(simpl; auto)).
  assert (J4 := Hj b4 ltac:(simpl; auto)).
  assert (J5 := Hj b5 ltac:(simpl; auto 6)).
  rewrite H1 in J1. rewrite H2 in J2. rewrite H3 in J3.
  rewrite H4 in J4. rewrite H5 in J5.
  cbn [filter].
  destruct (PathActivity.is_completed b1);
    [|assert (n <= 1) by (destruct (Z.le_gt_cases n 1) as [|G];
                           [assumption|discriminate (J1 ltac:(lia))])];
  destruct (PathActivity.is_completed b2);
    try (assert (n <= 2) by (destruct (Z.le_gt_cases n 2) as [|G];
                              [assumption|discriminate (J2 ltac:(lia))]));
  destruct (PathActivity.is_completed b3);
    try (assert (n <= 3) by (destruct (Z.le_gt_cases n 3) as [|G];
                              [assumption|discriminate (J3 ltac:(lia))]));
  destruct (PathActivity.is_completed b4);
    try (assert (n <= 4) by (destruct (Z.le_gt_cases n 4) as [|G];
                              [assumption|discriminate (J4 ltac:(lia))]));
  destruct (PathActivity.is_completed b5);
    try (assert (n <= 5) by (destruct (Z.le_gt_cases n 5) as [|G];
                              [assumption|discriminate (J5 ltac:(lia))]));
  unfold count; cbn [List.length]; lia.
Qed.

Lemma on_course_tracked (pid : Z) (db : Database) :
  on_course pid db -> tracked pid db.
Proof.
  intros (Hpk & path & Hget & Hst & Hts & Hcs & Hj & Hk).
  split; [exact Hpk|]. exists path. split; [exact Hget|]. split; [|lia].
  unfold count. rewrite <- (length_map PathActivity.stage_number), Hst. reflexivity.
Qed.

Lemma on_course_generate (db : Database) (profile : ChildProfile.t) (now : Z) :
  well_formed db = true ->
  on_course (LearningPath.id (snd (generate_learning_path db profile now)))
            (fst (generate_learning_path db profile now)).
Proof.
  intros Hwf. destruct (tracked_generate db profile now Hwf) as (Hpk & _).
  unfold well_formed in Hwf. apply andb_true_iff in Hwf. destruct Hwf as [_ Hfk].
  split; [exact Hpk|].
  destruct (generate_learning_path db profile now) as [db' path] eqn:E.
  destruct (generated_path_rows db db' profile now path E Hfk)
    as (H1 & H2 & H3 & _ & H5 & _ & H7).
  cbn [fst snd]. exists path. rewrite H7, H1, H2, H3.
  pose proof (count_nonneg (completed_of (LearningPath.id path) (path_activities db'))).
  split; [exact H5|]. split; [reflexivity|]. split; [reflexivity|].
  split; [lia|]. split; [|lia].
  intros a Ha Hlt. exfalso.
  apply (in_map PathActivity.stage_number) in Ha.
  simpl in Ha. intuition lia.
Qed.

Lemma activities_after_write (pid : Z) (rows : list PathActivity.t)
    (act a' : PathActivity.t) :
  unique_ids (map PathActivity.id rows) = true ->
  lookup PathActivity.id (PathActivity.id a') rows = Some act ->
  activity_static a' = activity_static act ->
  (PathActivity.is_completed act = true -> PathActivity.is_completed a' = true) ->
  map PathActivity.stage_number (activities_of pid (save_activity a' rows))
  = map PathActivity.stage_number (activities_of pid rows)
  /\ (forall x, In x (activities_of pid (save_activity a' rows)) ->
                exists y, In y (activities_of pid rows)
                          /\ PathActivity.stage_number y = PathActivity.stage_number x
                          /\ (PathActivity.is_completed y = true ->
                              PathActivity.is_completed x = true))
  /\ (PathActivity.learning_path_id act = pid ->
      In a' (activities_of pid (save_activity a' rows))).
Proof.
  intros Hu Hf Hs Hm.
  assert (Hl : PathActivity.learning_path_id a' = PathActivity.learning_path_id act)
    by (unfold activity_static in Hs; inversion Hs; reflexivity).
  assert (Hg : PathActivity.stage_number a' = PathActivity.stage_number act)
    by (unfold activity_static in Hs; inversion Hs; reflexivity).
  destruct (activities_after_save pid rows act a' Hu Hf Hl)
    as [(Hne & ->)|(He & pre & post & -> & ->)].
  - split; [reflexivity|]. split; [|contradiction].
    intros x Hx. exists x. auto.
  - split; [|split].
    + rewrite !map_app. cbn [map]. rewrite Hg. reflexivity.
    + intros x Hx. apply in_app_or in Hx. destruct Hx as [Hx|[<-|Hx]].
      * exists x. split; [apply in_or_app; left; exact Hx|auto].
      * exists act. split; [apply in_or_app; right; left; reflexivity|auto].
      * exists x. split; [apply in_or_app; right; right; exact Hx|auto].
    + intros _. apply in_or_app. right. left. reflexivity.
Qed.

Lemma on_course_step (pid : Z) (db : Database) (r : Request) :
  on_course pid db -> on_course pid (step db r).
Proof.
  intros H. pose proof (on_course_tracked pid db H) as Ht.
  destruct (tracked_step pid db r Ht)
    as ((Hpk' & q & Hq & _ & Hq0 & Hqup) & _).
  destruct H as (Hpk & path & Hget & Hst & Hts & Hcs & Hj & Hlow & Hup).
  split; [exact Hpk'|]. exists q. split; [exact Hq|].
  (* the case where the path row and the owner of every activity are kept *)
  assert (Hkept : forall rows',
            get_path (step db r) pid = Some path ->
            path_activities (step db r) = rows' ->
            map PathActivity.stage_number (activities_of pid rows')
            = map PathActivity.stage_number (activities_of pid (path_activities db)) ->
            (forall x, In x (activities_of pid rows') ->
                       exists y, In y (activities_of pid (path_activities db))
                                 /\ PathActivity.stage_number y
                                    = PathActivity.stage_number x
                                 /\ (PathActivity.is_completed y = true ->
                                     PathActivity.is_completed x = true)) ->
            map PathActivity.stage_number
                (activities_of pid (path_activities (step db r))) = [1; 2; 3; 4; 5]
            /\ LearningPath.total_stages q = 5
            /\ 1 <= LearningPath.current_stage q <= 5
            /\ (forall a, In a (activities_of pid (path_activities (step db r))) ->
                          PathActivity.stage_number a < LearningPath.current_stage q ->
                          PathActivity.is_completed a = true)
            /\ 20 * (LearningPath.current_stage q - 1)
               <= LearningPath.progress_percentage q
               <= 20 * count (completed_of pid (path_activities (step db r)))).
  { intros rows' Hq' Hrows Hmap Hin. rewrite Hq' in Hq. inversion Hq; subst q.
    rewrite Hrows. rewrite Hrows in Hqup. rewrite Hmap.
    repeat split; try assumption; try lia.
    intros a Ha Hlt. destruct (Hin a Ha) as (y & Hy & Hsy & Hcy).
    apply Hcy, Hj; [exact Hy|lia]. }
  destruct r as [u k data now|profile now]; cbn [step] in *.
  - destruct (update_cases db u k data now)
      as [E|[(act & path0 & a' & Ha & Hp0 & Ha' & E)
            |(act & path0 & pct & upd & Ha & Hp0 & Hfront & E & Hpct)]].
    + rewrite E in *. apply (Hkept (path_activities db)); auto.
      intros x Hx. exists x. auto.
    + pose proof (key_of_activity _ _ _ Ha) as Hk.
      destruct (written_activity_static act a') as [Hs Hm];
        [destruct Ha' as [[-> _]|H]; auto|].
      assert (Hid : PathActivity.id a' = k)
        by (unfold activity_static in Hs; inversion Hs; congruence).
      rewrite <- Hid in Ha.
      destruct (activities_after_write pid _ act a' Hpk Ha Hs Hm) as (H1 & H2 & _).
      rewrite E in *. cbn [path_activities] in *.
      apply (Hkept (save_activity a' (path_activities db))); auto.
    + pose proof (key_of_activity _ _ _ Ha) as Hk.
      pose proof (path_of_activity _ _ _ Hp0) as Hl.
      assert (Ha1 : lookup PathActivity.id
                      (PathActivity.id (completed_activity act))
                      (path_activities db) = Some act)
        by (cbn; rewrite Hk; exact Ha).
      destruct (activities_after_write pid _ act (completed_activity act)
                  Hpk Ha1 eq_refl ltac:(reflexivity)) as (H1 & H2 & H3).
      rewrite E in *. cbn [path_activities learning_paths] in *.
      destruct (Z.eq_dec (LearningPath.id path0) pid) as [Epid|Epid].
      * assert (path0 = path)
          by (rewrite <- Hl, Epid in Hp0; congruence).
        subst path0.
        assert (Hq' : get_path
                  (mkDatabase (child_profiles db)
                     (save_path (recomputed path pct upd) (learning_paths db))
                     (save_activity (completed_activity act) (path_activities db)))
                  pid = Some (recomputed path pct upd))
          by (apply (lookup_save_same LearningPath.id _ _ path);
              [exact Hget|exact Epid]).
        rewrite Hq' in Hq. inversion Hq; subst q. clear Hq.
        set (rows' := save_activity (completed_activity act) (path_activities db)) in *.
        assert (Hst' : map PathActivity.stage_number (activities_of pid rows')
                       = [1; 2; 3; 4; 5]) by congruence.
        assert (Hcs' : LearningPath.current_stage (recomputed path pct upd)
                       = LearningPath.current_stage path
                         \/ (LearningPath.current_stage path < 5
                             /\ LearningPath.current_stage (recomputed path pct upd)
                                = LearningPath.current_stage path + 1)).
        { cbn [recomputed LearningPath.current_stage]. unfold advanced.
          rewrite Hts.
          destruct (Z.ltb_spec (LearningPath.current_stage path) 5);
            cbn [LearningPath.set_current_stage LearningPath.current_stage]; auto. }
        assert (Hj' : forall a, In a (activities_of pid rows') ->
                  PathActivity.stage_number a
                  < LearningPath.current_stage (recomputed path pct upd) ->
                  PathActivity.is_completed a = true).
        { intros a Hin Hlt.
          destruct (Z.lt_ge_cases (PathActivity.stage_number a)
                                  (LearningPath.current_stage path)) as [Hb|Hb].
          - destruct (H2 a Hin) as (y & Hy & Hsy & Hcy).
            apply Hcy, Hj; [exact Hy|lia].
          - assert (Hsame : PathActivity.stage_number a
                            = PathActivity.stage_number (completed_activity act))
              by (cbn; lia).
            rewrite (same_key_same_row PathActivity.stage_number
                       (activities_of pid rows') a (completed_activity act));
              [reflexivity| |exact Hin| |exact Hsame].
            + rewrite Hst'. exact stages_distinct.
            + apply H3. congruence. }
        split; [exact Hst'|]. split; [exact Hts|]. split; [lia|].
        split; [exact Hj'|].
        cbv zeta in Hpct. rewrite Epid in Hpct. fold rows' in Hpct.
        assert (Ht5 : count (activities_of pid rows') = 5).
        { unfold count.
          rewrite <- (length_map PathActivity.stage_number), Hst'. reflexivity. }
        rewrite Ht5 in Hpct.
        destruct Hpct as [(_ & Hp & _)|(Hz & _)]; [|lia].
        pose proof (completed_le_total pid rows') as Hle. rewrite Ht5 in Hle.
        pose proof (count_nonneg (completed_of pid rows')) as Hnn.
        rewrite percentage_of_five in Hp by lia.
        assert (Epct : pct = 20 * count (completed_of pid rows')) by congruence.
        subst pct. clear Hp.
        cbn [recomputed LearningPath.progress_percentage].
        pose proof (completed_before_frontier (activities_of pid rows')
                      (LearningPath.current_stage (recomputed path
                         (20 * count (completed_of pid rows')) upd))
                      Hst' Hj' ltac:(lia)) as Hc.
        rewrite <- completed_of_filter in Hc.
        cbn [recomputed LearningPath.current_stage] in *. lia.
      * apply (Hkept (save_activity (completed_activity act) (path_activities db)));
          auto.
        rewrite <- Hget. apply (lookup_save_other LearningPath.id). exact Epid.
  - pose proof (lookup_some LearningPath.id _ _ _ Hget) as [Hid Hin].
    pose proof (next_id_fresh LearningPath.id _ _ Hin) as Hfresh.
    rewrite generate_learning_path_shape in *. cbn [fst] in *.
    assert (Hrows : activities_of pid
              (path_activities db ++
               generated_rows (next_id (map LearningPath.id (learning_paths db)))
                 (next_id (map PathActivity.id (path_activities db))) now)
            = activities_of pid (path_activities db)).
    { unfold activities_of at 1. rewrite filter_app.
      fold (activities_of pid (path_activities db)).
      fold (activities_of pid
              (generated_rows (next_id (map LearningPath.id (learning_paths db)))
                 (next_id (map PathActivity.id (path_activities db))) now)).
      rewrite generated_rows_other by lia. apply app_nil_r. }
    apply (Hkept (path_activities db ++
               generated_rows (next_id (map LearningPath.id (learning_paths db)))
                 (next_id (map PathActivity.id (path_activities db))) now)).
    + unfold get_path in *. cbn [learning_paths].
      rewrite (lookup_app LearningPath.id), Hget. reflexivity.
    + reflexivity.
    + rewrite Hrows. reflexivity.
    + rewrite Hrows. intros x Hx. exists x. auto.
Qed.

Lemma on_course_run (pid : Z) (rs : list Request) :
  forall db, on_course pid db -> on_course pid (run db rs).
Proof.
  induction rs as [|r rs IH]; intros db H; [exact H|].
  apply (IH (step db r)), on_course_step, H.
Qed.

(** On a path created by the generator, after any sequence of requests:
    the five activities still carry the stages 1 to 5, the activity of
    every stage before [current_stage] is completed, and
    20 * (current_stage - 1) <= progress_percentage <= 20 * completed. *)
Theorem generated_path_stays_on_course
    (db0 : Database) (profile : ChildProfile.t) (now : Z) (rs : list Request) :
  well_formed db0 = true ->
  let pid := LearningPath.id (snd (generate_learning_path db0 profile now)) in
  let db := run (fst (generate_learning_path db0 profile now)) rs in
  exists path,
    get_path db pid = Some path
    /\ map PathActivity.stage_number (activities_of pid (path_activities db))
       = [1; 2; 3; 4; 5]
    /\ LearningPath.total_stages path = 5
    /\ 1 <= LearningPath.current_stage path <= 5
    /\ (forall a, In a (activities_of pid (path_activities db)) ->
                  PathActivity.stage_number a < LearningPath.current_stage path ->
                  PathActivity.is_completed a = true)
    /\ 20 * (LearningPath.current_stage path - 1)
       <= LearningPath.progress_percentage path
       <= 20 * count (completed_of pid (path_activities db)).
Proof.
  intros Hwf pid db.
  pose proof (on_course_generate db0 profile now Hwf) as H.
  apply (on_course_run pid rs) in H. destruct H as (_ & H). exact H.
Qed.

Lemma generated_path_stays_on_course_witness :
  let pid := LearningPath.id (snd (generate_learning_path profile_db ada 1000)) in
  let db := run (fst (generate_learning_path profile_db ada 1000))
                [UpdatePathActivity 7 2 (status_body "completed") 2000;
                 UpdatePathActivity 7 1 (status_body "completed") 3000] in
  exists path,
    get_path db pid = Some path
    /\ map PathActivity.stage_number (activities_of pid (path_activities db))
       = [1; 2; 3; 4; 5]
    /\ LearningPath.total_stages path = 5
    /\ 1 <= LearningPath.current_stage path <= 5
    /\ (forall a, In a (activities_of pid (path_activities db)) ->
                  PathActivity.stage_number a < LearningPath.current_stage path ->
                  PathActivity.is_completed a = true)
    /\ 20 * (LearningPath.current_stage path - 1)
       <= LearningPath.progress_percentage path
       <= 20 * count (completed_of pid (path_activities db)).
Proof.
  apply (generated_path_stays_on_course profile_db ada 1000
           [UpdatePathActivity 7 2 (status_body "completed") 2000;
            UpdatePathActivity 7 1 (status_body "completed") 3000]).
  reflexivity.
Defined.

(** A generated path shows 100 percent only when all five of its
    activities are completed. *)
Theorem full_percentage_means_all_completed
    (db0 : Database) (profile : ChildProfile.t) (now : Z) (rs : list Request)
    (path : LearningPath.t) :
  well_formed db0 = true ->
  let pid := LearningPath.id (snd (generate_learning_path db0 profile now)) in
  let db := run (fst (generate_learning_path db0 profile now)) rs in
  get_path db pid = Some path ->
  LearningPath.progress_percentage path = 100 ->
  forall a, In a (activities_of pid (path_activities db)) ->
            PathActivity.is_completed a = true.
Proof.
  intros Hwf pid db Hget H100.
  pose proof (on_course_generate db0 profile now Hwf) as H.
  apply (on_course_run pid rs) in H. fold pid db in H.
  destruct H as (_ & q & Hq & Hst & _ & _ & _ & _ & Hup).
  rewrite Hget in Hq. inversion Hq; subst q.
  rewrite completed_of_filter in Hup.
  assert (Hlen : count (activities_of pid (path_activities db)) = 5).
  { unfold count. rewrite <- (length_map PathActivity.stage_number), Hst.
    reflexivity. }
  assert (Hall : forall l : list PathActivity.t,
            count l <= count (filter PathActivity.is_completed l) ->
            forall a, In a l -> PathActivity.is_completed a = true).
  { induction l as [|x l IH]; [contradiction|].
    cbn [filter]. intros Hc a Ha.
    pose proof (filter_length_le PathActivity.is_completed l) as Hf.
    destruct (PathActivity.is_completed x) eqn:Ex.
    - rewrite !count_cons in Hc. destruct Ha as [<-|Ha]; [exact Ex|].
      apply IH; [lia|exact Ha].
    - exfalso. rewrite count_cons in Hc. unfold count in *. lia. }
  apply Hall. lia.
Qed.

(** * Listing the paths of a profile *)

Section OrderBy.

Context {A : Type}.
Variable key : A -> Z.

Lemma insert_by_permutation (a : A) (rows : list A) :
  Permutation (insert_by key a rows) (a :: rows).
Proof.
  induction rows as [|b rows IH]; simpl; [reflexivity|].
  destruct (key a <=? key b); [reflexivity|].
  rewrite IH. apply perm_swap.
Qed.

Lemma order_by_permutation (rows : list A) : Permutation (order_by key rows) rows.
Proof.
  unfold order_by. induction rows as [|a rows IH]; simpl; [reflexivity|].
  rewrite insert_by_permutation, IH. reflexivity.
Qed.

Lemma insert_by_sorted (a : A) (rows : list A) :
  Sorted (fun x y => key x <= key y) rows ->
  Sorted (fun x y => key x <= key y) (insert_by key a rows).
Proof.
  induction rows as [|b rows IH]; simpl; intros H.
  - repeat constructor.
  - destruct (Z.leb_spec (key a) (key b)) as [Hle|Hgt].
    + constructor; [exact H|constructor; exact Hle].
    + inversion H as [|x l Hs Hh]; subst. constructor; [apply IH, Hs|].
      destruct rows as [|c rows]; simpl.
      * constructor. lia.
      * destruct (key a <=? key c); constructor; try lia.
        inversion Hh; subst. assumption.
Qed.

Lemma order_by_sorted (rows : list A) :
  Sorted (fun x y => key x <= key y) (order_by key rows).
Proof.
  unfold order_by. induction rows as [|a rows IH]; simpl; [constructor|].
  apply insert_by_sorted, IH.
Qed.

(** Ordering changes nothing in a list that is already in order. *)
Lemma order_by_sorted_id (rows : list A) :
  Sorted (fun x y => key x <= key y) rows -> order_by key rows = rows.
Proof.
  unfold order_by. induction rows as [|a rows IH]; simpl; intros H; [reflexivity|].
  inversion H as [|x l Hs Hh]; subst. rewrite (IH Hs).
  destruct rows as [|b rows]; [reflexivity|]. simpl.
  inversion Hh; subst. apply Z.leb_le in H1. rewrite H1. reflexivity.
Qed.

End OrderBy.

(** The listing is given to the owner of the profile only, and it holds
    exactly the paths of that profile, each with exactly its own activities
    in ascending stage order. *)
Theorem get_learning_paths_lists_own_paths
    (db : Database) (u profile_id : Z)
    (result : list (LearningPath.t * list PathActivity.t)) :
  reply_body (get_learning_paths db u profile_id) = Some result ->
  (exists profile,
      get_profile db profile_id = Some profile
      /\ ChildProfile.user_id profile = u)
  /\ reply_code (get_learning_paths db u profile_id) = 200
  /\ map fst result = paths_of profile_id (learning_paths db)
  /\ Forall (fun entry =>
               LearningPath.child_profile_id (fst entry) = profile_id
               /\ Permutation (snd entry)
                    (activities_of (LearningPath.id (fst entry))
                                   (path_activities db))
               /\ Sorted (fun a b => PathActivity.stage_number a
                                     <= PathActivity.stage_number b)
                         (snd entry))
            result.
Proof.
  unfold get_learning_paths.
  destruct (get_profile db profile_id) as [profile|]; [|discriminate].
  destruct (Z.eqb_spec (ChildProfile.user_id profile) u) as [E|E];
    [|discriminate].
  cbn [negb reply_body reply_code]. intros H. inversion H; subst result; clear H.
  split; [eauto|]. split; [reflexivity|]. unfold listing. split.
  - rewrite map_map. cbn [fst]. apply map_id.
  - apply Forall_forall. intros entry Hin. apply in_map_iff in Hin.
    destruct Hin as (path & <- & Hp). cbn [fst snd].
    unfold paths_of in Hp. apply filter_In in Hp. destruct Hp as [_ Hp].
    apply Z.eqb_eq in Hp.
    split; [exact Hp|]. split; [apply order_by_permutation|apply order_by_sorted].
Qed.

Lemma order_by_generated_rows (pid k now : Z) :
  order_by PathActivity.stage_number (generated_rows pid k now)
  = generated_rows pid k now.
Proof. reflexivity. Qed.

(** The listing of a profile after a generation: the earlier entries, then
    the new path with its five rows if the path is for that profile. *)
Lemma listing_after_generate (db : Database) (profile : ChildProfile.t)
    (now pid : Z) :
  foreign_keys_ok db = true ->
  listing (fst (generate_learning_path db profile now)) pid
  = listing db pid
    ++ (if ChildProfile.id profile =? pid
        then [(snd (generate_learning_path db profile now),
               generated_rows
                 (LearningPath.id (snd (generate_learning_path db profile now)))
                 (next_id (map PathActivity.id (path_activities db))) now)]
        else []).
Proof.
  intros Hfk. rewrite generate_learning_path_shape. cbn [fst snd LearningPath.id].
  unfold listing. cbn [learning_paths path_activities].
  unfold paths_of at 1. rewrite filter_app, map_app. f_equal.
  - apply map_ext_in. intros path Hin. f_equal. f_equal.
    apply filter_In in Hin. destruct Hin as [Hin _].
    pose proof (next_id_fresh LearningPath.id _ _ Hin) as Hfresh.
    unfold activities_of at 1. rewrite filter_app.
    fold (activities_of (LearningPath.id path) (path_activities db)).
    fold (activities_of (LearningPath.id path)
            (generated_rows (next_id (map LearningPath.id (learning_paths db)))
               (next_id (map PathActivity.id (path_activities db))) now)).
    rewrite generated_rows_other by lia. apply app_nil_r.
  - cbn [filter LearningPath.child_profile_id].
    destruct (ChildProfile.id profile =? pid); [|reflexivity].
    cbn [map LearningPath.id]. f_equal. f_equal.
    unfold activities_of at 1. rewrite filter_app.
    fold (activities_of (next_id (map LearningPath.id (learning_paths db)))
            (path_activities db)).
    rewrite activities_of_fresh_path by exact Hfk. cbn [app].
    fold (activities_of (next_id (map LearningPath.id (learning_paths db)))
            (generated_rows (next_id (map LearningPath.id (learning_paths db)))
               (next_id (map PathActivity.id (path_activities db))) now)).
    rewrite activities_of_generated_rows. apply order_by_generated_rows.
Qed.

(** A generation adds one entry at the end of the owner's listing, the new
    path with the five template activities in stage order, and leaves every
    earlier entry of the listing as it was: earlier paths are neither closed
    nor replaced. *)
Theorem generation_extends_listing
    (db : Database) (profile : ChildProfile.t) (now u : Z)
    (before : list (LearningPath.t * list PathActivity.t)) :
  foreign_keys_ok db = true ->
  reply_body (get_learning_paths db u (ChildProfile.id profile)) = Some before ->
  let db' := fst (generate_learning_path db profile now) in
  let path := snd (generate_learning_path db profile now) in
  exists rows,
    reply_body (get_learning_paths db' u (ChildProfile.id profile))
    = Some (before ++ [(path, rows)])
    /\ map summary rows =
       [ (1, "assessment", "Reading Assessment", "pending", false);
         (2, "exercise", "Vocabulary Building", "pending", false);
         (3, "reading", "Guided Reading", "pending", false);
         (4, "quiz", "Comprehension Quiz", "pending", false);
         (5, "creative", "Creative Response", "pending", false) ]
    /\ Forall (fun a => PathActivity.learning_path_id a = LearningPath.id path) rows.
Proof.
  intros Hfk Hbefore db' path. subst db' path.
  pose proof (listing_after_generate db profile now (ChildProfile.id profile) Hfk)
    as Hl.
  rewrite Z.eqb_refl in Hl.
  unfold get_learning_paths in *.
  assert (Hprof : get_profile (fst (generate_learning_path db profile now))
                    (ChildProfile.id profile)
                  = get_profile db (ChildProfile.id profile))
    by (rewrite generate_learning_path_shape; reflexivity).
  rewrite Hprof.
  destruct (get_profile db (ChildProfile.id profile)) as [owner|]; [|discriminate].
  destruct (negb _); [discriminate|].
  cbn [reply_body] in *. inversion Hbefore; subst before.
  eexists. split; [rewrite Hl; reflexivity|]. split; [reflexivity|].
  repeat constructor.
Qed.

Lemma generation_extends_listing_witness :
  let db' := fst (generate_learning_path fresh_db ada 5000) in
  let path := snd (generate_learning_path fresh_db ada 5000) in
  exists rows,
    reply_body (get_learning_paths db' 7 1)
    = Some (listing fresh_db 1 ++ [(path, rows)])
    /\ map summary rows =
       [ (1, "assessment", "Reading Assessment", "pending", false);
         (2, "exercise", "Vocabulary Building", "pending", false);
         (3, "reading", "Guided Reading", "pending", false);
         (4, "quiz", "Comprehension Quiz", "pending", false);
         (5, "creative", "Creative Response", "pending", false) ]
    /\ Forall (fun a => PathActivity.learning_path_id a = LearningPath.id path) rows.
Proof.
  apply (generation_extends_listing fresh_db ada 5000 7 (listing fresh_db 1));
    reflexivity.
Defined.

Lemma get_learning_paths_lists_own_paths_witness :
  (exists profile,
      get_profile fresh_db 1 = Some profile /\ ChildProfile.user_id profile = 7)
  /\ reply_code (get_learning_paths fresh_db 7 1) = 200
  /\ map fst (listing fresh_db 1) = paths_of 1 (learning_paths fresh_db)
  /\ Forall (fun entry =>
               LearningPath.child_profile_id (fst entry) = 1
               /\ Permutation (snd entry)
                    (activities_of (LearningPath.id (fst entry))
                                   (path_activities fresh_db))
               /\ Sorted (fun a b => PathActivity.stage_number a
                                     <= PathActivity.stage_number b)
                         (snd entry))
            (listing fresh_db 1).
Proof.
  apply (get_learning_paths_lists_own_paths fresh_db 7 1 (listing fresh_db 1)).
  reflexivity.
Defined.

Lemma full_percentage_means_all_completed_witness :
  let rs := [UpdatePathActivity 7 1 (status_body "completed") 2000;
             UpdatePathActivity 7 2 (status_body "completed") 3000;
             UpdatePathActivity 7 3 (status_body "completed") 4000;
             UpdatePathActivity 7 4 (status_body "completed") 5000;
             UpdatePathActivity 7 5 (status_body "completed") 6000] in
  let pid := LearningPath.id (snd (generate_learning_path profile_db ada 1000)) in
  let db := run (fst (generate_learning_path profile_db ada 1000)) rs in
  option_map LearningPath.progress_percentage (get_path db pid) = Some 100
  /\ forall a, In a (activities_of pid (path_activities db)) ->
               PathActivity.is_completed a = true.
Proof.
  split; [reflexivity|].
  apply (full_percentage_means_all_completed profile_db ada 1000
           [UpdatePathActivity 7 1 (status_body "completed") 2000;
            UpdatePathActivity 7 2 (status_body "completed") 3000;
            UpdatePathActivity 7 3 (status_body "completed") 4000;
            UpdatePathActivity 7 4 (status_body "completed") 5000;
            UpdatePathActivity 7 5 (status_body "completed") 6000]
           (LearningPath.mk 1 1 "Personalized Reading Journey for Ada"
              "A customized learning path designed for a 8-year-old reader at beginner level."
              5 5 100 1000 6000));
    reflexivity.
Defined.

(** * The percentage a cascade stores *)

(** ** Stores the handlers build *)

Lemma well_formed_step (db : Database) (r : Request) :
  well_formed db = true -> well_formed (step db r) = true.
Proof.
  unfold well_formed. intros H. apply andb_true_iff in H. destruct H as [Hpk Hfk].
  apply andb_true_iff. split;
    [apply primary_keys_step, Hpk|apply foreign_keys_step, Hfk].
Qed.

Lemma lookup_none_keys {A : Type} (key : A -> Z) (k : Z) (rows rows' : list A) :
  map key rows' = map key rows ->
  lookup key k rows = None -> lookup key k rows' = None.
Proof.
  revert rows'. induction rows as [|r rows IH]; intros [|r' rows'] E;
    try discriminate; [reflexivity|].
  cbn [map] in E. inversion E as [[E1 E2]]. unfold lookup in *. cbn [find].
  rewrite E1. destruct (key r =? k); [discriminate|]. apply IH, E2.
Qed.

(** A path that a request adds to the store is the one a generation
    returns: no other request inserts a path row. *)
Lemma new_path_is_generated (db : Database) (r : Request) (pid : Z)
    (p : LearningPath.t) :
  get_path db pid = None -> get_path (step db r) pid = Some p ->
  exists profile now,
    r = GenerateLearningPath profile now
    /\ pid = LearningPath.id (snd (generate_learning_path db profile now)).
Proof.
  intros Hnone Hsome. destruct r as [u k data now|profile now]; cbn [step] in Hsome.
  - exfalso. destruct (update_keeps_keys db u k data now) as [_ Hk].
    unfold get_path in *.
    rewrite (lookup_none_keys LearningPath.id pid _ _ Hk Hnone) in Hsome.
    discriminate.
  - exists profile, now. split; [reflexivity|].
    rewrite generate_learning_path_shape in *. cbn [fst snd] in *.
    unfold get_path in *. cbn [learning_paths] in Hsome.
    rewrite (lookup_app LearningPath.id), Hnone in Hsome.
    apply (lookup_some LearningPath.id) in Hsome. destruct Hsome as [Hid [<-|[]]].
    symmetry. exact Hid.
Qed.

(** Every path of a store built by requests from a store without paths is
    a generated path with its five activities. *)
Lemma reachable_tracked (db0 : Database) (rs : list Request) :
  learning_paths db0 = [] -> path_activities db0 = [] ->
  well_formed (run db0 rs) = true
  /\ forall pid p, get_path (run db0 rs) pid = Some p -> tracked pid (run db0 rs).
Proof.
  intros Hp0 Ha0. induction rs as [|r rs IH] using rev_ind.
  - split.
    + unfold well_formed, primary_keys_ok, foreign_keys_ok. cbn [run fold_left].
      rewrite Ha0. reflexivity.
    + intros pid p. cbn [run fold_left]. unfold get_path. rewrite Hp0. discriminate.
  - destruct IH as [Hwf Htr]. rewrite run_app. cbn [run fold_left].
    fold (run db0 rs). set (db := run db0 rs) in *.
    split; [apply well_formed_step, Hwf|].
    intros pid p Hp.
    destruct (get_path db pid) as [p0|] eqn:Hold.
    + apply tracked_step. apply (Htr pid p0 Hold).
    + destruct (new_path_is_generated db r pid p Hold Hp)
        as (profile & now & -> & ->).
      cbn [step]. apply tracked_generate, Hwf.
Qed.

(** Completing an activity of path [pid] adds one to the completed count of
    the path, unless the activity was completed already. *)
Lemma completed_after_completion (pid : Z) (rows : list PathActivity.t)
    (act : PathActivity.t) :
  unique_ids (map PathActivity.id rows) = true ->
  lookup PathActivity.id (PathActivity.id act) rows = Some act ->
  PathActivity.learning_path_id act = pid ->
  count (completed_of pid (save_activity (completed_activity act) rows))
  = count (completed_of pid rows)
    + (if PathActivity.is_completed act then 0 else 1).
Proof.
  intros Hu Hf Hl.
  destruct (activities_after_save pid rows act (completed_activity act) Hu Hf eq_refl)
    as [[Hne _]|(_ & pre & post & E & E')]; [contradiction|].
  rewrite !completed_of_filter, E, E', !filter_app. cbn [filter].
  change (PathActivity.is_completed (completed_activity act)) with true.
  destruct (PathActivity.is_completed act); rewrite !count_app, !count_cons; lia.
Qed.

(** ** The cascade on a store the handlers have built *)

(** C3. On every store built by requests from a store without paths, a
    completion at the current stage finds a positive activity count under
    the path and stores the integer floor of 100 * completed / total as its
    percentage; when no activity of the path was completed before, as on a
    freshly generated path, the percentage stored is 20.  With a zero
    activity count the recomputation is skipped: the percentage is left as
    it was and the call answers as usual, nothing being divided. *)
Theorem cascade_stores_floor_percentage
    (db0 : Database) (rs : list Request) (u k : Z) (data : Py.body) (now : Z)
    (activity : PathActivity.t) (path : LearningPath.t) (owner : ChildProfile.t) :
  let db := run db0 rs in
  let db' := fst (update_path_activity db u k data now) in
  let pid := LearningPath.id path in
  let completed d := count (completed_of pid (path_activities d)) in
  let total d := count (activities_of pid (path_activities d)) in
  learning_paths db0 = [] -> path_activities db0 = [] ->
  get_activity db k = Some activity ->
  get_path db (PathActivity.learning_path_id activity) = Some path ->
  get_profile db (LearningPath.child_profile_id path) = Some owner ->
  ChildProfile.user_id owner = u ->
  Py.getitem "status" data = Some (Py.JStr "completed") ->
  PathActivity.stage_number activity = LearningPath.current_stage path ->
  (exists path',
      get_path db' pid = Some path'
      /\ 0 < total db'
      /\ LearningPath.progress_percentage path'
         = spec_floor_percentage (completed db') (total db')
      /\ (completed db = 0 -> LearningPath.progress_percentage path' = 20))
  /\ forall d a p n,
       LearningPath.current_stage p = PathActivity.stage_number a ->
       count (activities_of (LearningPath.id p)
                (save_activity (completed_activity a) (path_activities d))) = 0 ->
       apply_activity_status d a p data n =
       (mkDatabase (child_profiles d)
          (save_path (recomputed p (LearningPath.progress_percentage p)
                                 (LearningPath.last_updated p))
                     (learning_paths d))
          (save_activity (completed_activity a) (path_activities d)),
        activity_updated (completed_activity a)).
Proof.
  intros db db' pid completed total Hp0 Ha0 Ha Hp Ho Hu Hs Hst. split.
  - pose proof (path_of_activity db activity path Hp) as Hid.
    pose proof (key_of_activity db k activity Ha) as Hk.
    destruct (reachable_tracked db0 rs Hp0 Ha0) as [_ Htr]. fold db in Htr.
    assert (Hpid : get_path db pid = Some path) by (unfold pid; rewrite Hid; exact Hp).
    pose proof (Htr pid path Hpid) as Ht.
    destruct (tracked_step pid db (UpdatePathActivity u k data now) Ht)
      as ((_ & q & _ & Ht5 & _) & _).
    cbn [step] in Ht5. fold db' in Ht5. fold (total db') in Ht5.
    destruct (frontier_completion db u k activity path owner Ha Hp Ho Hu
                data now Hs Hst) as (pct & Hdb & Hget & _ & _ & Hpct).
    fold db' in Hdb, Hget, Hpct. fold pid in Hget, Hpct.
    fold (completed db') in Hpct. fold (total db') in Hpct.
    pose proof (completed_le_total pid (path_activities db')) as Hle.
    pose proof (count_nonneg (completed_of pid (path_activities db'))) as Hnn.
    fold (completed db') in Hle, Hnn. fold (total db') in Hle.
    rewrite Ht5 in *.
    rewrite percentage_of_five in Hpct by lia.
    assert (Epct : pct = 20 * completed db') by congruence. subst pct.
    exists (recomputed path (20 * completed db') now).
    split; [exact Hget|]. split; [lia|].
    cbn [recomputed LearningPath.progress_percentage].
    destruct (spec_percentages_of_five (completed db')) as [_ ->].
    split; [reflexivity|]. intros Hzero.
    destruct Ht as (Hpk & _).
    assert (Hrow : lookup PathActivity.id (PathActivity.id activity)
                     (path_activities db) = Some activity)
      by (rewrite Hk; exact Ha).
    assert (Hlp : PathActivity.learning_path_id activity = pid)
      by (unfold pid; congruence).
    pose proof (completed_after_completion pid (path_activities db) activity
                  Hpk Hrow Hlp) as Hc.
    assert (Hc' : completed db'
                  = completed db
                    + (if PathActivity.is_completed activity then 0 else 1)).
    { unfold completed at 1. rewrite Hdb. exact Hc. }
    destruct (PathActivity.is_completed activity) eqn:Hdone; [|lia].
    exfalso.
    assert (Hin : In activity (completed_of pid (path_activities db))).
    { apply filter_In. split.
      - apply (lookup_some PathActivity.id _ _ _ Hrow).
      - rewrite Hlp, Z.eqb_refl, Hdone. reflexivity. }
    unfold completed, count in Hzero.
    destruct (completed_of pid (path_activities db)); [contradiction|].
    simpl List.length in Hzero. lia.
  - intros d a p n Hcs Hzero.
    destruct (apply_completed_frontier d a p data n Hs Hcs)
      as (pct & upd & -> & [(H & _)|(_ & -> & ->)]).
    + cbv zeta in H. lia.
    + reflexivity.
Qed.

Lemma cascade_stores_floor_percentage_witness :
  let db := run profile_db [GenerateLearningPath ada 1000] in
  let db' := fst (update_path_activity db 7 1 (status_body "completed") 2000) in
  let completed d := count (completed_of 1 (path_activities d)) in
  let total d := count (activities_of 1 (path_activities d)) in
  (exists path',
      get_path db' 1 = Some path'
      /\ 0 < total db'
      /\ LearningPath.progress_percentage path'
         = spec_floor_percentage (completed db') (total db')
      /\ (completed db = 0 -> LearningPath.progress_percentage path' = 20))
  /\ forall d a p n,
       LearningPath.current_stage p = PathActivity.stage_number a ->
       count (activities_of (LearningPath.id p)
                (save_activity (completed_activity a) (path_activities d))) = 0 ->
       apply_activity_status d a p (status_body "completed") n =
       (mkDatabase (child_profiles d)
          (save_path (recomputed p (LearningPath.progress_percentage p)
                                 (LearningPath.last_updated p))
                     (learning_paths d))
          (save_activity (completed_activity a) (path_activities d)),
        activity_updated (completed_activity a)).
Proof.
  apply (cascade_stores_floor_percentage profile_db [GenerateLearningPath ada 1000]
           7 1 (status_body "completed") 2000
           (PathActivity.mk 1 1 "Reading Assessment"
              "Complete an initial reading assessment to identify your strengths and areas for improvement."
              "assessment" None 1 "pending" false 1000)
           (LearningPath.mk 1 1 "Personalized Reading Journey for Ada"
              "A customized learning path designed for a 8-year-old reader at beginner level."
              1 5 0 1000 1000)
           ada);
    reflexivity.
Defined.

(** * Recording an assessment *)


(** A score of 2^63 is one the store cannot hold: the request of an owner
    with both required fields ends in 500 and leaves the store as it was. *)
Example create_assessment_overflow :
  create_assessment library 7
    (AssessmentData.mk (Some 1) (Some "advanced") (Some (2 ^ 63)) None None None)
    5000
  = (library, failure 500 "Internal server error").
Proof. reflexivity. Qed.



Lemma Sorted_weaken {A : Type} (R R' : A -> A -> Prop) (l : list A) :
  (forall x y, R x y -> R' x y) -> Sorted R l -> Sorted R' l.
Proof.
  intros Hr. induction 1 as [|a l Hs IH Hh]; constructor; [exact IH|].
  destruct Hh; constructor. apply Hr. assumption.
Qed.

(** The accepted assessment joins the profile's history: the history of the
    profile afterwards is the earlier history plus the new assessment, and
    it is listed from the latest date to the earliest. *)
Theorem assessment_joins_history
    (st : Store) (u : Z) (data : AssessmentData.t) (now : Z)
    (pid : Z) (level : string) (profile : ChildProfile.t) :
  AssessmentData.child_profile_id data = Some pid ->
  AssessmentData.reading_level data = Some level ->
  get_profile (database st) pid = Some profile ->
  ChildProfile.user_id profile = u ->
  reply_code (snd (create_assessment st u data now)) = 201 ->
  let st' := fst (create_assessment st u data now) in
  exists assessment before after,
    reply_body (snd (create_assessment st u data now)) = Some assessment
    /\ reply_body (get_assessments st u pid) = Some before
    /\ reply_body (get_assessments st' u pid) = Some after
    /\ Permutation after (assessment :: before)
    /\ Sorted (fun a b => ProgressAssessment.assessment_date b
                          <= ProgressAssessment.assessment_date a) after.
Proof.
  intros Hpid Hlevel Hp Hu Haccepted st'. subst st'.
  pose proof (lookup_some ChildProfile.id _ _ _ Hp) as [Hid _].
  revert Haccepted.
  unfold create_assessment. rewrite Hpid, Hlevel, Hp, Hu, Z.eqb_refl.
  cbn [negb]. destruct (bindable _ && bindable _ && bindable _);
    [intros _|discriminate].
  cbn [fst snd reply_body].
  set (profile' := set_reading_level level profile).
  set (db1 := mkDatabase (save ChildProfile.id profile'
                            (child_profiles (database st)))
                         (learning_paths (database st))
                         (path_activities (database st))).
  set (new := ProgressAssessment.mk _ pid now level _ _ _ _).
  assert (Hprof : get_profile (fst (generate_learning_path db1 profile' now)) pid
                  = Some profile').
  { rewrite generate_learning_path_shape.
    apply (lookup_save_same ChildProfile.id _ _ profile); assumption. }
  unfold get_assessments. cbn [database progress_assessments].
  rewrite Hp, Hprof. cbn [profile' set_reading_level ChildProfile.user_id].
  rewrite Hu, Z.eqb_refl. cbn [negb reply_body].
  eexists. eexists. eexists.
  split; [reflexivity|]. split; [reflexivity|]. split; [reflexivity|]. split.
  - rewrite !order_by_permutation, filter_app.
    cbn [filter new ProgressAssessment.child_profile_id].
    rewrite Z.eqb_refl. symmetry. apply Permutation_cons_append.
  - apply (Sorted_weaken
             (fun x y => - ProgressAssessment.assessment_date x
                         <= - ProgressAssessment.assessment_date y));
      [intros x y H; lia|apply order_by_sorted].
Qed.

Lemma assessment_joins_history_witness :
  let data := AssessmentData.mk (Some 1) (Some "advanced") None None None
                                (Some "reads aloud") in
  let st' := fst (create_assessment library 7 data 5000) in
  exists assessment before after,
    reply_body (snd (create_assessment library 7 data 5000)) = Some assessment
    /\ reply_body (get_assessments library 7 1) = Some before
    /\ reply_body (get_assessments st' 7 1) = Some after
    /\ Permutation after (assessment :: before)
    /\ Sorted (fun a b => ProgressAssessment.assessment_date b
                          <= ProgressAssessment.assessment_date a) after.
Proof.
  apply (assessment_joins_history library 7
           (AssessmentData.mk (Some 1) (Some "advanced") None None None
                              (Some "reads aloud"))
           5000 1 "advanced" ada);
    reflexivity.
Defined.

(** * Reading lists *)

Lemma updated_item_keeps (item : ReadingList.t) (data : ReadingUpdateData.t)
    (now : Z) :
  ReadingList.id (updated_item item data now) = ReadingList.id item
  /\ ReadingList.child_profile_id (updated_item item data now)
     = ReadingList.child_profile_id item
  /\ ReadingList.book_id (updated_item item data now) = ReadingList.book_id item
  /\ ReadingList.created_at (updated_item item data now)
     = ReadingList.created_at item
  /\ (0 <= ReadingList.progress_percentage item <= 100 ->
      0 <= ReadingList.progress_percentage (updated_item item data now) <= 100).
Proof.
  unfold updated_item.
  destruct (ReadingUpdateData.status data) as [[| | |s|]|];
    cbn [Py.in_strings];
    try destruct (existsb (String.eqb s) reading_statuses);
    try destruct (String.eqb s "completed");
    destruct (ReadingUpdateData.progress_percentage data) as [p|];
    try destruct (Z.leb_spec 0 p); try destruct (Z.leb_spec p 100);
    cbn; repeat split; lia.
Qed.

Lemma unique_ids_filter {A : Type} (key : A -> Z) (p : A -> bool) (l : list A) :
  unique_ids (map key l) = true -> unique_ids (map key (filter p l)) = true.
Proof.
  induction l as [|x l IH]; simpl; intros H; [reflexivity|].
  apply andb_true_iff in H. destruct H as [Hx Hl].
  destruct (p x); simpl; [|apply IH, Hl].
  apply andb_true_iff. split; [|apply IH, Hl].
  apply negb_true_iff. apply negb_true_iff in Hx.
  apply not_true_is_false. intros E. apply existsb_exists in E.
  destruct E as (k & Hk & Ek). apply in_map_iff in Hk.
  destruct Hk as (y & <- & Hy). apply filter_In in Hy. destruct Hy as [Hy _].
  assert (existsb (Z.eqb (key x)) (map key l) = true)
    by (apply existsb_exists; exists (key y); split; [apply in_map, Hy|exact Ek]).
  congruence.
Qed.

(** Dropping the rows of one key keeps the (profile, book) pairs distinct. *)
Lemma pairs_after_removal (item_id : Z) (rows : list ReadingList.t) :
  NoDup (map (fun r => (ReadingList.child_profile_id r, ReadingList.book_id r)) rows) ->
  NoDup (map (fun r => (ReadingList.child_profile_id r, ReadingList.book_id r))
             (filter (fun r => negb (ReadingList.id r =? item_id)) rows)).
Proof.
  induction rows as [|r rows IH]; cbn [filter map]; intros Hd; [exact Hd|].
  apply NoDup_cons_iff in Hd. destruct Hd as [Hfresh Hrest].
  destruct (negb (ReadingList.id r =? item_id)); [|exact (IH Hrest)].
  cbn [map]. apply NoDup_cons_iff. split; [|exact (IH Hrest)].
  intros Hin. apply Hfresh.
  apply in_map_iff in Hin. destruct Hin as (r' & Epair & Hr').
  apply in_map_iff. exists r'. split; [exact Epair|].
  apply filter_In in Hr'. apply Hr'.
Qed.

Lemma listed_none (pid bid : Z) (rows : list ReadingList.t) :
  listed pid bid rows = None ->
  ~ In (pid, bid)
       (map (fun r => (ReadingList.child_profile_id r, ReadingList.book_id r)) rows).
Proof.
  unfold listed. intros H Hin. apply in_map_iff in Hin.
  destruct Hin as (r & E & Hr). inversion E; subst.
  pose proof (find_none _ _ H r Hr) as Hn. cbn in Hn.
  rewrite !Z.eqb_refl in Hn. discriminate.
Qed.

(** The reading lists keep their integrity through every handler: item
    keys stay unique, a profile never has the same book twice, and every
    percentage stays within 0..100. *)
Theorem reading_lists_stay_well_formed (st : Store) :
  reading_lists_ok st ->
  (forall u data now, reading_lists_ok (fst (add_to_reading_list st u data now)))
  /\ (forall u item_id data now,
         reading_lists_ok (fst (update_reading_list st u item_id data now)))
  /\ (forall u item_id,
         reading_lists_ok (fst (remove_from_reading_list st u item_id))).
Proof.
  intros (Hu & Hn & Hb). split; [|split].
  - intros u data now. unfold add_to_reading_list.
    destruct (ReadingListData.child_profile_id data) as [pid|];
      [|repeat split; assumption].
    destruct (ReadingListData.book_id data) as [bid|];
      [|repeat split; assumption].
    destruct (get_profile (database st) pid) as [profile|];
      [|repeat split; assumption].
    destruct (negb _); [repeat split; assumption|].
    destruct (lookup Book.id bid (books st)) as [book|];
      [|repeat split; assumption].
    destruct (listed pid bid (reading_lists st)) as [existing|] eqn:Hl;
      [repeat split; assumption|].
    unfold reading_lists_ok. cbn [fst reading_lists]. split; [|split].
    + rewrite map_app. apply unique_ids_app_fresh; [exact Hu|reflexivity|].
      intros x [<-|[]]. apply absent_key.
      cbn [ReadingList.id]. unfold next_id. lia.
    + rewrite map_app. cbn [map ReadingList.child_profile_id ReadingList.book_id].
      apply (Permutation_NoDup (Permutation_cons_append _ _)).
      constructor; [apply listed_none, Hl|exact Hn].
    + apply Forall_app. split; [exact Hb|]. constructor; [cbn; lia|constructor].
  - intros u item_id data now. unfold update_reading_list.
    destruct (lookup ReadingList.id item_id (reading_lists st)) as [item|] eqn:Hi;
      [|repeat split; assumption].
    destruct (get_profile (database st) _) as [profile|];
      [|repeat split; assumption].
    destruct (negb _); [repeat split; assumption|].
    destruct (updated_item_keeps item data now) as (K1 & K2 & K3 & _ & K5).
    pose proof (lookup_some ReadingList.id _ _ _ Hi) as [Hid Hin].
    destruct (save_unique ReadingList.id item_id (reading_lists st) item
                (updated_item item data now) Hu Hi ltac:(congruence))
      as (pre & post & Hrows & Hsave).
    assert (Hok : reading_lists_ok
              (mkStore (database st) (progress_assessments st) (books st)
                 (save ReadingList.id (updated_item item data now)
                       (reading_lists st)))).
    { unfold reading_lists_ok. cbn [reading_lists]. split; [|split].
      - rewrite (save_keys ReadingList.id). exact Hu.
      - rewrite Hsave. rewrite Hrows in Hn.
        rewrite map_app in *. cbn [map] in *. rewrite K2, K3. exact Hn.
      - rewrite Hsave. rewrite Hrows in Hb.
        apply Forall_app in Hb. destruct Hb as [Hb1 Hb2].
        inversion Hb2; subst. apply Forall_app. split; [exact Hb1|].
        constructor; [apply K5; assumption|assumption]. }
    cbn [books]. destruct (lookup Book.id _ (books st)); exact Hok.
  - intros u item_id. unfold remove_from_reading_list.
    destruct (lookup ReadingList.id item_id (reading_lists st)) as [item|];
      [|repeat split; assumption].
    destruct (get_profile (database st) _) as [profile|];
      [|repeat split; assumption].
    destruct (negb _); [repeat split; assumption|].
    unfold reading_lists_ok. cbn [fst reading_lists]. split; [|split].
    + apply unique_ids_filter, Hu.
    + apply pairs_after_removal, Hn.
    + apply Forall_forall. intros x Hx. apply filter_In in Hx.
      rewrite Forall_forall in Hb. apply Hb, Hx.
Qed.

Lemma reading_lists_stay_well_formed_witness :
  (forall u data now, reading_lists_ok (fst (add_to_reading_list library u data now)))
  /\ (forall u item_id data now,
         reading_lists_ok (fst (update_reading_list library u item_id data now)))
  /\ (forall u item_id,
         reading_lists_ok (fst (remove_from_reading_list library u item_id))).
Proof.
  apply (reading_lists_stay_well_formed library).
  repeat split; constructor.
Defined.


Section AddedBook.

Variables (st : Store) (u : Z) (data : ReadingListData.t) (now : Z).
Variables (pid bid : Z) (profile : ChildProfile.t) (book : Book.t).

Hypothesis Hpid : ReadingListData.child_profile_id data = Some pid.
Hypothesis Hbid : ReadingListData.book_id data = Some bid.
Hypothesis Hprofile : get_profile (database st) pid = Some profile.
Hypothesis Howner : ChildProfile.user_id profile = u.
Hypothesis Hbook : lookup Book.id bid (books st) = Some book.
Hypothesis Hnew : listed pid bid (reading_lists st) = None.





End AddedBook.




(** ** Updating an item *)

(** For a body that is a JSON object whose progress, when present, is an
    integer (the fields of [ReadingUpdateData.t]), an update is answered
    with 200 exactly when the item, its profile and its book exist and the
    profile belongs to the caller.  With any other reply the store is
    unchanged, except when only the book is missing: the handler commits
    before it looks the book up, so the reply is 500 while the item has
    been updated. *)
Theorem update_reading_list_outcomes
    (st : Store) (u item_id : Z) (data : ReadingUpdateData.t) (now : Z) :
  (reply_code (snd (update_reading_list st u item_id data now)) = 200 <->
   exists item profile book,
     lookup ReadingList.id item_id (reading_lists st) = Some item
     /\ get_profile (database st) (ReadingList.child_profile_id item) = Some profile
     /\ ChildProfile.user_id profile = u
     /\ lookup Book.id (ReadingList.book_id item) (books st) = Some book)
  /\ (reply_code (snd (update_reading_list st u item_id data now)) <> 200 ->
      fst (update_reading_list st u item_id data now) = st
      \/ exists item,
           lookup ReadingList.id item_id (reading_lists st) = Some item
           /\ lookup Book.id (ReadingList.book_id item) (books st) = None
           /\ reply_code (snd (update_reading_list st u item_id data now)) = 500
           /\ fst (update_reading_list st u item_id data now)
              = mkStore (database st) (progress_assessments st) (books st)
                  (save ReadingList.id (updated_item item data now)
                        (reading_lists st))).
Proof.
  unfold update_reading_list.
  destruct (lookup ReadingList.id item_id (reading_lists st)) as [item|] eqn:Hi.
  2:{ split; [|auto]. split; [discriminate|].
      intros (i & p & b & H & _). discriminate. }
  destruct (get_profile (database st) _) as [profile|] eqn:Hp.
  2:{ split; [|auto]. split; [discriminate|].
      intros (i & p & b & H1 & H2 & _). congruence. }
  destruct (Z.eqb_spec (ChildProfile.user_id profile) u) as [E|E]; cbn [negb].
  2:{ split; [|auto]. split; [discriminate|].
      intros (i & p & b & H1 & H2 & H3 & _). congruence. }
  destruct (updated_item_keeps item data now) as (_ & _ & K3 & _).
  cbn [books]. rewrite K3.
  destruct (lookup Book.id (ReadingList.book_id item) (books st)) as [book|] eqn:Hb.
  - split; [|intros H; exfalso; apply H; reflexivity].
    split; [intros _; exists item, profile, book; auto|reflexivity].
  - split.
    + split; [discriminate|].
      intros (i & p & b & H1 & _ & _ & H4). congruence.
    + intros _. right. exists item. auto.
Qed.

(** The two fields of an update are validated and applied independently.
    A percentage within 0..100 is stored, any other is ignored without
    failing the request; a status among to-read, in-progress, completed is
    stored, any other is ignored.  Setting completed stamps [completed_at]
    and leaves the percentage alone; no status clears [completed_at].
    Nothing else changes, in this item or in any other. *)
Theorem update_reading_list_is_fieldwise
    (st : Store) (u item_id : Z) (data : ReadingUpdateData.t) (now : Z)
    (item : ReadingList.t) (profile : ChildProfile.t) (book : Book.t) :
  lookup ReadingList.id item_id (reading_lists st) = Some item ->
  get_profile (database st) (ReadingList.child_profile_id item) = Some profile ->
  ChildProfile.user_id profile = u ->
  lookup Book.id (ReadingList.book_id item) (books st) = Some book ->
  let st' := fst (update_reading_list st u item_id data now) in
  let valid :=
    match ReadingUpdateData.status data with
    | Some (Py.JStr s) =>
      if existsb (String.eqb s) reading_statuses then Some s else None
    | _ => None
    end in
  exists item',
    snd (update_reading_list st u item_id data now)
    = mkReply 200 (Some "Reading list item updated") (Some (item', book))
    /\ lookup ReadingList.id item_id (reading_lists st') = Some item'
    /\ (forall k, k <> item_id ->
                  lookup ReadingList.id k (reading_lists st')
                  = lookup ReadingList.id k (reading_lists st))
    /\ ReadingList.progress_percentage item'
       = match ReadingUpdateData.progress_percentage data with
         | Some p => if (0 <=? p) && (p <=? 100)
                     then p else ReadingList.progress_percentage item
         | None => ReadingList.progress_percentage item
         end
    /\ ReadingList.status item' = get_default valid (ReadingList.status item)
    /\ ReadingList.completed_at item'
       = match valid with
         | Some s => if String.eqb s "completed"
                     then Some now else ReadingList.completed_at item
         | None => ReadingList.completed_at item
         end
    /\ (ReadingList.id item', ReadingList.child_profile_id item',
        ReadingList.book_id item', ReadingList.created_at item')
       = (ReadingList.id item, ReadingList.child_profile_id item,
          ReadingList.book_id item, ReadingList.created_at item)
    /\ database st' = database st
    /\ books st' = books st
    /\ progress_assessments st' = progress_assessments st.
Proof.
  intros Hi Hp Hu Hb st' valid. subst st' valid.
  pose proof (lookup_some ReadingList.id _ _ _ Hi) as [Hid _].
  destruct (updated_item_keeps item data now) as (K1 & K2 & K3 & K4 & _).
  unfold update_reading_list. rewrite Hi, Hp, Hu, Z.eqb_refl. cbn [negb books].
  rewrite K3, Hb. cbn [fst snd reading_lists database books progress_assessments].
  exists (updated_item item data now).
  split; [reflexivity|].
  split; [apply (lookup_save_same ReadingList.id _ _ item); congruence|].
  split; [intros k Hk; apply (lookup_save_other ReadingList.id); congruence|].
  rewrite K1, K2, K3, K4.
  unfold updated_item.
  destruct (ReadingUpdateData.status data) as [[| | |s|]|];
    cbn [Py.in_strings];
    try destruct (existsb (String.eqb s) reading_statuses);
    try destruct (String.eqb s "completed");
    destruct (ReadingUpdateData.progress_percentage data) as [p|];
    try destruct ((0 <=? p) && (p <=? 100));
    repeat split.
Qed.

Lemma update_reading_list_is_fieldwise_witness :
  let shelf :=
    mkStore fresh_db [] [moby] [ReadingList.mk 1 1 1 "in-progress" 40 6000 None] in
  let data := ReadingUpdateData.mk (Some (Py.JStr "completed")) (Some 150) in
  let st' := fst (update_reading_list shelf 7 1 data 7000) in
  exists item',
    snd (update_reading_list shelf 7 1 data 7000)
    = mkReply 200 (Some "Reading list item updated") (Some (item', moby))
    /\ lookup ReadingList.id 1 (reading_lists st') = Some item'
    /\ (forall k, k <> 1 ->
                  lookup ReadingList.id k (reading_lists st')
                  = lookup ReadingList.id k (reading_lists shelf))
    /\ ReadingList.progress_percentage item' = 40
    /\ ReadingList.status item' = "completed"
    /\ ReadingList.completed_at item' = Some 7000
    /\ (ReadingList.id item', ReadingList.child_profile_id item',
        ReadingList.book_id item', ReadingList.created_at item')
       = (1, 1, 1, 6000)
    /\ database st' = database shelf
    /\ books st' = books shelf
    /\ progress_assessments st' = progress_assessments shelf.
Proof.
  apply (update_reading_list_is_fieldwise
           (mkStore fresh_db [] [moby]
                    [ReadingList.mk 1 1 1 "in-progress" 40 6000 None])
           7 1 (ReadingUpdateData.mk (Some (Py.JStr "completed")) (Some 150)) 7000
           (ReadingList.mk 1 1 1 "in-progress" 40 6000 None) ada moby);
    reflexivity.
Defined.

(** ** Removing an item *)

Lemma lookup_filter_out {A : Type} (key : A -> Z) (k k0 : Z) (rows : list A) :
  lookup key k (filter (fun r => negb (key r =? k0)) rows)
  = if k =? k0 then None else lookup key k rows.
Proof.
  unfold lookup. induction rows as [|r rows IH]; simpl.
  - destruct (k =? k0); reflexivity.
  - destruct (Z.eqb_spec (key r) k0) as [E|E]; cbn [negb].
    + rewrite IH. destruct (Z.eqb_spec k k0) as [E'|E']; [reflexivity|].
      destruct (Z.eqb_spec (key r) k); [congruence|reflexivity].
    + cbn [find]. destruct (Z.eqb_spec (key r) k) as [E'|E'].
      * subst k. apply Z.eqb_neq in E. rewrite E. reflexivity.
      * exact IH.
Qed.

Lemma reading_list_after_removal (bs : list Book.t) (pid item_id : Z)
    (rows : list ReadingList.t) :
  flat_map (fun item =>
              match lookup Book.id (ReadingList.book_id item) bs with
              | Some book => [(item, book)]
              | None => []
              end)
           (filter (fun r => ReadingList.child_profile_id r =? pid)
                   (filter (fun r => negb (ReadingList.id r =? item_id)) rows))
  = filter (fun entry => negb (ReadingList.id (fst entry) =? item_id))
      (flat_map (fun item =>
                   match lookup Book.id (ReadingList.book_id item) bs with
                   | Some book => [(item, book)]
                   | None => []
                   end)
                (filter (fun r => ReadingList.child_profile_id r =? pid) rows)).
Proof.
  induction rows as [|r rows IH]; [reflexivity|]. cbn [filter].
  destruct (ReadingList.id r =? item_id) eqn:E1;
    destruct (ReadingList.child_profile_id r =? pid) eqn:E2;
    cbn [negb filter flat_map]; rewrite ?E2; cbn [flat_map]; try exact IH.
  - rewrite filter_app, <- IH.
    destruct (lookup Book.id (ReadingList.book_id r) bs);
      cbn [filter fst app]; rewrite ?E1; reflexivity.
  - rewrite filter_app, <- IH.
    destruct (lookup Book.id (ReadingList.book_id r) bs);
      cbn [filter fst app]; rewrite ?E1; reflexivity.
Qed.

(** A removal is answered with 200 exactly when the item and its profile
    exist and the profile belongs to the caller; otherwise nothing changes.
    After a removal the item can no longer be looked up, every other item
    is unchanged, and every reading list is the earlier one without that
    item. *)
Theorem remove_from_reading_list_outcomes (st : Store) (u item_id : Z) :
  let st' := fst (remove_from_reading_list st u item_id) in
  let code := reply_code (snd (remove_from_reading_list st u item_id)) in
  (code = 200 <->
   exists item profile,
     lookup ReadingList.id item_id (reading_lists st) = Some item
     /\ get_profile (database st) (ReadingList.child_profile_id item) = Some profile
     /\ ChildProfile.user_id profile = u)
  /\ (code <> 200 -> st' = st)
  /\ (code = 200 ->
      lookup ReadingList.id item_id (reading_lists st') = None
      /\ (forall k, k <> item_id ->
                    lookup ReadingList.id k (reading_lists st')
                    = lookup ReadingList.id k (reading_lists st))
      /\ database st' = database st
      /\ books st' = books st
      /\ progress_assessments st' = progress_assessments st
      /\ forall v pid,
           reply_body (get_reading_list st' v pid)
           = option_map
               (filter (fun entry => negb (ReadingList.id (fst entry) =? item_id)))
               (reply_body (get_reading_list st v pid))).
Proof.
  intros st' code. subst st' code. unfold remove_from_reading_list.
  destruct (lookup ReadingList.id item_id (reading_lists st)) as [item|] eqn:Hi.
  2:{ cbn. split; [|split; [reflexivity|discriminate]]. split; [discriminate|].
      intros (i & p & H & _). discriminate. }
  destruct (get_profile (database st) _) as [profile|] eqn:Hp.
  2:{ cbn. split; [|split; [reflexivity|discriminate]]. split; [discriminate|].
      intros (i & p & H1 & H2 & _). congruence. }
  destruct (Z.eqb_spec (ChildProfile.user_id profile) u) as [E|E]; cbn [negb].
  2:{ cbn. split; [|split; [reflexivity|discriminate]]. split; [discriminate|].
      intros (i & p & H1 & H2 & H3). congruence. }
  cbn [fst snd reply_code reading_lists database books progress_assessments].
  split; [split; [intros _; exists item, profile; auto|reflexivity]|].
  split; [intros H; exfalso; apply H; reflexivity|]. intros _.
  split; [rewrite lookup_filter_out, Z.eqb_refl; reflexivity|].
  split.
  { intros k Hk. rewrite lookup_filter_out.
    apply Z.eqb_neq in Hk. rewrite Hk. reflexivity. }
  repeat split. intros v pid. unfold get_reading_list.
  cbn [database reading_lists books].
  destruct (get_profile (database st) pid) as [owner|]; [|reflexivity].
  destruct (negb _); [reflexivity|]. cbn [reply_body option_map].
  f_equal. apply reading_list_after_removal.
Qed.
